(** * lxe: bridge networking of the LXD client layer (package lxf)

    Shallow embedding of [src/lxf/networking.go] (module [Lxf]) and of the
    later revision of the same file kept in [src/unnamed/part_000]
    (module [Part000]), with the Go standard-library primitives they call
    (module [Go]).

    - Bytes are [Z] in [0, 256) with the wrap-around of Go's [byte]
      arithmetic written out.
    - A [net.IP] is a Go byte slice: [nil] or a reference to a backing array
      in a store, so that the aliasing between [subnet.IP], [networkIP],
      [start] and the lease entries is visible.
    - [rand.Uint32] is an oracle: the list of the values it returns, which is
      also the number of loop iterations that are observed. *)

From Stdlib Require Import ZArith Lia Bool.
From stdpp Require Import base option list gmap strings.

(** ** Go standard library: bytes, encoding/binary, net *)
Module Go.
Local Open Scope Z_scope.

(** Conversion of an integer to [byte]. *)
Definition wrap8 (z : Z) : Z := z mod 256.

(** [^b] on a byte. *)
Definition not8 (b : Z) : Z := Z.lxor b 255.

(** [bytes.Compare]: lexicographic order of two byte slices, a nil slice
    being the empty one; the result is -1, 0 or +1. *)
Fixpoint bytes_Compare (a b : list Z) : Z :=
  match a, b with
  | [], [] => 0
  | [], _ :: _ => -1
  | _ :: _, [] => 1
  | x :: a', y :: b' =>
      if x <? y then -1 else if y <? x then 1 else bytes_Compare a' b'
  end.

(** [bytealg.Equal]. *)
Fixpoint bytes_Equal (a b : list Z) : bool :=
  match a, b with
  | [], [] => true
  | x :: a', y :: b' => (x =? y) && bytes_Equal a' b'
  | _, _ => false
  end.

Definition IPv4len : nat := 4.
Definition IPv6len : nat := 16.
Definition v4InV6Prefix : list Z := [0; 0; 0; 0; 0; 0; 0; 0; 0; 0; 255; 255].

(** [net.IPv4(a, b, c, d)]: a fresh 16-byte slice, the IPv4-mapped form. *)
Definition IPv4 (a b c d : Z) : list Z := v4InV6Prefix ++ [a; b; c; d].

(** [net.IP.Equal]: a 4-byte address and its 16-byte form are equal. *)
Definition IP_Equal (ip x : list Z) : bool :=
  if (length ip =? length x)%nat then bytes_Equal ip x
  else if (length ip =? IPv4len)%nat && (length x =? IPv6len)%nat then
    bytes_Equal (take 12 x) v4InV6Prefix && bytes_Equal ip (drop 12 x)
  else if (length ip =? IPv6len)%nat && (length x =? IPv4len)%nat then
    bytes_Equal (take 12 ip) v4InV6Prefix && bytes_Equal (drop 12 ip) x
  else false.

(** [binary.LittleEndian.PutUint32(b, v)] on a 4-byte buffer. *)
Definition PutUint32 (v : Z) : list Z :=
  [ Z.land v 255;
    Z.land (Z.shiftr v 8) 255;
    Z.land (Z.shiftr v 16) 255;
    Z.land (Z.shiftr v 24) 255 ].

(** [strconv.FormatBool]. *)
Definition FormatBool (b : bool) : string := if b then "true" else "false".

(** *** Byte slices in a store *)

Abbreviation loc := nat (only parsing).

(** The backing arrays, by location. *)
Abbreviation heap := (list (list Z)) (only parsing).

(** A [net.IP] or [net.IPMask] value: [None] is the nil slice, [Some l] the
    slice over the whole backing array at [l]. *)
Abbreviation net_IP := (option loc) (only parsing).

Definition bytes_at (h : heap) (p : net_IP) : list Z :=
  match p with
  | None => []
  | Some l => default [] (h !! l)
  end.
#[global] Arguments bytes_at : simpl never.

(** [p[i]] as an expression; [None] is the index-out-of-range panic. *)
Definition index (h : heap) (p : net_IP) (i : nat) : option Z :=
  bytes_at h p !! i.

(** [p[i] = b]; [None] is the index-out-of-range panic. *)
Definition store (h : heap) (p : net_IP) (i : nat) (b : Z) : option heap :=
  match p with
  | None => None
  | Some l =>
      if decide (i < length (bytes_at h p))%nat
      then Some (<[l := <[i := b]> (bytes_at h p)]> h)
      else None
  end.

(** [make] or any other fresh allocation holding [bs]. *)
Definition alloc (h : heap) (bs : list Z) : net_IP * heap :=
  (Some (length h), h ++ [bs]).

(** A slice of the store [h]: nil, or over one of its arrays. *)
Definition valid (h : heap) (p : net_IP) : Prop :=
  match p with
  | None => True
  | Some l => (l < length h)%nat
  end.

(** [append(s, xs...)] for a slice [s] of length [len] whose backing array,
    from the first element of [s] up to its capacity, is [arr]: the
    elements of the resulting slice, and [arr] afterwards.  With capacity
    for [xs] the new elements are written in place, behind the elements of
    [s], where every other slice of the array sees them; without, the result
    is a new array and [arr] stays as it is. *)
Definition append {A} (arr : list A) (len : nat) (xs : list A)
    : list A * list A :=
  if decide (len + length xs ≤ length arr)%nat
  then (take len arr ++ xs, take len arr ++ xs ++ drop (len + length xs) arr)
  else (take len arr ++ xs, arr).

(** The address a.b.c.d as a number. *)
Definition addr4 (a b c d : Z) : Z := ((a * 256 + b) * 256 + c) * 256 + d.

(** [net.IPNet]. *)
Record IPNet := { IP : net_IP; Mask : net_IP }.

(** What is known of a call after the random source has delivered a
    finite number of values: it returned, it panicked, or it is still
    in its loop. *)
Inductive outcome :=
| Returned (ip : list Z)
| Panicked
| Pending.
End Go.

(** ** The collaborators: LXD API types, the LXD server, the CNI layer *)
Module Api.
(** An [error] value, by the text of [err.Error()]; [None] is [nil]. *)
Definition error := option string.

(** [api.NetworkPut]; a [Config] of [None] is the nil map. *)
Record NetworkPut := {
  Description : string;
  Config : option (gmap string string) }.

(** [api.NetworksPost]. *)
Record NetworksPost := {
  post_NetworkPut : NetworkPut;
  post_Managed : bool;
  post_Name : string;
  post_Type : string }.

(** [api.Network], with the fields this package reads. *)
Record Network := {
  net_NetworkPut : NetworkPut;
  net_Name : string;
  net_Type : string;
  net_Managed : bool }.

(** [network.Writable()] *)
Definition Writable (network : Network) : NetworkPut := net_NetworkPut network.

(** [api.NetworkLease], with the field this package reads. *)
Record NetworkLease := { Address : string }.

(** The methods of the LXD server ([l.server]) that this file calls, as
    transitions of the server's state [σ].  [GetNetwork] answers with an
    error or with the network and its ETag. *)
Class ContainerServer (σ : Type) := {
  GetNetwork : string → σ → (string + Network * string) * σ;
  CreateNetwork : NetworksPost → σ → error * σ;
  UpdateNetwork : string → NetworkPut → string → σ → error * σ;
  GetNetworkLeases : string → σ → (string + list NetworkLease) * σ }.

(** The requests sent to the server, in order. *)
Inductive call :=
| CallGetNetwork (name : string)
| CallCreateNetwork (post : NetworksPost)
| CallUpdateNetwork (name : string) (put : NetworkPut) (ETag : string)
| CallGetNetworkLeases (name : string).

(** The configuration a request writes, for the requests that write one. *)
Definition written_Config (c : call) : option (option (gmap string string)) :=
  match c with
  | CallCreateNetwork post => Some (Config (post_NetworkPut post))
  | CallUpdateNetwork _ put _ => Some (Config put)
  | _ => None
  end.

(** [Sandbox.Metadata], [Sandbox], [Container] and the process state, with
    the fields [DetachCNI] reads. *)
Record SandboxMetadata := { Namespace : string; Name : string }.
Record Sandbox := { Metadata : SandboxMetadata }.
Record Container := { ID : string }.
Record ContainerState := { Pid : Z }.

(** [c.Sandbox()], [c.State()] and [network.DetachCNIInterface], as
    transitions of the state [σ] of what they talk to. *)
Class CNIRuntime (σ : Type) := {
  Container_Sandbox : Container → σ → (string + Sandbox) * σ;
  Container_State : Container → σ → (string + ContainerState) * σ;
  DetachCNIInterface : string → string → string → Z → σ → error * σ }.

Inductive cni_call :=
| CallSandbox (c : Container)
| CallState (c : Container)
| CallDetachCNIInterface (namespace name id : string) (pid : Z).

(** [Sandbox] with what [AttachCNI] reads and writes of it:
    [NetworkConfig.ModeData], [None] being the nil map. *)
Record NetworkSandbox := {
  ns_Metadata : SandboxMetadata;
  ModeData : option (gmap string string) }.

(** [c.Sandbox()], [c.State()], [network.AttachCNIInterface] (its result
    converted to a string) and [s.apply()], as transitions of the state [σ]
    of what they talk to. *)
Class CNIAttachRuntime (σ : Type) := {
  Attach_Sandbox : Container → σ → (string + NetworkSandbox) * σ;
  Attach_State : Container → σ → (string + ContainerState) * σ;
  AttachCNIInterface : string → string → string → Z → σ → (string + string) * σ;
  Sandbox_apply : NetworkSandbox → σ → error * σ }.

Inductive attach_call :=
| CallAttachSandbox (c : Container)
| CallAttachState (c : Container)
| CallAttachCNIInterface (namespace name id : string) (pid : Z)
| CallApply (s : NetworkSandbox).
End Api.

(** ** Calls with a log: a state monad in which [None] is a panic *)
Module Eff.
Definition M (W A : Type) : Type := W → option A * W.

#[global] Instance M_ret {W} : MRet (M W) := λ A a w, (Some a, w).
#[global] Instance M_bind {W} : MBind (M W) := λ A B k m w,
  match m w with
  | (Some a, w') => k a w'
  | (None, w') => (None, w')
  end.

Definition panic {W A} : M W A := λ w, (None, w).

(** One logged call of a method [f] of a collaborator. *)
Definition logged {σ C A} (f : σ → A * σ) (c : C) : M (σ * list C) A :=
  λ '(s, log), let '(a, s') := f s in (Some a, (s', log ++ [c])).
End Eff.

(** ** src/lxf/networking.go *)
Module Lxf.
Import Go.
Local Open Scope Z_scope.

(** [subnet.IP[i] | ^subnet.Mask[i]] *)
Definition broadcast_byte (h : heap) (subnet : IPNet) (i : nat) : option Z :=
  ip ← index h (IP subnet) i;
  m ← index h (Mask subnet) i;
  Some (Z.lor ip (not8 m)).

(** [subnet.IP[i] + (v &^ subnet.Mask[i])] *)
Definition trial_byte (h : heap) (subnet : IPNet) (i : nat) (v : Z) : option Z :=
  ip ← index h (IP subnet) i;
  m ← index h (Mask subnet) i;
  Some (wrap8 (ip + Z.land v (not8 m))).

(** The candidate of one iteration, for the value [v] of [rand.Uint32]. *)
Definition trial_of (h : heap) (subnet : IPNet) (v : Z) : option (list Z) :=
  match PutUint32 v with
  | [v0; v1; v2; v3] =>
      b0 ← trial_byte h subnet 0 v0;
      b1 ← trial_byte h subnet 1 v1;
      b2 ← trial_byte h subnet 2 v2;
      b3 ← trial_byte h subnet 3 v3;
      Some (IPv4 b0 b1 b2 b3)
  | _ => None
  end.

(** The range check of lines 139-142: [true] means [continue]. *)
Definition out_of_range (h : heap) (start end_ : net_IP) (trial : list Z) : bool :=
  (bytes_Compare trial (bytes_at h start) <? 0)
  || (bytes_Compare trial (bytes_at h end_) >? 0).

(** The scan of lines 144-149: [true] means [continue OUTER]. *)
Definition leased (h : heap) (leases : list net_IP) (trial : list Z) : bool :=
  existsb (λ lease, IP_Equal trial (bytes_at h lease)) leases.

(** A candidate that passes both checks is the one returned. *)
Definition accepted (h : heap) (leases : list net_IP) (start end_ : net_IP)
    (trial : list Z) : bool :=
  negb (out_of_range h start end_ trial) && negb (leased h leases trial).

(** Lines 117-120: [start = networkIP; start[3]++] when [start] is nil.
    [networkIP] is the slice [subnet.IP] itself, so the increment is
    written into the caller's subnet and into the lease entry appended just
    before. *)
Definition default_start (h : heap) (networkIP start : net_IP)
    : option (net_IP * heap) :=
  match start with
  | None =>
      b ← index h networkIP 3;
      h' ← store h networkIP 3 (wrap8 (b + 1));
      Some (networkIP, h')
  | Some _ => Some (start, h)
  end.

(** Lines 121-124: [end = broadcastIP; end[3]--] when [end] is nil; the
    decrement is written into the lease entry of [broadcastIP] too. *)
Definition default_end (h : heap) (broadcastIP end_ : net_IP)
    : option (net_IP * heap) :=
  match end_ with
  | None =>
      b ← index h broadcastIP 3;
      h' ← store h broadcastIP 3 (wrap8 (b - 1));
      Some (broadcastIP, h')
  | Some _ => Some (end_, h)
  end.

(** Lines 107-124: everything before the loop, on the elements of
    [leases]: the slices and the store the loop works with.  What the
    [append] of line 114 writes into the array behind [leases] is in
    [prologue_slice] below. *)
Definition prologue (subnet : IPNet) (leases : list net_IP) (start end_ : net_IP)
    (h : heap) : option (list net_IP * net_IP * net_IP * heap) :=
  let networkIP := IP subnet in
  bc ← mapM (broadcast_byte h subnet) [0; 1; 2; 3]%nat;
  let '(broadcastIP, h) := alloc h bc in
  let leases := leases ++ [networkIP; broadcastIP] in
  '(start, h) ← default_start h networkIP start;
  '(end_, h) ← default_end h broadcastIP end_;
  Some (leases, start, end_, h).

(** Lines 126-156: the loop, one iteration per drawn value. *)
Fixpoint probe (h : heap) (subnet : IPNet) (leases : list net_IP)
    (start end_ : net_IP) (draws : list Z) : outcome :=
  match draws with
  | [] => Pending
  | v :: draws =>
      match trial_of h subnet v with
      | None => Panicked
      | Some trial =>
          if out_of_range h start end_ trial then
            probe h subnet leases start end_ draws
          else if leased h leases trial then
            probe h subnet leases start end_ draws
          else Returned trial
      end
  end.

(** [FindFreeIP(subnet, leases, start, end)], with the store it leaves. *)
Definition FindFreeIP (subnet : IPNet) (leases : list net_IP) (start end_ : net_IP)
    (h : heap) (draws : list Z) : outcome * heap :=
  match prologue subnet leases start end_ h with
  | None => (Panicked, h)
  | Some (leases, start, end_, h') =>
      (probe h' subnet leases start end_ draws, h')
  end.

(** Lines 107-124 with [leases] as the slice it is: its length [len] and
    the array [arr] behind it, from its first element to its capacity.  The
    second component is that array after the prologue: line 114 is not
    reached when the loop of lines 111-113 panics, and is an [append] of two
    elements otherwise. *)
Definition prologue_slice (subnet : IPNet) (arr : list net_IP) (len : nat)
    (start end_ : net_IP) (h : heap)
    : option (list net_IP * net_IP * net_IP * heap) * list net_IP :=
  let networkIP := IP subnet in
  match mapM (broadcast_byte h subnet) [0; 1; 2; 3]%nat with
  | None => (None, arr)
  | Some bc =>
      let '(broadcastIP, h) := alloc h bc in
      let '(leases, arr) := append arr len [networkIP; broadcastIP] in
      ('(start, h) ← default_start h networkIP start;
       '(end_, h) ← default_end h broadcastIP end_;
       Some (leases, start, end_, h),
       arr)
  end.

(** [FindFreeIP(subnet, leases, start, end)] with the store and the array
    behind [leases] it leaves. *)
Definition FindFreeIP_slice (subnet : IPNet) (arr : list net_IP) (len : nat)
    (start end_ : net_IP) (h : heap) (draws : list Z)
    : outcome * heap * list net_IP :=
  match prologue_slice subnet arr len start end_ h with
  | (None, arr) => (Panicked, h, arr)
  | (Some (leases, start, end_, h'), arr) =>
      (probe h' subnet leases start end_ draws, h', arr)
  end.

Section Client.
Import Api Eff.
Local Open Scope string_scope.

(** [net.ParseCIDR], whose network is given by the bytes of its [IP] and
    [Mask]; the [String] method of [net.IPNet]; the constant [ErrorLXDNotFound] of the
    package. *)
Variable ParseCIDR : string → string + list Z * (list Z * list Z).
Variable IPNet_String : list Z → list Z → string.
Variable ErrorLXDNotFound : string.

Context {σ : Type} `{!ContainerServer σ}.

(** Lines 18-29; [None] is the panic of [net.IP[3]++], [inl] is
    [return err]. *)
Definition bridge_address (cidr : string) : option (string + string) :=
  if decide (cidr = "") then Some (inr "auto")
  else
    match ParseCIDR cidr with
    | inl err => Some (inl err)
    | inr (_, (ip, mask)) =>
        b ← ip !! 3%nat;
        Some (inr (IPNet_String (<[3%nat := wrap8 (b + 1)]> ip) mask))
    end.

(** Lines 33-43: [put.Config]. *)
Definition put_Config (address : string) : gmap string string :=
  {[ "ipv4.address" := address;
     "ipv4.dhcp" := FormatBool true;
     "ipv4.nat" := FormatBool true;
     "ipv6.address" := "none";
     "raw.dnsmasq" := "port=0" ]}.

(** Lines 68-70: [for k, v := range put.Config { network.Config[k] = v }];
    the outer [None] is the panic of an assignment to an entry of a nil
    map. *)
Definition merge_Config (put : gmap string string)
    (config : option (gmap string string))
    : option (option (gmap string string)) :=
  match config with
  | None => if decide (put = ∅) then Some None else None
  | Some cfg => Some (Some (map_fold (λ k v acc, <[k := v]> acc) cfg put))
  end.

(** [m[k]] on a Go map: the empty string when [k] is absent or [m] is
    nil. *)
Definition config_get (config : option (gmap string string)) (k : string)
    : string :=
  default "" (config ≫= (.!! k)).

(** [EnsureBridge(name, cidr, nat, createOnly)]. *)
Definition EnsureBridge (name cidr : string) (nat createOnly : bool)
    : M (σ * list call) error :=
  match bridge_address cidr with
  | None => panic
  | Some (inl err) => mret (Some err)
  | Some (inr address) =>
      let put := {| Description := "managed by LXE, default bridge";
                    Config := Some (put_Config address) |} in
      r ← logged (GetNetwork name) (CallGetNetwork name);
      match r with
      | inl err =>
          if decide (err = ErrorLXDNotFound) then
            let post := {| post_Name := name; post_Type := "bridge";
                           post_Managed := true; post_NetworkPut := put |} in
            logged (CreateNetwork post) (CallCreateNetwork post)
          else mret (Some err)
      | inr (network, ETag) =>
          if decide (net_Type network ≠ "bridge") then
            mret (Some ("Expected " ++ name ++ " to be a bridge, but is "
                        ++ net_Type network))
          else if createOnly then mret None
          else
            match merge_Config (put_Config address)
                    (Config (net_NetworkPut network)) with
            | None => panic
            | Some merged =>
                let network :=
                  {| net_NetworkPut :=
                       {| Description := Description (net_NetworkPut network);
                          Config := merged |};
                     net_Name := net_Name network;
                     net_Type := net_Type network;
                     net_Managed := net_Managed network |} in
                logged (UpdateNetwork name (Writable network) ETag)
                       (CallUpdateNetwork name (Writable network) ETag)
            end
      end
  end.
(** [net.ParseIP]: the bytes of the address, [None] for nil. *)
Variable ParseIP : string → option (list Z).

(** A parsed address as a slice of its own. *)
Definition alloc_IP (h : heap) (ip : option (list Z)) : net_IP * heap :=
  match ip with
  | None => (None, h)
  | Some bs => alloc h bs
  end.

(** [FindFreeIPBridgeLXD(bridge)], lines 76-102: [inl] is the returned
    error, [inr] the address, or [Pending] while [FindFreeIP] is in its
    loop. *)
Definition FindFreeIPBridgeLXD (bridge : string) (draws : list Z)
    : M (σ * list call) (string + outcome) :=
  r ← logged (GetNetwork bridge) (CallGetNetwork bridge);
  match r with
  | inl err => mret (inl err)
  | inr (network, _) =>
      let config := Config (net_NetworkPut network) in
      if decide (config_get config "ipv4.dhcp.ranges" ≠ "") then
        mret (inl ("Not yet implemented to find an IP with explicitly set ip ranges `ipv4.dhcp.ranges` in bridge " ++ bridge))
      else
        r ← logged (GetNetworkLeases bridge) (CallGetNetworkLeases bridge);
        match r with
        | inl err => mret (inl err)
        | inr rawLeases =>
            let '(leases, h) :=
              foldl (λ '(leases, h) rawIP,
                       let '(ip, h) := alloc_IP h (ParseIP (Address rawIP)) in
                       ((leases ++ [ip])%list, h))
                    (([] : list net_IP), ([] : heap)) rawLeases in
            match ParseCIDR (config_get config "ipv4.address") with
            | inl err => mret (inl err)
            | inr (bridgeIP, (ip, mask)) =>
                let '(bridgeIP, h) := alloc h bridgeIP in
                let '(ip, h) := alloc h ip in
                let '(mask, h) := alloc h mask in
                let bridgeNet := {| IP := ip; Mask := mask |} in
                let leases := (leases ++ [bridgeIP])%list in
                match fst (FindFreeIP bridgeNet leases None None h draws) with
                | Panicked => panic
                | res => mret (inr res)
                end
            end
        end
  end.
End Client.

Section CNI.
Import Api Eff.
Variable ErrorLXDNotFound : string.
Context {σ : Type} `{!CNIRuntime σ}.

(** [DetachCNI(c)], lines 189-212. *)
Definition DetachCNI (c : Container) : M (σ * list cni_call) error :=
  r ← logged (Container_Sandbox c) (CallSandbox c);
  match r with
  | inl err => mret (Some err)
  | inr s =>
      let pid := 0 in
      r ← logged (Container_State c) (CallState c);
      match
        match r with
        | inl err =>
            if decide (err ≠ ErrorLXDNotFound) then inl err else inr pid
        | inr st => inr (Pid st)
        end
      with
      | inl err => mret (Some err)
      | inr pid =>
          err ← logged
            (DetachCNIInterface (Namespace (Metadata s)) (Name (Metadata s))
               (ID c) pid)
            (CallDetachCNIInterface (Namespace (Metadata s))
               (Name (Metadata s)) (ID c) pid);
          match err with
          | Some e => mret (Some e)
          | None => mret None
          end
      end
  end.
End CNI.

Section Attach.
Import Api Eff.
Context {σ : Type} `{!CNIAttachRuntime σ}.

(** [AttachCNI(c)], lines 162-186; the panic is that of an assignment to an
    entry of a nil [ModeData]. *)
Definition AttachCNI (c : Container) : M (σ * list attach_call) error :=
  r ← logged (Attach_Sandbox c) (CallAttachSandbox c);
  match r with
  | inl err => mret (Some err)
  | inr s =>
      r ← logged (Attach_State c) (CallAttachState c);
      match r with
      | inl err => mret (Some err)
      | inr st =>
          r ← logged
            (AttachCNIInterface (Namespace (ns_Metadata s))
               (Name (ns_Metadata s)) (ID c) (Pid st))
            (CallAttachCNIInterface (Namespace (ns_Metadata s))
               (Name (ns_Metadata s)) (ID c) (Pid st));
          match r with
          | inl err => mret (Some err)
          | inr result =>
              match ModeData s with
              | None => panic
              | Some data =>
                  let s := {| ns_Metadata := ns_Metadata s;
                              ModeData := Some (<["result"%string := result]> data) |} in
                  err ← logged (Sandbox_apply s) (CallApply s);
                  match err with
                  | Some e => mret (Some e)
                  | None => mret None
                  end
              end
          end
      end
  end.
End Attach.
End Lxf.

(** ** src/unnamed/part_000: the later revision of networking.go *)
Module Part000.
Import Go.
Local Open Scope Z_scope.

(** Lines 243-249 (the candidate) and 256-261 (the lease scan) are the text
    of lines 131-137 and 144-149 of networking.go: [Lxf.trial_of] and
    [Lxf.leased] are used for them. *)

(** The range check of lines 251-254: [true] means [continue]. *)
Definition out_of_range (h : heap) (start end_ : net_IP) (trial : list Z) : bool :=
  (bytes_Compare trial (bytes_at h start) <=? 0)
  || (bytes_Compare trial (bytes_at h end_) >=? 0).

(** A candidate that passes both checks is the one returned. *)
Definition accepted (h : heap) (leases : list net_IP) (start end_ : net_IP)
    (trial : list Z) : bool :=
  negb (out_of_range h start end_ trial) && negb (Lxf.leased h leases trial).

(** Lines 230-232: the default of [start] is a fresh 16-byte slice built
    by [net.IPv4]. *)
Definition default_start (h : heap) (networkIP start : net_IP)
    : option (net_IP * heap) :=
  match start with
  | None =>
      n0 ← index h networkIP 0;
      n1 ← index h networkIP 1;
      n2 ← index h networkIP 2;
      n3 ← index h networkIP 3;
      Some (alloc h (IPv4 n0 n1 n2 (wrap8 (n3 + 1))))
  | Some _ => Some (start, h)
  end.

(** Lines 234-236: likewise for [end]. *)
Definition default_end (h : heap) (broadcastIP end_ : net_IP)
    : option (net_IP * heap) :=
  match end_ with
  | None =>
      b0 ← index h broadcastIP 0;
      b1 ← index h broadcastIP 1;
      b2 ← index h broadcastIP 2;
      b3 ← index h broadcastIP 3;
      Some (alloc h (IPv4 b0 b1 b2 (wrap8 (b3 - 1))))
  | Some _ => Some (end_, h)
  end.

(** Lines 218-236: everything before the loop, on the elements of
    [leases]; no byte array of the caller is written.  What the [append] of
    line 227 writes into the array behind [leases] is in [prologue_slice]
    below. *)
Definition prologue (subnet : IPNet) (leases : list net_IP) (start end_ : net_IP)
    (h : heap) : option (list net_IP * net_IP * net_IP * heap) :=
  let networkIP := IP subnet in
  bc ← mapM (Lxf.broadcast_byte h subnet) [0; 1; 2; 3]%nat;
  let '(broadcastIP, h) := alloc h bc in
  let leases := leases ++ [networkIP; broadcastIP] in
  '(start, h) ← default_start h networkIP start;
  '(end_, h) ← default_end h broadcastIP end_;
  Some (leases, start, end_, h).

(** Lines 238-266: the loop, one iteration per drawn value. *)
Fixpoint probe (h : heap) (subnet : IPNet) (leases : list net_IP)
    (start end_ : net_IP) (draws : list Z) : outcome :=
  match draws with
  | [] => Pending
  | v :: draws =>
      match Lxf.trial_of h subnet v with
      | None => Panicked
      | Some trial =>
          if out_of_range h start end_ trial then
            probe h subnet leases start end_ draws
          else if Lxf.leased h leases trial then
            probe h subnet leases start end_ draws
          else Returned trial
      end
  end.

(** [FindFreeIP(subnet, leases, start, end)], with the store it leaves. *)
Definition FindFreeIP (subnet : IPNet) (leases : list net_IP) (start end_ : net_IP)
    (h : heap) (draws : list Z) : outcome * heap :=
  match prologue subnet leases start end_ h with
  | None => (Panicked, h)
  | Some (leases, start, end_, h') =>
      (probe h' subnet leases start end_ draws, h')
  end.

(** Lines 218-236 with [leases] as the slice it is: its length [len] and
    the array [arr] behind it, from its first element to its capacity.  The
    second component is that array after the prologue: line 227 is not
    reached when the loop of lines 223-225 panics, and is an [append] of two
    elements otherwise. *)
Definition prologue_slice (subnet : IPNet) (arr : list net_IP) (len : nat)
    (start end_ : net_IP) (h : heap)
    : option (list net_IP * net_IP * net_IP * heap) * list net_IP :=
  let networkIP := IP subnet in
  match mapM (Lxf.broadcast_byte h subnet) [0; 1; 2; 3]%nat with
  | None => (None, arr)
  | Some bc =>
      let '(broadcastIP, h) := alloc h bc in
      let '(leases, arr) := append arr len [networkIP; broadcastIP] in
      ('(start, h) ← default_start h networkIP start;
       '(end_, h) ← default_end h broadcastIP end_;
       Some (leases, start, end_, h),
       arr)
  end.

(** [FindFreeIP(subnet, leases, start, end)] with the store and the array
    behind [leases] it leaves. *)
Definition FindFreeIP_slice (subnet : IPNet) (arr : list net_IP) (len : nat)
    (start end_ : net_IP) (h : heap) (draws : list Z)
    : outcome * heap * list net_IP :=
  match prologue_slice subnet arr len start end_ h with
  | (None, arr) => (Panicked, h, arr)
  | (Some (leases, start, end_, h'), arr) =>
      (probe h' subnet leases start end_ draws, h', arr)
  end.

Section Client.
Import Api Eff.
Local Open Scope string_scope.

Variable ParseCIDR : string → string + list Z * (list Z * list Z).
Variable IPNet_String : list Z → list Z → string.
Variable ErrorLXDNotFound : string.

Context {σ : Type} `{!ContainerServer σ}.

(** [EnsureBridge(name, cidr, nat, createOnly)], lines 128-181.  Lines
    129-153 (the address and [put]) and 176-178 (the merge) are the text
    of networking.go: [Lxf.bridge_address], [Lxf.put_Config] and
    [Lxf.merge_Config] are used for them. *)
Definition EnsureBridge (name cidr : string) (nat createOnly : bool)
    : M (σ * list call) error :=
  match Lxf.bridge_address ParseCIDR IPNet_String cidr with
  | None => panic
  | Some (inl err) => mret (Some err)
  | Some (inr address) =>
      let put := {| Description := "managed by LXE, default bridge";
                    Config := Some (Lxf.put_Config address) |} in
      r ← logged (GetNetwork name) (CallGetNetwork name);
      match r with
      | inl err =>
          if decide (err = ErrorLXDNotFound) then
            let post := {| post_Name := name; post_Type := "bridge";
                           post_Managed := true; post_NetworkPut := put |} in
            logged (CreateNetwork post) (CallCreateNetwork post)
          else mret (Some err)
      | inr (network, ETag) =>
          if decide (net_Type network ≠ "bridge") then
            mret (Some ("expected " ++ name ++ " to be a bridge, but is "
                        ++ net_Type network))
          else if createOnly then mret None
          else
            match Lxf.merge_Config (Lxf.put_Config address)
                    (Config (net_NetworkPut network)) with
            | None => panic
            | Some merged =>
                let network :=
                  {| net_NetworkPut :=
                       {| Description := Description (net_NetworkPut network);
                          Config := merged |};
                     net_Name := net_Name network;
                     net_Type := net_Type network;
                     net_Managed := net_Managed network |} in
                logged (UpdateNetwork name (Writable network) ETag)
                       (CallUpdateNetwork name (Writable network) ETag)
            end
      end
  end.
End Client.

Section Leases.
Import Api Eff.
Local Open Scope string_scope.

Variable ParseCIDR : string → string + list Z * (list Z * list Z).
Variable ParseIP : string → option (list Z).

Context {σ : Type} `{!ContainerServer σ}.

(** [FindFreeIPBridgeLXD(bridge)], lines 185-213.  The lookups of
    [network.Config] and the parsing of the leases are the text of
    networking.go: [Lxf.config_get] and [Lxf.alloc_IP] are used for them. *)
Definition FindFreeIPBridgeLXD (bridge : string) (draws : list Z)
    : M (σ * list call) (string + outcome) :=
  r ← logged (GetNetwork bridge) (CallGetNetwork bridge);
  match r with
  | inl err => mret (inl err)
  | inr (network, _) =>
      let config := Config (net_NetworkPut network) in
      if decide (Lxf.config_get config "ipv4.dhcp.ranges" ≠ "") then
        mret (inl ("not yet implemented to find an IP with explicitly set ip ranges `ipv4.dhcp.ranges` in bridge " ++ bridge))
      else
        r ← logged (GetNetworkLeases bridge) (CallGetNetworkLeases bridge);
        match r with
        | inl err => mret (inl err)
        | inr rawLeases =>
            let '(leases, h) :=
              foldl (λ '(leases, h) rawIP,
                       let '(ip, h) := Lxf.alloc_IP h (ParseIP (Address rawIP)) in
                       ((leases ++ [ip])%list, h))
                    (([] : list net_IP), ([] : heap)) rawLeases in
            match ParseCIDR (Lxf.config_get config "ipv4.address") with
            | inl err => mret (inl err)
            | inr (bridgeIP, (ip, mask)) =>
                let '(bridgeIP, h) := alloc h bridgeIP in
                let '(ip, h) := alloc h ip in
                let '(mask, h) := alloc h mask in
                let bridgeNet := {| IP := ip; Mask := mask |} in
                let leases := (leases ++ [bridgeIP])%list in
                match fst (FindFreeIP bridgeNet leases None None h draws) with
                | Panicked => panic
                | res => mret (inr res)
                end
            end
        end
  end.
End Leases.
End Part000.


(** ** Concrete networks, stores and collaborators used in examples *)
Module Fixtures.
Import Go Api.
Local Open Scope Z_scope.

(** A subnet whose [IP] and [Mask] are the first two arrays of the store. *)
Definition subnet01 : IPNet := {| IP := Some 0%nat; Mask := Some 1%nat |}.

(** 10.0.0.0/24 as [net.ParseCIDR] gives it (4-byte [IP] and [Mask]), the
    lease 10.0.0.5 and the bridge address 10.0.0.1 as [net.ParseIP] and
    [net.ParseCIDR] give them (16 bytes). *)
Definition heap10 : heap :=
  [ [10; 0; 0; 0]; [255; 255; 255; 0]; IPv4 10 0 0 5; IPv4 10 0 0 1 ].
Definition leases10 : list net_IP := [Some 2%nat; Some 3%nat].

(** The same store once [start[3]++] and [end[3]--] have run. *)
Definition heap10' : heap :=
  [ [10; 0; 0; 1]; [255; 255; 255; 0]; IPv4 10 0 0 5; IPv4 10 0 0 1;
    [10; 0; 0; 254] ].

(** 10.0.0.0/24 with explicit bounds 10.0.0.10 and 10.0.0.20. *)
Definition heap_bounds : heap :=
  [ [10; 0; 0; 0]; [255; 255; 255; 0]; IPv4 10 0 0 10; IPv4 10 0 0 20 ].

(** Base address 0.0.0.255 with mask 255.255.255.0. *)
Definition heap255 : heap := [ [0; 0; 0; 255]; [255; 255; 255; 0] ].

(** 10.0.0.0/24 alone. *)
Definition heap24 : heap := [ [10; 0; 0; 0]; [255; 255; 255; 0] ].

(** 10.0.0.7/32 with its only address leased, and bounds 10.0.0.0 and
    10.0.0.255. *)
Definition heap32 : heap :=
  [ [10; 0; 0; 7]; [255; 255; 255; 255]; IPv4 10 0 0 0; IPv4 10 0 0 255 ].

(** An LXD server that keeps its networks, each with its ETag, in memory.
    An update is accepted under the current ETag only. *)
#[export] Instance mem_server : ContainerServer (gmap string (Network * string)) := {|
  GetNetwork name s :=
    match s !! name with
    | Some (n, etag) => (inr (n, etag), s)
    | None => (inl "not found"%string, s)
    end;
  CreateNetwork post s :=
    match s !! post_Name post with
    | Some _ => (Some "already exists"%string, s)
    | None =>
        (None,
         <[post_Name post :=
             ({| net_NetworkPut := post_NetworkPut post;
                 net_Name := post_Name post;
                 net_Type := post_Type post;
                 net_Managed := post_Managed post |}, "etag-1"%string)]> s)
    end;
  UpdateNetwork name put ETag s :=
    match s !! name with
    | None => (Some "not found"%string, s)
    | Some (n, etag) =>
        if decide (ETag = etag) then
          (None,
           <[name := ({| net_NetworkPut := put;
                         net_Name := net_Name n;
                         net_Type := net_Type n;
                         net_Managed := net_Managed n |},
                      (etag ++ "+")%string)]> s)
        else (Some "precondition failed"%string, s)
    end;
  GetNetworkLeases name s := (inr [], s) |}.

(** A bridge that exists, with one key of its own. *)
Definition br0 : Network :=
  {| net_NetworkPut :=
       {| Description := "";
          Config := Some {[ "ipv4.nat"%string := "false"%string;
                            "user.owner"%string := "ops"%string ]} |};
     net_Name := "br0"; net_Type := "bridge"; net_Managed := true |}.
Definition server_br0 : gmap string (Network * string) :=
  {[ "br0"%string := (br0, "etag-7"%string) ]}.

(** No parsing is needed when [cidr] is empty. *)
Definition no_ParseCIDR (cidr : string)
    : string + list Z * (list Z * list Z) :=
  inl "invalid CIDR address"%string.
Definition no_String (ip mask : list Z) : string := ""%string.

(** A runtime in which every container has a sandbox, the container
    [gone] has no state any more, the state lookup of [broken] fails, and
    every other container runs as process 4242; its state is the list of
    the containers whose interface was removed. *)
#[export] Instance cni_runtime : CNIRuntime (list string) := {|
  Container_Sandbox c s :=
    (inr {| Metadata := {| Namespace := "default"; Name := "nginx" |} |}, s);
  Container_State c s :=
    if decide (ID c = "gone"%string) then (inl "not found"%string, s)
    else if decide (ID c = "broken"%string) then (inl "timeout"%string, s)
    else (inr {| Pid := 4242 |}, s);
  DetachCNIInterface ns nm id pid s := (None, (s ++ [id])%list) |}.

(** A server whose every bridge has the address 10.0.0.1/24 and two leases,
    10.0.0.5 and one whose text is no address. *)
Definition lease_server : ContainerServer unit := {|
  GetNetwork name s :=
    (inr ({| net_NetworkPut :=
               {| Description := "";
                  Config := Some {[ "ipv4.address"%string := "10.0.0.1/24"%string ]} |};
             net_Name := name; net_Type := "bridge"; net_Managed := true |},
          "etag-1"%string), s);
  CreateNetwork post s := (Some "forbidden"%string, s);
  UpdateNetwork name put ETag s := (Some "forbidden"%string, s);
  GetNetworkLeases name s :=
    (inr [ {| Address := "10.0.0.5" |}; {| Address := "pending" |} ], s) |}.

(** What [net.ParseCIDR] and [net.ParseIP] give on the texts above. *)
Definition table_ParseCIDR (cidr : string)
    : string + list Z * (list Z * list Z) :=
  if decide (cidr = "10.0.0.1/24"%string)
  then inr (IPv4 10 0 0 1, ([10; 0; 0; 0], [255; 255; 255; 0]))
  else inl "invalid CIDR address"%string.
Definition table_ParseIP (ip : string) : option (list Z) :=
  if decide (ip = "10.0.0.5"%string) then Some (IPv4 10 0 0 5) else None.

(** A runtime for [AttachCNI]: the container [nomap] has a sandbox without
    mode data, the state lookup of [gone] fails with not-found, every other
    container runs as process 4242; the state is the list of the sandboxes
    that were persisted. *)
#[export] Instance attach_runtime : CNIAttachRuntime (list NetworkSandbox) := {|
  Attach_Sandbox c s :=
    (inr {| ns_Metadata := {| Namespace := "default"; Name := "nginx" |};
            ModeData := if decide (ID c = "nomap"%string) then None
                        else Some {[ "mode"%string := "cni"%string ]} |}, s);
  Attach_State c s :=
    if decide (ID c = "gone"%string) then (inl "not found"%string, s)
    else (inr {| Pid := 4242 |}, s);
  AttachCNIInterface ns nm id pid s := (inr "cni-result"%string, s);
  Sandbox_apply sb s := (None, (s ++ [sb])%list) |}.

(** A server that knows a physical interface and a bridge whose
    configuration map is nil. *)
Definition server_mixed : gmap string (Network * string) :=
  {[ "eth0"%string :=
       ({| net_NetworkPut := {| Description := ""; Config := Some ∅ |};
           net_Name := "eth0"; net_Type := "physical"; net_Managed := false |},
        "etag-3"%string);
     "nilbr"%string :=
       ({| net_NetworkPut := {| Description := ""; Config := None |};
           net_Name := "nilbr"; net_Type := "bridge"; net_Managed := true |},
        "etag-4"%string) ]}.

(** A server that cannot be reached. *)
Definition down_server : ContainerServer unit := {|
  GetNetwork name s := (inl "connection refused"%string, s);
  CreateNetwork post s := (Some "connection refused"%string, s);
  UpdateNetwork name put ETag s := (Some "connection refused"%string, s);
  GetNetworkLeases name s := (inl "connection refused"%string, s) |}.

(** The text [String] gives for the network 10.0.0.1/24. *)
Definition table_String (ip mask : list Z) : string :=
  if decide (ip = [10; 0; 0; 1] ∧ mask = [255; 255; 255; 0])
  then "10.0.0.1/24"%string else ""%string.
End Fixtures.

(** * Properties *)

(** ** The Go primitives *)
Section GoFacts.
Import Go.
Local Open Scope Z_scope.

Lemma bytes_Compare_refl a : bytes_Compare a a = 0.
Proof.
  induction a as [|x a IH]; simpl; [done|].
  by rewrite Z.ltb_irrefl.
Qed.

Lemma bytes_Compare_range a b : -1 ≤ bytes_Compare a b ≤ 1.
Proof.
  revert b; induction a as [|x a IH]; intros [|y b]; simpl; try lia.
  destruct (x <? y); [lia|]. destruct (y <? x); [lia|]. apply IH.
Qed.

(** A 16-byte IPv4 address is below every 4-byte slice except 0.0.0.0. *)
Lemma bytes_Compare_IPv4_short a b c d x0 x1 x2 x3 :
  0 ≤ x0 → 0 ≤ x1 → 0 ≤ x2 → 0 ≤ x3 →
  (x0, x1, x2, x3) ≠ (0, 0, 0, 0) →
  bytes_Compare (IPv4 a b c d) [x0; x1; x2; x3] = -1.
Proof.
  intros H0 H1 H2 H3 Hne. unfold IPv4, v4InV6Prefix. simpl.
  destruct (Z.ltb_spec 0 x0); [done|].
  destruct (Z.ltb_spec x0 0); [lia|].
  destruct (Z.ltb_spec 0 x1); [done|].
  destruct (Z.ltb_spec x1 0); [lia|].
  destruct (Z.ltb_spec 0 x2); [done|].
  destruct (Z.ltb_spec x2 0); [lia|].
  destruct (Z.ltb_spec 0 x3); [done|].
  exfalso. apply Hne. f_equal; [f_equal; [f_equal|]|]; lia.
Qed.

Lemma wrap8_range z : 0 ≤ wrap8 z < 256.
Proof. unfold wrap8. apply Z.mod_pos_bound. lia. Qed.
End GoFacts.

(** ** The store *)
Section StoreFacts.
Import Go.
Local Open Scope Z_scope.

Lemma bytes_at_alloc h bs l :
  (l < length h)%nat → bytes_at (h ++ [bs]) (Some l) = bytes_at h (Some l).
Proof. intros Hl. unfold bytes_at. by rewrite lookup_app_l. Qed.

Lemma bytes_at_alloc_new h bs : bytes_at (h ++ [bs]) (Some (length h)) = bs.
Proof.
  unfold bytes_at. rewrite lookup_app_r by lia.
  by rewrite Nat.sub_diag.
Qed.

Lemma bytes_at_fresh h l : (length h ≤ l)%nat → bytes_at h (Some l) = [].
Proof. intros Hl. unfold bytes_at. by rewrite lookup_ge_None_2. Qed.

Lemma bytes_at_nonempty h l :
  bytes_at h (Some l) ≠ [] → (l < length h)%nat.
Proof.
  intros Hne. destruct (decide (l < length h)%nat); [done|].
  exfalso. apply Hne, bytes_at_fresh. lia.
Qed.

Lemma index_Some_lt h p i b : index h p i = Some b → (i < length (bytes_at h p))%nat.
Proof. unfold index. apply lookup_lt_Some. Qed.

Lemma store_Some h l i b h' :
  store h (Some l) i b = Some h' →
  (i < length (bytes_at h (Some l)))%nat
  ∧ h' = <[l := <[i := b]> (bytes_at h (Some l))]> h.
Proof.
  unfold store. destruct (decide _); [|done]. intros [= <-]. done.
Qed.

Lemma bytes_at_insert_eq h l bs :
  (l < length h)%nat → bytes_at (<[l := bs]> h) (Some l) = bs.
Proof. intros Hl. unfold bytes_at. by rewrite list_lookup_insert_eq. Qed.

Lemma bytes_at_insert_ne h l l' bs :
  l ≠ l' → bytes_at (<[l := bs]> h) (Some l') = bytes_at h (Some l').
Proof. intros Hl. unfold bytes_at. by rewrite list_lookup_insert_ne. Qed.

(** Allocation and a write in range never shorten a slice. *)
Lemma length_bytes_at_alloc h bs p :
  (length (bytes_at h p) ≤ length (bytes_at (h ++ [bs]) p))%nat.
Proof.
  destruct p as [l|]; [|done].
  destruct (decide (l < length h)%nat).
  - by rewrite bytes_at_alloc.
  - rewrite (bytes_at_fresh h l) by lia. simpl. lia.
Qed.

Lemma length_bytes_at_store h q i b h' p :
  store h q i b = Some h' →
  length (bytes_at h' p) = length (bytes_at h p).
Proof.
  destruct q as [l|]; [|done]. intros [Hi ->]%store_Some.
  destruct p as [l'|]; [|done].
  destruct (decide (l = l')) as [<-|Hne].
  - rewrite bytes_at_insert_eq.
    + by rewrite length_insert.
    + apply bytes_at_nonempty. intros E. rewrite E in Hi. simpl in Hi. lia.
  - by rewrite bytes_at_insert_ne.
Qed.
End StoreFacts.

(** ** The loop of FindFreeIP in networking.go *)
Section LxfLoop.
Import Go Lxf.
Local Open Scope Z_scope.

Lemma Lxf_trial_of_total h subnet v :
  (4 ≤ length (bytes_at h (IP subnet)))%nat →
  (4 ≤ length (bytes_at h (Mask subnet)))%nat →
  is_Some (trial_of h subnet v).
Proof.
  intros HI HM. unfold trial_of, trial_byte, index. simpl.
  destruct (bytes_at h (IP subnet)) as [|i0 [|i1 [|i2 [|i3 ?]]]];
    simpl in HI; try lia.
  destruct (bytes_at h (Mask subnet)) as [|m0 [|m1 [|m2 [|m3 ?]]]];
    simpl in HM; try lia.
  simpl. eauto.
Qed.

Lemma Lxf_broadcast_lengths h subnet bc :
  mapM (broadcast_byte h subnet) [0; 1; 2; 3]%nat = Some bc →
  (4 ≤ length (bytes_at h (IP subnet)))%nat
  ∧ (4 ≤ length (bytes_at h (Mask subnet)))%nat
  ∧ length bc = 4%nat.
Proof.
  intros H. apply mapM_Some in H.
  pose proof (Forall2_length _ _ _ H) as Hlen.
  assert (is_Some (broadcast_byte h subnet 3)) as [b Hb].
  { destruct (Forall2_lookup_l _ _ _ 3%nat 3%nat H eq_refl) as (y & _ & Hy).
    eauto. }
  unfold broadcast_byte in Hb.
  destruct (index h (IP subnet) 3) as [x|] eqn:Ex; [|done].
  destruct (index h (Mask subnet) 3) as [m|] eqn:Em; [|done].
  apply index_Some_lt in Ex, Em. simpl in Hlen. lia.
Qed.

Lemma Lxf_default_start_length h networkIP start start' h' p :
  default_start h networkIP start = Some (start', h') →
  length (bytes_at h' p) = length (bytes_at h p).
Proof.
  unfold default_start. destruct start; [by intros [= <- <-]|].
  destruct (index h networkIP 3) as [b|]; [|done]. cbn [mbind option_bind].
  destruct (store h networkIP 3 (wrap8 (b + 1))) as [h2|] eqn:Es; [|done].
  intros [= <- <-]. by eapply length_bytes_at_store.
Qed.

Lemma Lxf_default_end_length h broadcastIP end_ end' h' p :
  default_end h broadcastIP end_ = Some (end', h') →
  length (bytes_at h' p) = length (bytes_at h p).
Proof.
  unfold default_end. destruct end_; [by intros [= <- <-]|].
  destruct (index h broadcastIP 3) as [b|]; [|done]. cbn [mbind option_bind].
  destruct (store h broadcastIP 3 (wrap8 (b - 1))) as [h2|] eqn:Es; [|done].
  intros [= <- <-]. by eapply length_bytes_at_store.
Qed.

(** What a successful prologue is made of. *)
Lemma Lxf_prologue_Some subnet leases start end_ h leases' start' end' h' :
  prologue subnet leases start end_ h = Some (leases', start', end', h') →
  ∃ bc h2,
    mapM (broadcast_byte h subnet) [0; 1; 2; 3]%nat = Some bc
    ∧ leases' = leases ++ [IP subnet; Some (length h)]
    ∧ default_start (h ++ [bc]) (IP subnet) start = Some (start', h2)
    ∧ default_end h2 (Some (length h)) end_ = Some (end', h').
Proof.
  unfold prologue. intros H.
  destruct (mapM _ _) as [bc|] eqn:Ebc; [|done].
  cbn [mbind option_bind alloc] in H.
  destruct (default_start _ _ _) as [[s2 h2]|] eqn:Es; [|done].
  cbn [mbind option_bind] in H.
  destruct (default_end _ _ _) as [[e3 h3]|] eqn:Ee; [|done].
  cbn [mbind option_bind] in H. injection H as <- <- <- <-.
  by exists bc, h2.
Qed.

Lemma Lxf_prologue_lengths subnet leases start end_ h leases' start' end' h' :
  prologue subnet leases start end_ h = Some (leases', start', end', h') →
  (4 ≤ length (bytes_at h' (IP subnet)))%nat
  ∧ (4 ≤ length (bytes_at h' (Mask subnet)))%nat.
Proof.
  intros (bc & h2 & Ebc & _ & Es & Ee)%Lxf_prologue_Some.
  apply Lxf_broadcast_lengths in Ebc as (HI & HM & _).
  pose proof (length_bytes_at_alloc h bc (IP subnet)).
  pose proof (length_bytes_at_alloc h bc (Mask subnet)).
  rewrite !(Lxf_default_end_length _ _ _ _ _ _ Ee).
  rewrite !(Lxf_default_start_length _ _ _ _ _ _ Es). lia.
Qed.

Context (h : heap) (subnet : IPNet) (leases : list net_IP) (start end_ : net_IP).

Lemma Lxf_probe_cons v draws t :
  trial_of h subnet v = Some t →
  probe h subnet leases start end_ (v :: draws) =
    if accepted h leases start end_ t then Returned t
    else probe h subnet leases start end_ draws.
Proof.
  intros Ht. simpl. rewrite Ht. unfold accepted.
  destruct (out_of_range h start end_ t); [done|].
  by destruct (leased h leases t).
Qed.

Lemma Lxf_probe_all_rejected draws :
  (∀ v, ∃ t, trial_of h subnet v = Some t ∧ accepted h leases start end_ t = false) →
  probe h subnet leases start end_ draws = Pending.
Proof.
  intros Hrej. induction draws as [|v draws IH]; [done|].
  destruct (Hrej v) as (t & Ht & Ha).
  by rewrite (Lxf_probe_cons _ _ _ Ht), Ha.
Qed.

Lemma Lxf_probe_Returned draws a :
  probe h subnet leases start end_ draws = Returned a →
  ∃ v, v ∈ draws ∧ trial_of h subnet v = Some a
       ∧ accepted h leases start end_ a = true.
Proof.
  induction draws as [|v draws IH]; [done|].
  destruct (trial_of h subnet v) as [t|] eqn:Ht.
  - rewrite (Lxf_probe_cons _ _ _ Ht).
    destruct (accepted h leases start end_ t) eqn:Ha.
    + intros [= <-]. exists v. split; [left|done].
    + intros (u & Hu & ?)%IH. exists u. split; [by right|done].
  - simpl. by rewrite Ht.
Qed.

Lemma Lxf_probe_first_accepted pre v post t :
  Forall (λ u, ∃ t, trial_of h subnet u = Some t
                    ∧ accepted h leases start end_ t = false) pre →
  trial_of h subnet v = Some t →
  accepted h leases start end_ t = true →
  probe h subnet leases start end_ (pre ++ v :: post) = Returned t.
Proof.
  intros Hpre Ht Ha. induction Hpre as [|u pre (tu & Hu & Hr) _ IH].
  - simpl app. by rewrite (Lxf_probe_cons _ _ _ Ht), Ha.
  - simpl app. by rewrite (Lxf_probe_cons _ _ _ Hu), Hr.
Qed.
End LxfLoop.

(** ** C5: exhaustion of the candidates *)
Section Exhaustion.
Import Go Lxf.
Local Open Scope Z_scope.

(** C5.  [FindFreeIP] of networking.go whose prologue ran (the subnet has
    an address and a mask of at least four bytes), with [start'], [end'],
    [leases'] and the store [h'] the loop works on.
    - When every candidate that passes the range check is reserved, the
      call is still in its loop after any number of draws: it returns no
      address, does not panic, and has no error to report.
    - An address is returned only if it was drawn, passed the range check
      and is not reserved.
    - As soon as such a candidate is drawn, it is returned. *)
Theorem FindFreeIP_exhaustion subnet leases start end_ h leases' start' end' h' :
  prologue subnet leases start end_ h = Some (leases', start', end', h') →
  ((∀ v t, trial_of h' subnet v = Some t →
           out_of_range h' start' end' t = false →
           leased h' leases' t = true) →
   ∀ draws, FindFreeIP subnet leases start end_ h draws = (Pending, h'))
  ∧ (∀ draws a,
       fst (FindFreeIP subnet leases start end_ h draws) = Returned a →
       ∃ v, v ∈ draws ∧ trial_of h' subnet v = Some a
            ∧ out_of_range h' start' end' a = false
            ∧ leased h' leases' a = false)
  ∧ (∀ pre v post t,
       Forall (λ u, ∃ t, trial_of h' subnet u = Some t
                         ∧ accepted h' leases' start' end' t = false) pre →
       trial_of h' subnet v = Some t →
       out_of_range h' start' end' t = false →
       leased h' leases' t = false →
       FindFreeIP subnet leases start end_ h (pre ++ v :: post)
       = (Returned t, h')).
Proof.
  intros Hpro. unfold FindFreeIP. rewrite Hpro.
  destruct (Lxf_prologue_lengths _ _ _ _ _ _ _ _ _ Hpro) as [HI HM].
  split; [|split].
  - intros Hall draws. f_equal. apply Lxf_probe_all_rejected.
    intros v. destruct (Lxf_trial_of_total h' subnet v HI HM) as [t Ht].
    exists t. split; [done|]. unfold accepted.
    destruct (out_of_range h' start' end' t) eqn:Eo; [done|].
    by rewrite (Hall v t Ht Eo).
  - intros draws a Hret. simpl in Hret.
    apply Lxf_probe_Returned in Hret as (v & Hv & Ht & Ha).
    exists v. unfold accepted in Ha.
    apply andb_true_iff in Ha as [Ho Hl].
    apply negb_true_iff in Ho, Hl. done.
  - intros pre v post t Hpre Ht Ho Hl. f_equal.
    apply Lxf_probe_first_accepted; [done..|].
    unfold accepted. by rewrite Ho, Hl.
Qed.

(** 10.0.0.7/32: the only candidate is the network address, which is
    reserved; the call stays in its loop. *)
Lemma FindFreeIP_exhaustion_witness :
  FindFreeIP Fixtures.subnet01 [] (Some 2%nat) (Some 3%nat) Fixtures.heap32
    [0; 4294967295; 117440512]
  = (Pending, Fixtures.heap32 ++ [[10; 0; 0; 7]]).
Proof.
  refine (proj1 (FindFreeIP_exhaustion Fixtures.subnet01 [] (Some 2%nat)
                   (Some 3%nat) Fixtures.heap32 _ _ _ _ eq_refl) _ _).
  intros v t Ht _. unfold trial_of, trial_byte in Ht. simpl in Ht.
  unfold not8 in Ht. simpl Z.lxor in Ht. rewrite !Z.land_0_r in Ht.
  injection Ht as <-. reflexivity.
Defined.
End Exhaustion.

(** ** The defaults of networking.go: [start] aliases [subnet.IP] *)
Section LxfNilStart.
Import Go Lxf.
Local Open Scope Z_scope.

Lemma Lxf_trial_of_IPv4 h subnet v t :
  trial_of h subnet v = Some t →
  ∃ t0 t1 t2 t3, t = IPv4 t0 t1 t2 t3
    ∧ 0 ≤ t0 < 256 ∧ 0 ≤ t1 < 256 ∧ 0 ≤ t2 < 256 ∧ 0 ≤ t3 < 256.
Proof.
  unfold trial_of, trial_byte. cbn [PutUint32].
  destruct (index h (IP subnet) 0) as [i0|]; [|done].
  destruct (index h (Mask subnet) 0) as [m0|]; [|done].
  destruct (index h (IP subnet) 1) as [i1|]; [|done].
  destruct (index h (Mask subnet) 1) as [m1|]; [|done].
  destruct (index h (IP subnet) 2) as [i2|]; [|done].
  destruct (index h (Mask subnet) 2) as [m2|]; [|done].
  destruct (index h (IP subnet) 3) as [i3|]; [|done].
  destruct (index h (Mask subnet) 3) as [m3|]; [|done].
  cbn [mbind option_bind]. intros [= <-].
  eexists _, _, _, _. split; [done|]. auto using wrap8_range.
Qed.

Lemma Lxf_broadcast_Some h subnet :
  (4 ≤ length (bytes_at h (IP subnet)))%nat →
  (4 ≤ length (bytes_at h (Mask subnet)))%nat →
  ∃ bc, mapM (broadcast_byte h subnet) [0; 1; 2; 3]%nat = Some bc
        ∧ length bc = 4%nat.
Proof.
  intros HI HM. unfold broadcast_byte, index.
  destruct (bytes_at h (IP subnet)) as [|i0 [|i1 [|i2 [|i3 ?]]]];
    simpl in HI; try lia.
  destruct (bytes_at h (Mask subnet)) as [|m0 [|m1 [|m2 [|m3 ?]]]];
    simpl in HM; try lia.
  eexists. split; [reflexivity|done].
Qed.

(** With [start] nil, [start] is the slice [subnet.IP] with its last byte
    incremented: four bytes.  A candidate has sixteen bytes, the first of
    them 0, and compares below [start] unless [start] is 0.0.0.0: every
    draw is rejected by the range check, and the subnet's own address has
    been overwritten. *)
Lemma Lxf_FindFreeIP_nil_start_stuck subnet leases end_ h a b c d draws :
  bytes_at h (IP subnet) = [a; b; c; d] →
  (4 ≤ length (bytes_at h (Mask subnet)))%nat →
  0 ≤ a → 0 ≤ b → 0 ≤ c →
  (a, b, c, wrap8 (d + 1)) ≠ (0, 0, 0, 0) →
  ∃ h', FindFreeIP subnet leases None end_ h draws = (Pending, h')
        ∧ bytes_at h' (IP subnet) = [a; b; c; wrap8 (d + 1)].
Proof.
  intros HIP HM Ha Hb Hc Hne.
  destruct (IP subnet) as [l|] eqn:El; [|done].
  assert (l < length h)%nat as Hl.
  { apply bytes_at_nonempty. by rewrite HIP. }
  destruct (Lxf_broadcast_Some h subnet) as (bc & Ebc & Lbc);
    [rewrite El, HIP; simpl; lia | done |].
  set (h1 := h ++ [bc]).
  assert (bytes_at h1 (Some l) = [a; b; c; d]) as HIP1.
  { unfold h1. by rewrite bytes_at_alloc. }
  set (h2 := <[l := [a; b; c; wrap8 (d + 1)]]> h1).
  assert (default_start h1 (Some l) None = Some (Some l, h2)) as Es.
  { unfold default_start, index, store. rewrite HIP1. simpl.
    done. }
  assert (bytes_at h2 (Some l) = [a; b; c; wrap8 (d + 1)]) as HIP2.
  { unfold h2. rewrite bytes_at_insert_eq; [done|].
    unfold h1. rewrite length_app. simpl. lia. }
  assert (bytes_at h2 (Some (length h)) = bc) as Hbc2.
  { unfold h2. rewrite bytes_at_insert_ne by lia.
    unfold h1. apply bytes_at_alloc_new. }
  assert (∃ e3 h3, default_end h2 (Some (length h)) end_ = Some (e3, h3)
                   ∧ bytes_at h3 (Some l) = [a; b; c; wrap8 (d + 1)])
    as (e3 & h3 & Ee & HIP3).
  { destruct end_ as [e|]; [by eexists _, _|].
    unfold default_end, index, store. rewrite Hbc2.
    destruct bc as [|b0 [|b1 [|b2 [|b3 [|]]]]]; simpl in Lbc; try lia.
    simpl. eexists _, _. split; [done|].
    rewrite bytes_at_insert_ne by lia. done. }
  exists h3. split; [|done].
  unfold FindFreeIP, prologue. rewrite El, Ebc.
  cbn [mbind option_bind alloc]. fold h1. rewrite Es.
  cbn [mbind option_bind]. rewrite Ee. cbn [mbind option_bind].
  f_equal. rewrite <- El. apply Lxf_probe_all_rejected.
  assert (4 ≤ length (bytes_at h3 (IP subnet)))%nat as HI3.
  { rewrite El, HIP3. simpl. lia. }
  assert (4 ≤ length (bytes_at h3 (Mask subnet)))%nat as HM3.
  { rewrite (Lxf_default_end_length _ _ _ _ _ _ Ee).
    rewrite (Lxf_default_start_length _ _ _ _ _ _ Es).
    pose proof (length_bytes_at_alloc h bc (Mask subnet)). unfold h1. lia. }
  intros v. destruct (Lxf_trial_of_total h3 subnet v HI3 HM3) as [t Ht].
  exists t. split; [done|].
  destruct (Lxf_trial_of_IPv4 _ _ _ _ Ht) as (t0 & t1 & t2 & t3 & -> & _).
  unfold accepted, out_of_range. rewrite El, HIP3.
  rewrite bytes_Compare_IPv4_short; [done|lia..| |done].
  pose proof (wrap8_range (d + 1)). lia.
Qed.
End LxfNilStart.

(** ** C1: FindFreeIP(S, R, nil, nil) in networking.go *)
Section NilBounds.
Import Go Api Eff Lxf Fixtures.
Local Open Scope Z_scope.

(** C1.  What networking.go does where the claim promises an address of
    the usable range.
    - Subnet 10.0.0.0/24, leases 10.0.0.5 and the bridge address 10.0.0.1,
      no bounds: whatever is drawn, and however often, the call is still in
      its loop; no address is ever returned.
    - Subnet of base 0.0.0.255 and mask 255.255.255.0, no lease, no bounds:
      the broadcast address of the subnet is 0.0.0.255, and it is the
      address returned for the draw 0xff000000. *)
Theorem FindFreeIP_nil_bounds_defect :
  (∀ draws,
     fst (FindFreeIP subnet01 leases10 None None heap10 draws) = Pending)
  ∧ mapM (broadcast_byte heap255 subnet01) [0; 1; 2; 3]%nat
    = Some [0; 0; 0; 255]
  ∧ fst (FindFreeIP subnet01 [] None None heap255 [4278190080])
    = Returned (IPv4 0 0 0 255).
Proof.
  split; [|split; reflexivity].
  intros draws.
  destruct (Lxf_FindFreeIP_nil_start_stuck subnet01 leases10 None heap10
              10 0 0 0 draws) as (h' & -> & _); done.
Qed.

Context (ParseCIDR : string → string + list Z * (list Z * list Z)).
Context (ParseIP : string → option (list Z)).
Context {σ : Type} `{!ContainerServer σ}.

(** The same through [FindFreeIPBridgeLXD]: a bridge whose address is
    10.0.0.1/24 and whose only lease is 10.0.0.5 gets no address, with the
    results [net.ParseCIDR] and [net.ParseIP] have on these texts. *)
Lemma FindFreeIPBridgeLXD_stuck bridge network ETag s s1 s2 log draws :
  GetNetwork bridge s = (inr (network, ETag), s1) →
  Config (net_NetworkPut network)
  = Some {[ "ipv4.address"%string := "10.0.0.1/24"%string ]} →
  GetNetworkLeases bridge s1 = (inr [ {| Address := "10.0.0.5" |} ], s2) →
  ParseIP "10.0.0.5" = Some (IPv4 10 0 0 5) →
  ParseCIDR "10.0.0.1/24"
  = inr (IPv4 10 0 0 1, ([10; 0; 0; 0], [255; 255; 255; 0])) →
  FindFreeIPBridgeLXD ParseCIDR ParseIP bridge draws (s, log)
  = (Some (inr Pending),
     (s2, log ++ [CallGetNetwork bridge; CallGetNetworkLeases bridge])).
Proof.
  intros HG HC HL HPI HPC. unfold FindFreeIPBridgeLXD.
  unfold mbind, M_bind, logged at 1. rewrite HG, HC.
  rewrite decide_False by (intros Hne; by apply Hne).
  unfold logged. rewrite HL. cbn [foldl Address]. rewrite HPI.
  change (config_get _ "ipv4.address") with "10.0.0.1/24"%string.
  rewrite HPC. cbn [alloc_IP alloc length app].
  destruct (Lxf_FindFreeIP_nil_start_stuck
              {| IP := Some 2%nat; Mask := Some 3%nat |}
              [Some 0%nat; Some 1%nat] None
              [IPv4 10 0 0 5; IPv4 10 0 0 1; [10; 0; 0; 0]; [255; 255; 255; 0]]
              10 0 0 0 draws) as (h' & E & _); try done.
  simpl app in E |- *. rewrite E. cbn [fst].
  unfold mret, M_ret. by rewrite <- app_assoc.
Qed.
End NilBounds.

(** ** C4: what FindFreeIP writes *)
Section Frame.
Import Go Fixtures.
Local Open Scope Z_scope.

(** C4.  networking.go writes into its [subnet] argument when [start] is
    nil.
    - Subnet 10.0.0.0/24, leases 10.0.0.5 and 10.0.0.1, no bounds: from the
      prologue on, whatever is drawn, [subnet.IP] holds 10.0.0.1 where the
      caller had 10.0.0.0.
    - Subnet of base 0.0.0.255 and mask 255.255.255.0, no lease, no bounds,
      draw 0x05000000: the call returns 0.0.0.5 and leaves [subnet.IP] at
      0.0.0.0 where the caller had 0.0.0.255. *)
Theorem FindFreeIP_overwrites_subnet :
  bytes_at heap10 (IP subnet01) = [10; 0; 0; 0]
  ∧ (∀ draws,
       bytes_at (snd (Lxf.FindFreeIP subnet01 leases10 None None heap10 draws))
                (IP subnet01) = [10; 0; 0; 1])
  ∧ bytes_at heap255 (IP subnet01) = [0; 0; 0; 255]
  ∧ Lxf.FindFreeIP subnet01 [] None None heap255 [83886080]
    = (Returned (IPv4 0 0 0 5),
       [[0; 0; 0; 0]; [255; 255; 255; 0]; [0; 0; 0; 254]]).
Proof. repeat split; reflexivity. Qed.

(** With an explicit [start], networking.go writes to fresh byte arrays
    only: every byte array of the caller is as it was. *)
Lemma Lxf_FindFreeIP_frame_start subnet leases s end_ h draws l :
  (l < length h)%nat →
  snd (Lxf.FindFreeIP subnet leases (Some s) end_ h draws) !! l = h !! l.
Proof.
  intros Hl. unfold Lxf.FindFreeIP.
  destruct (Lxf.prologue _ _ _ _ _) as [[[[l' s'] e'] h']|] eqn:Hpro; [|done].
  apply Lxf_prologue_Some in Hpro as (bc & h2 & _ & _ & Es & Ee).
  unfold Lxf.default_start in Es. injection Es as <- <-. cbn [snd].
  unfold Lxf.default_end in Ee. destruct end_ as [e|].
  - injection Ee as <- <-. by rewrite lookup_app_l.
  - destruct (index _ _ _) as [b|]; [|done]. cbn [mbind option_bind] in Ee.
    destruct (store _ _ _ _) as [h3|] eqn:Est; [|done].
    cbn [mbind option_bind] in Ee. injection Ee as <- <-.
    apply store_Some in Est as [_ ->].
    rewrite list_lookup_insert_ne by lia. by rewrite lookup_app_l.
Qed.

(** The revision of part_000 writes to fresh byte arrays only, whatever
    the bounds. *)
Lemma Part000_FindFreeIP_frame subnet leases start end_ h draws l :
  (l < length h)%nat →
  snd (Part000.FindFreeIP subnet leases start end_ h draws) !! l = h !! l.
Proof.
  intros Hl. unfold Part000.FindFreeIP, Part000.prologue.
  destruct (mapM _ _) as [bc|]; [|done].
  cbn [mbind option_bind alloc].
  assert (∀ h1 p q r h2, Part000.default_start h1 p q = Some (r, h2) →
                         ∃ k, h2 = h1 ++ k) as Hs.
  { intros h1 p q r h2. unfold Part000.default_start.
    destruct q; [intros [= <- <-]; exists []; by rewrite app_nil_r|].
    destruct (index h1 p 0); cbn [mbind option_bind]; [|done].
    destruct (index h1 p 1); cbn [mbind option_bind]; [|done].
    destruct (index h1 p 2); cbn [mbind option_bind]; [|done].
    destruct (index h1 p 3); cbn [mbind option_bind]; [|done].
    intros [= <- <-]. eauto. }
  assert (∀ h1 p q r h2, Part000.default_end h1 p q = Some (r, h2) →
                         ∃ k, h2 = h1 ++ k) as He.
  { intros h1 p q r h2. unfold Part000.default_end.
    destruct q; [intros [= <- <-]; exists []; by rewrite app_nil_r|].
    destruct (index h1 p 0); cbn [mbind option_bind]; [|done].
    destruct (index h1 p 1); cbn [mbind option_bind]; [|done].
    destruct (index h1 p 2); cbn [mbind option_bind]; [|done].
    destruct (index h1 p 3); cbn [mbind option_bind]; [|done].
    intros [= <- <-]. eauto. }
  destruct (Part000.default_start _ _ _) as [[s2 h2]|] eqn:Es; [|done].
  cbn [mbind option_bind].
  destruct (Part000.default_end _ _ _) as [[e3 h3]|] eqn:Ee; [|done].
  cbn [mbind option_bind snd].
  apply Hs in Es as [k1 ->]. apply He in Ee as [k2 ->].
  rewrite <- !app_assoc. by rewrite lookup_app_l.
Qed.
End Frame.

(** ** Addresses as numbers, and the store seen from the loop *)
Section Candidates.
Import Go.
Local Open Scope Z_scope.

(** On 16-byte IPv4 addresses [bytes.Compare] is the order of the
    addresses. *)
Lemma bytes_Compare_IPv4 a b c d a' b' c' d' :
  0 ≤ a < 256 → 0 ≤ b < 256 → 0 ≤ c < 256 → 0 ≤ d < 256 →
  0 ≤ a' < 256 → 0 ≤ b' < 256 → 0 ≤ c' < 256 → 0 ≤ d' < 256 →
  bytes_Compare (IPv4 a b c d) (IPv4 a' b' c' d')
  = Z.sgn (addr4 a b c d - addr4 a' b' c' d').
Proof.
  intros. unfold IPv4, v4InV6Prefix, addr4. simpl.
  repeat match goal with
         | |- context [?x <? ?y] => destruct (Z.ltb_spec x y)
         end; lia.
Qed.

Lemma bytes_Equal_eq a b : bytes_Equal a b = true ↔ a = b.
Proof.
  revert b. induction a as [|x a IH]; intros [|y b]; simpl; try done.
  rewrite andb_true_iff, Z.eqb_eq, IH. split; [by intros [-> ->]|].
  by intros [= -> ->].
Qed.

(** A 16-byte IPv4 address and a 4-byte slice are [Equal] when the slice
    holds the same four bytes. *)
Lemma IP_Equal_IPv4_short a b c d x0 x1 x2 x3 :
  IP_Equal (IPv4 a b c d) [x0; x1; x2; x3] = true
  ↔ (a, b, c, d) = (x0, x1, x2, x3).
Proof.
  unfold IP_Equal. simpl. rewrite !andb_true_iff, !Z.eqb_eq.
  split; [by intros (-> & -> & -> & -> & _)|by intros [= -> -> -> ->]].
Qed.

Lemma Lxf_trial_of_app h k subnet v :
  valid h (IP subnet) → valid h (Mask subnet) →
  Lxf.trial_of (h ++ k) subnet v = Lxf.trial_of h subnet v.
Proof.
  intros HI HM. unfold Lxf.trial_of, Lxf.trial_byte, index.
  assert (∀ p, valid h p → bytes_at (h ++ k) p = bytes_at h p) as E.
  { intros [l|] Hp; [|done]. unfold bytes_at. by rewrite lookup_app_l. }
  by rewrite !(E _ HI), !(E _ HM).
Qed.

Lemma Lxf_leased_app h k leases t :
  Forall (valid h) leases →
  Lxf.leased (h ++ k) leases t = Lxf.leased h leases t.
Proof.
  unfold Lxf.leased. induction 1 as [|p leases Hp _ IH]; [done|].
  simpl. rewrite IH. f_equal. f_equal.
  destruct p as [l|]; [|done]. unfold bytes_at. by rewrite lookup_app_l.
Qed.

Lemma Lxf_leased_snoc h leases extra t :
  Lxf.leased h (leases ++ extra) t
  = Lxf.leased h leases t || Lxf.leased h extra t.
Proof. unfold Lxf.leased. apply existsb_app. Qed.
End Candidates.

(** ** The loop of FindFreeIP in part_000 *)
Section Part000Loop.
Import Go Part000.
Local Open Scope Z_scope.

Context (h : heap) (subnet : IPNet) (leases : list net_IP) (start end_ : net_IP).

Lemma Part000_probe_cons v draws t :
  Lxf.trial_of h subnet v = Some t →
  probe h subnet leases start end_ (v :: draws) =
    if accepted h leases start end_ t then Returned t
    else probe h subnet leases start end_ draws.
Proof.
  intros Ht. simpl. rewrite Ht. unfold accepted.
  destruct (out_of_range h start end_ t); [done|].
  by destruct (Lxf.leased h leases t).
Qed.

Lemma Part000_probe_Returned draws a :
  probe h subnet leases start end_ draws = Returned a →
  ∃ v, v ∈ draws ∧ Lxf.trial_of h subnet v = Some a
       ∧ accepted h leases start end_ a = true.
Proof.
  induction draws as [|v draws IH]; [done|].
  destruct (Lxf.trial_of h subnet v) as [t|] eqn:Ht.
  - rewrite (Part000_probe_cons _ _ _ Ht).
    destruct (accepted h leases start end_ t) eqn:Ha.
    + intros [= <-]. exists v. split; [left|done].
    + intros (u & Hu & ?)%IH. exists u. split; [by right|done].
  - simpl. by rewrite Ht.
Qed.
End Part000Loop.

(** ** C2: explicit bounds *)
Section ExplicitBounds.
Import Go Fixtures.
Local Open Scope Z_scope.

Lemma bytes_Compare_antisym a b : bytes_Compare a b = - bytes_Compare b a.
Proof.
  revert b. induction a as [|x a IH]; intros [|y b]; simpl; try done.
  destruct (Z.ltb_spec x y), (Z.ltb_spec y x); try lia. apply IH.
Qed.

Lemma valid_of_length h p : (1 ≤ length (bytes_at h p))%nat → valid h p.
Proof.
  destruct p as [l|]; [|done]. intros Hlen. apply bytes_at_nonempty.
  intros E. rewrite E in Hlen. simpl in Hlen. lia.
Qed.

Lemma Lxf_accepted_spec h leases start end_ t :
  Lxf.accepted h leases start end_ t = true
  ↔ 0 ≤ bytes_Compare t (bytes_at h start)
    ∧ bytes_Compare t (bytes_at h end_) ≤ 0
    ∧ Lxf.leased h leases t = false.
Proof.
  unfold Lxf.accepted, Lxf.out_of_range.
  rewrite andb_true_iff, !negb_true_iff, orb_false_iff.
  rewrite Z.ltb_ge, Z.gtb_ltb, Z.ltb_ge. tauto.
Qed.

Lemma Part000_accepted_spec h leases start end_ t :
  Part000.accepted h leases start end_ t = true
  ↔ 0 < bytes_Compare t (bytes_at h start)
    ∧ bytes_Compare t (bytes_at h end_) < 0
    ∧ Lxf.leased h leases t = false.
Proof.
  unfold Part000.accepted, Part000.out_of_range.
  rewrite andb_true_iff, !negb_true_iff, orb_false_iff.
  rewrite Z.leb_gt, Z.geb_leb, Z.leb_gt. tauto.
Qed.

(** With both bounds given, the two prologues only append the broadcast
    address to the store and the two reserved addresses to the leases. *)
Lemma Lxf_prologue_explicit subnet leases s e h bc :
  mapM (Lxf.broadcast_byte h subnet) [0; 1; 2; 3]%nat = Some bc →
  Lxf.prologue subnet leases (Some s) (Some e) h
  = Some (leases ++ [IP subnet; Some (length h)], Some s, Some e, h ++ [bc]).
Proof. intros E. unfold Lxf.prologue. by rewrite E. Qed.

Lemma Part000_prologue_explicit subnet leases s e h bc :
  mapM (Lxf.broadcast_byte h subnet) [0; 1; 2; 3]%nat = Some bc →
  Part000.prologue subnet leases (Some s) (Some e) h
  = Some (leases ++ [IP subnet; Some (length h)], Some s, Some e, h ++ [bc]).
Proof. intros E. unfold Part000.prologue. by rewrite E. Qed.

Lemma sgn_ge0 x : 0 ≤ Z.sgn x ↔ 0 ≤ x.
Proof. destruct x; simpl; lia. Qed.

Lemma sgn_le0 x : Z.sgn x ≤ 0 ↔ x ≤ 0.
Proof. destruct x; simpl; lia. Qed.

Lemma sgn_pos x : 0 < Z.sgn x ↔ 0 < x.
Proof. destruct x; simpl; lia. Qed.

Lemma sgn_neg x : Z.sgn x < 0 ↔ x < 0.
Proof. destruct x; simpl; lia. Qed.

Lemma IPv4_inj a b c d a' b' c' d' :
  IPv4 a b c d = IPv4 a' b' c' d' → (a, b, c, d) = (a', b', c', d').
Proof. unfold IPv4. intros H%app_inv_head. by injection H as -> -> -> ->. Qed.

Lemma Lxf_broadcast_valid h subnet bc :
  mapM (Lxf.broadcast_byte h subnet) [0; 1; 2; 3]%nat = Some bc →
  valid h (IP subnet) ∧ valid h (Mask subnet).
Proof.
  intros (HI & HM & _)%Lxf_broadcast_lengths.
  split; apply valid_of_length; lia.
Qed.
End ExplicitBounds.

Section ExplicitBoundsClaim.
Import Go Fixtures.
Local Open Scope Z_scope.

(** C2, counterexample.  part_000, subnet 10.0.0.0/24, no lease, bounds
    10.0.0.10 and 10.0.0.20.  The candidate of the draw 0x0a000000 is
    10.0.0.10: it is [start] itself, it is not above [end], it is not
    reserved; yet no sequence of draws makes the call return it. *)
Lemma Part000_FindFreeIP_start_never_returned :
  Lxf.trial_of heap_bounds subnet01 167772160 = Some (IPv4 10 0 0 10)
  ∧ bytes_Compare (IPv4 10 0 0 10) (bytes_at heap_bounds (Some 2%nat)) = 0
  ∧ bytes_Compare (IPv4 10 0 0 10) (bytes_at heap_bounds (Some 3%nat)) = -1
  ∧ Lxf.leased (heap_bounds ++ [[10; 0; 0; 255]])
      [Some 0%nat; Some 4%nat] (IPv4 10 0 0 10) = false
  ∧ ∀ draws,
      fst (Part000.FindFreeIP subnet01 [] (Some 2%nat) (Some 3%nat)
             heap_bounds draws) ≠ Returned (IPv4 10 0 0 10).
Proof.
  repeat split; try reflexivity.
  intros draws Hret.
  apply Part000_probe_Returned in Hret as (v & _ & _ & Ha).
  apply Part000_accepted_spec in Ha as (Hs & _). vm_compute in Hs. done.
Qed.

(** C2, amended.  [subnet] has an address and a mask of at least four
    bytes, [bc] is its broadcast address, and [start] and [end] are given as
    16-byte IPv4 addresses, as [net.IPv4] and [net.ParseIP] build them; lo
    and hi are these two addresses as numbers.  The reserved addresses are
    the leases, [subnet.IP] and [bc].
    In networking.go:
    - a returned address a has lo <= a <= hi;
    - a candidate is returned exactly when lo <= candidate <= hi and it is
      not reserved;
    - so [start] and [end], when they are candidates and not reserved, are
      returned.
    In part_000:
    - a returned address a has lo < a < hi;
    - a candidate is returned exactly when lo < candidate < hi and it is not
      reserved, so [start] and [end] are never returned. *)
Theorem FindFreeIP_explicit_bounds
    subnet leases s e h bc s0 s1 s2 s3 e0 e1 e2 e3 :
  mapM (Lxf.broadcast_byte h subnet) [0; 1; 2; 3]%nat = Some bc →
  bytes_at h (Some s) = IPv4 s0 s1 s2 s3 →
  bytes_at h (Some e) = IPv4 e0 e1 e2 e3 →
  (0 ≤ s0 < 256 ∧ 0 ≤ s1 < 256 ∧ 0 ≤ s2 < 256 ∧ 0 ≤ s3 < 256) →
  (0 ≤ e0 < 256 ∧ 0 ≤ e1 < 256 ∧ 0 ≤ e2 < 256 ∧ 0 ≤ e3 < 256) →
  let lo := addr4 s0 s1 s2 s3 in
  let hi := addr4 e0 e1 e2 e3 in
  let reserved :=
    Lxf.leased (h ++ [bc]) (leases ++ [IP subnet; Some (length h)]) in
  (∀ draws a,
     fst (Lxf.FindFreeIP subnet leases (Some s) (Some e) h draws) = Returned a →
     ∃ t0 t1 t2 t3,
       a = IPv4 t0 t1 t2 t3 ∧ lo ≤ addr4 t0 t1 t2 t3 ≤ hi)
  ∧ (∀ v t0 t1 t2 t3,
       Lxf.trial_of h subnet v = Some (IPv4 t0 t1 t2 t3) →
       fst (Lxf.FindFreeIP subnet leases (Some s) (Some e) h [v])
       = Returned (IPv4 t0 t1 t2 t3)
       ↔ lo ≤ addr4 t0 t1 t2 t3 ≤ hi
         ∧ reserved (IPv4 t0 t1 t2 t3) = false)
  ∧ (∀ v,
       Lxf.trial_of h subnet v = Some (IPv4 s0 s1 s2 s3) →
       lo ≤ hi →
       reserved (IPv4 s0 s1 s2 s3) = false →
       fst (Lxf.FindFreeIP subnet leases (Some s) (Some e) h [v])
       = Returned (IPv4 s0 s1 s2 s3))
  ∧ (∀ v,
       Lxf.trial_of h subnet v = Some (IPv4 e0 e1 e2 e3) →
       lo ≤ hi →
       reserved (IPv4 e0 e1 e2 e3) = false →
       fst (Lxf.FindFreeIP subnet leases (Some s) (Some e) h [v])
       = Returned (IPv4 e0 e1 e2 e3))
  ∧ (∀ draws a,
       fst (Part000.FindFreeIP subnet leases (Some s) (Some e) h draws)
       = Returned a →
       ∃ t0 t1 t2 t3,
         a = IPv4 t0 t1 t2 t3 ∧ lo < addr4 t0 t1 t2 t3 < hi)
  ∧ (∀ v t0 t1 t2 t3,
       Lxf.trial_of h subnet v = Some (IPv4 t0 t1 t2 t3) →
       fst (Part000.FindFreeIP subnet leases (Some s) (Some e) h [v])
       = Returned (IPv4 t0 t1 t2 t3)
       ↔ lo < addr4 t0 t1 t2 t3 < hi
         ∧ reserved (IPv4 t0 t1 t2 t3) = false)
  ∧ (∀ draws,
       fst (Part000.FindFreeIP subnet leases (Some s) (Some e) h draws)
       ≠ Returned (IPv4 s0 s1 s2 s3)
       ∧ fst (Part000.FindFreeIP subnet leases (Some s) (Some e) h draws)
         ≠ Returned (IPv4 e0 e1 e2 e3)).
Proof.
  intros Ebc HS HE Hsb Heb lo hi reserved.
  destruct Hsb as (Hs0 & Hs1 & Hs2 & Hs3).
  destruct Heb as (He0 & He1 & He2 & He3).
  destruct (Lxf_broadcast_valid _ _ _ Ebc) as [VI VM].
  assert (s < length h)%nat as Hs.
  { apply bytes_at_nonempty. by rewrite HS. }
  assert (e < length h)%nat as He.
  { apply bytes_at_nonempty. by rewrite HE. }
  unfold Lxf.FindFreeIP, Part000.FindFreeIP.
  rewrite (Lxf_prologue_explicit _ leases s e _ _ Ebc).
  rewrite (Part000_prologue_explicit _ leases s e _ _ Ebc). cbn [fst].
  set (h' := h ++ [bc]). set (leases' := leases ++ _).
  assert (bytes_at h' (Some s) = IPv4 s0 s1 s2 s3) as HS'.
  { unfold h'. by rewrite bytes_at_alloc. }
  assert (bytes_at h' (Some e) = IPv4 e0 e1 e2 e3) as HE'.
  { unfold h'. by rewrite bytes_at_alloc. }
  assert (∀ v, Lxf.trial_of h' subnet v = Lxf.trial_of h subnet v) as Et.
  { intros v. by apply Lxf_trial_of_app. }
  assert (∀ t0 t1 t2 t3,
            0 ≤ t0 < 256 → 0 ≤ t1 < 256 → 0 ≤ t2 < 256 → 0 ≤ t3 < 256 →
            Lxf.accepted h' leases' (Some s) (Some e) (IPv4 t0 t1 t2 t3) = true
            ↔ lo ≤ addr4 t0 t1 t2 t3 ≤ hi
              ∧ reserved (IPv4 t0 t1 t2 t3) = false) as Hin.
  { intros t0 t1 t2 t3 ? ? ? ?. rewrite Lxf_accepted_spec, HS', HE'.
    rewrite !bytes_Compare_IPv4 by done. rewrite sgn_ge0, sgn_le0.
    unfold lo, hi, reserved. split; [intros (? & ? & ?)|intros ([? ?] & ?)];
      repeat split; try done; lia. }
  assert (∀ t0 t1 t2 t3,
            0 ≤ t0 < 256 → 0 ≤ t1 < 256 → 0 ≤ t2 < 256 → 0 ≤ t3 < 256 →
            Part000.accepted h' leases' (Some s) (Some e) (IPv4 t0 t1 t2 t3)
            = true
            ↔ lo < addr4 t0 t1 t2 t3 < hi
              ∧ reserved (IPv4 t0 t1 t2 t3) = false) as Hex.
  { intros t0 t1 t2 t3 ? ? ? ?. rewrite Part000_accepted_spec, HS', HE'.
    rewrite !bytes_Compare_IPv4 by done. rewrite sgn_pos, sgn_neg.
    unfold lo, hi, reserved. split; [intros (? & ? & ?)|intros ([? ?] & ?)];
      repeat split; try done; lia. }
  assert (∀ v t0 t1 t2 t3,
            Lxf.trial_of h subnet v = Some (IPv4 t0 t1 t2 t3) →
            Lxf.trial_of h' subnet v = Some (IPv4 t0 t1 t2 t3)
            ∧ 0 ≤ t0 < 256 ∧ 0 ≤ t1 < 256 ∧ 0 ≤ t2 < 256 ∧ 0 ≤ t3 < 256)
    as Hcand.
  { intros v t0 t1 t2 t3 Ht. split; [by rewrite Et|].
    destruct (Lxf_trial_of_IPv4 _ _ _ _ Ht) as (u0 & u1 & u2 & u3 & Eu & Hu).
    apply IPv4_inj in Eu. by injection Eu as -> -> -> ->. }
  assert (∀ v t0 t1 t2 t3,
            Lxf.trial_of h subnet v = Some (IPv4 t0 t1 t2 t3) →
            Lxf.probe h' subnet leases' (Some s) (Some e) [v]
            = Returned (IPv4 t0 t1 t2 t3)
            ↔ lo ≤ addr4 t0 t1 t2 t3 ≤ hi
              ∧ reserved (IPv4 t0 t1 t2 t3) = false) as Eone.
  { intros v t0 t1 t2 t3 (Ht & ? & ? & ? & ?)%Hcand.
    rewrite (Lxf_probe_cons _ _ _ _ _ _ _ _ Ht), <- Hin by done.
    destruct (Lxf.accepted _ _ _ _ _); simpl; split; congruence. }
  assert (∀ v t0 t1 t2 t3,
            Lxf.trial_of h subnet v = Some (IPv4 t0 t1 t2 t3) →
            Part000.probe h' subnet leases' (Some s) (Some e) [v]
            = Returned (IPv4 t0 t1 t2 t3)
            ↔ lo < addr4 t0 t1 t2 t3 < hi
              ∧ reserved (IPv4 t0 t1 t2 t3) = false) as Eone'.
  { intros v t0 t1 t2 t3 (Ht & ? & ? & ? & ?)%Hcand.
    rewrite (Part000_probe_cons _ _ _ _ _ _ _ _ Ht), <- Hex by done.
    destruct (Part000.accepted _ _ _ _ _); simpl; split; congruence. }
  assert (∀ draws a,
            Part000.probe h' subnet leases' (Some s) (Some e) draws = Returned a →
            ∃ t0 t1 t2 t3,
              a = IPv4 t0 t1 t2 t3 ∧ lo < addr4 t0 t1 t2 t3 < hi) as Hstrict.
  { intros draws a (v & _ & Ht & Ha)%Part000_probe_Returned.
    destruct (Lxf_trial_of_IPv4 _ _ _ _ Ht)
      as (t0 & t1 & t2 & t3 & -> & ? & ? & ? & ?).
    exists t0, t1, t2, t3. split; [done|]. by apply Hex in Ha as [? _]. }
  split; [|split; [|split; [|split; [|split; [|split]]]]].
  - intros draws a (v & _ & Ht & Ha)%Lxf_probe_Returned.
    destruct (Lxf_trial_of_IPv4 _ _ _ _ Ht)
      as (t0 & t1 & t2 & t3 & -> & ? & ? & ? & ?).
    exists t0, t1, t2, t3. split; [done|]. by apply Hin in Ha as [? _].
  - exact Eone.
  - intros v Ht Hle Hres. apply (Eone v); [done|]. split; [|done].
    unfold lo, hi in *. lia.
  - intros v Ht Hle Hres. apply (Eone v); [done|]. split; [|done].
    unfold lo, hi in *. lia.
  - exact Hstrict.
  - exact Eone'.
  - intros draws. split; intros (t0 & t1 & t2 & t3 & Eq & Hlt)%Hstrict.
    + apply IPv4_inj in Eq. injection Eq as <- <- <- <-. unfold lo in Hlt. lia.
    + apply IPv4_inj in Eq. injection Eq as <- <- <- <-. unfold hi in Hlt. lia.
Qed.

(** 10.0.0.0/24 with bounds 10.0.0.10 and 10.0.0.20: networking.go returns
    the lower bound itself when it is drawn. *)
Lemma FindFreeIP_explicit_bounds_witness :
  fst (Lxf.FindFreeIP subnet01 [] (Some 2%nat) (Some 3%nat) heap_bounds
         [167772160])
  = Returned (IPv4 10 0 0 10).
Proof.
  refine (proj1 (proj2 (proj2
    (FindFreeIP_explicit_bounds subnet01 [] 2%nat 3%nat heap_bounds
       [10; 0; 0; 255] 10 0 0 10 10 0 0 20 eq_refl eq_refl eq_refl _ _)))
       167772160 eq_refl _ eq_refl); try lia.
  vm_compute. discriminate.
Defined.
End ExplicitBoundsClaim.

(** ** C3: the default bounds *)
Section DefaultBounds.
Import Go Fixtures.
Local Open Scope Z_scope.

Lemma byte_shiftr x : 0 ≤ x < 256 ↔ 0 ≤ x ∧ Z.shiftr x 8 = 0.
Proof.
  rewrite Z.shiftr_div_pow2 by lia. change (2 ^ 8) with 256.
  split; intros H.
  - split; [lia|]. apply Z.div_small. lia.
  - destruct H as [H0 H1]. apply Z.div_small_iff in H1; lia.
Qed.

Lemma byte_lor x y : 0 ≤ x < 256 → 0 ≤ y < 256 → 0 ≤ Z.lor x y < 256.
Proof.
  intros [Hx Ex]%byte_shiftr [Hy Ey]%byte_shiftr. apply byte_shiftr.
  split; [by apply Z.lor_nonneg|].
  by rewrite Z.shiftr_lor, Ex, Ey.
Qed.

Lemma byte_not8 m : 0 ≤ m < 256 → 0 ≤ not8 m < 256.
Proof.
  intros [Hm Em]%byte_shiftr. apply byte_shiftr. unfold not8.
  split; [apply Z.lxor_nonneg; lia|].
  by rewrite Z.shiftr_lxor, Em.
Qed.

(** The prologue of part_000 without bounds: the broadcast address, the
    default [start] and the default [end] are appended to the store. *)
Lemma Part000_prologue_nil subnet leases h n0 n1 n2 n3 m0 m1 m2 m3 :
  bytes_at h (IP subnet) = [n0; n1; n2; n3] →
  bytes_at h (Mask subnet) = [m0; m1; m2; m3] →
  let b0 := Z.lor n0 (not8 m0) in
  let b1 := Z.lor n1 (not8 m1) in
  let b2 := Z.lor n2 (not8 m2) in
  let b3 := Z.lor n3 (not8 m3) in
  Part000.prologue subnet leases None None h
  = Some (leases ++ [IP subnet; Some (length h)],
          Some (S (length h)), Some (S (S (length h))),
          h ++ [ [b0; b1; b2; b3];
                 IPv4 n0 n1 n2 (wrap8 (n3 + 1));
                 IPv4 b0 b1 b2 (wrap8 (b3 - 1)) ]).
Proof.
  intros HI HM b0 b1 b2 b3. unfold Part000.prologue.
  assert (mapM (Lxf.broadcast_byte h subnet) [0; 1; 2; 3]%nat
          = Some [b0; b1; b2; b3]) as ->.
  { unfold Lxf.broadcast_byte, index. by rewrite HI, HM. }
  cbn [mbind option_bind alloc].
  assert (valid h (IP subnet)) as VI.
  { apply valid_of_length. rewrite HI. simpl. lia. }
  assert (bytes_at (h ++ [[b0; b1; b2; b3]]) (IP subnet) = [n0; n1; n2; n3])
    as HI1.
  { rewrite <- HI. destruct (IP subnet) as [l|]; [|done].
    by apply bytes_at_alloc. }
  unfold Part000.default_start, index. rewrite HI1.
  cbn [lookup list_lookup mbind option_bind alloc].
  unfold Part000.default_end, index.
  assert (bytes_at ((h ++ [[b0; b1; b2; b3]])
                      ++ [IPv4 n0 n1 n2 (wrap8 (n3 + 1))])
            (Some (length h)) = [b0; b1; b2; b3]) as ->.
  { rewrite bytes_at_alloc by (rewrite length_app; simpl; lia).
    apply bytes_at_alloc_new. }
  cbn [lookup list_lookup mbind option_bind alloc].
  rewrite !length_app. cbn [length]. rewrite <- !app_assoc. cbn [app].
  repeat f_equal; lia.
Qed.
End DefaultBounds.

Section DefaultBoundsClaim.
Import Go Fixtures.
Local Open Scope Z_scope.

(** C3, counterexample.  Subnet 10.0.0.0/24, no lease, no bounds.  The
    candidates of the draws 0x01000000 and 0xfe000000 are 10.0.0.1 and
    10.0.0.254, the network address plus one and the broadcast address
    minus one; neither is leased.  No sequence of draws makes part_000
    return either of them, and none makes networking.go return 10.0.0.1. *)
Lemma FindFreeIP_default_bounds_not_returned :
  Lxf.trial_of heap24 subnet01 16777216 = Some (IPv4 10 0 0 1)
  ∧ Lxf.trial_of heap24 subnet01 4261412864 = Some (IPv4 10 0 0 254)
  ∧ ∀ draws,
      fst (Part000.FindFreeIP subnet01 [] None None heap24 draws)
      ≠ Returned (IPv4 10 0 0 1)
      ∧ fst (Part000.FindFreeIP subnet01 [] None None heap24 draws)
        ≠ Returned (IPv4 10 0 0 254)
      ∧ fst (Lxf.FindFreeIP subnet01 [] None None heap24 draws)
        ≠ Returned (IPv4 10 0 0 1).
Proof.
  split; [reflexivity|]. split; [reflexivity|].
  intros draws. split; [|split].
  - unfold Part000.FindFreeIP.
    rewrite (Part000_prologue_nil subnet01 [] heap24 10 0 0 0 255 255 255 0)
      by reflexivity.
    intros (v & _ & _ & Ha)%Part000_probe_Returned.
    apply Part000_accepted_spec in Ha as (Hlo & _). vm_compute in Hlo. done.
  - unfold Part000.FindFreeIP.
    rewrite (Part000_prologue_nil subnet01 [] heap24 10 0 0 0 255 255 255 0)
      by reflexivity.
    intros (v & _ & _ & Ha)%Part000_probe_Returned.
    apply Part000_accepted_spec in Ha as (_ & Hhi & _). vm_compute in Hhi. done.
  - destruct (Lxf_FindFreeIP_nil_start_stuck subnet01 [] None heap24
                10 0 0 0 draws) as (h' & -> & _); done.
Qed.

(** C3, amended.  part_000, a subnet of address n and mask m, four bytes
    each, whose last address byte is below 255 and whose broadcast address
    does not end in 0; [start] and [end] nil; the caller's leases are
    slices of the store.  With network = n and broadcast = n | ^m as
    numbers:
    - the candidate of a draw is returned exactly when
      network + 1 < candidate < broadcast - 1 and it equals none of the
      caller's leases;
    - every returned address is such a candidate.
    So network + 1 and broadcast - 1 are never returned. *)
Theorem Part000_FindFreeIP_default_bounds
    subnet leases h n0 n1 n2 n3 m0 m1 m2 m3 :
  bytes_at h (IP subnet) = [n0; n1; n2; n3] →
  bytes_at h (Mask subnet) = [m0; m1; m2; m3] →
  (0 ≤ n0 < 256 ∧ 0 ≤ n1 < 256 ∧ 0 ≤ n2 < 256 ∧ 0 ≤ n3 < 255) →
  (0 ≤ m0 < 256 ∧ 0 ≤ m1 < 256 ∧ 0 ≤ m2 < 256 ∧ 0 ≤ m3 < 256) →
  0 < Z.lor n3 (not8 m3) →
  Forall (valid h) leases →
  let network := addr4 n0 n1 n2 n3 in
  let broadcast :=
    addr4 (Z.lor n0 (not8 m0)) (Z.lor n1 (not8 m1))
          (Z.lor n2 (not8 m2)) (Z.lor n3 (not8 m3)) in
  (∀ v t0 t1 t2 t3,
     Lxf.trial_of h subnet v = Some (IPv4 t0 t1 t2 t3) →
     fst (Part000.FindFreeIP subnet leases None None h [v])
     = Returned (IPv4 t0 t1 t2 t3)
     ↔ network + 1 < addr4 t0 t1 t2 t3 < broadcast - 1
       ∧ Lxf.leased h leases (IPv4 t0 t1 t2 t3) = false)
  ∧ (∀ draws a,
       fst (Part000.FindFreeIP subnet leases None None h draws) = Returned a →
       ∃ t0 t1 t2 t3,
         a = IPv4 t0 t1 t2 t3
         ∧ network + 1 < addr4 t0 t1 t2 t3 < broadcast - 1
         ∧ Lxf.leased h leases a = false).
Proof.
  intros HI HM (Hn0 & Hn1 & Hn2 & Hn3) (Hm0 & Hm1 & Hm2 & Hm3) Hb3 Hleases
    network broadcast.
  unfold Part000.FindFreeIP.
  rewrite (Part000_prologue_nil _ leases _ _ _ _ _ _ _ _ _ HI HM). cbn [fst].
  set (b0 := Z.lor n0 (not8 m0)) in *. set (b1 := Z.lor n1 (not8 m1)) in *.
  set (b2 := Z.lor n2 (not8 m2)) in *. set (b3 := Z.lor n3 (not8 m3)) in *.
  set (S_ := IPv4 n0 n1 n2 (wrap8 (n3 + 1))).
  set (E_ := IPv4 b0 b1 b2 (wrap8 (b3 - 1))).
  set (h3 := h ++ [[b0; b1; b2; b3]; S_; E_]).
  set (leases' := leases ++ [IP subnet; Some (length h)]).
  assert (0 ≤ b0 < 256 ∧ 0 ≤ b1 < 256 ∧ 0 ≤ b2 < 256 ∧ 0 ≤ b3 < 256)
    as (Hb0 & Hb1 & Hb2 & Hb3').
  { unfold b0, b1, b2, b3.
    repeat split; try apply byte_lor; try apply byte_not8; lia. }
  assert (valid h (IP subnet)) as VI.
  { apply valid_of_length. rewrite HI. simpl. lia. }
  assert (valid h (Mask subnet)) as VM.
  { apply valid_of_length. rewrite HM. simpl. lia. }
  assert (∀ v, Lxf.trial_of h3 subnet v = Lxf.trial_of h subnet v) as Et.
  { intros v. by apply Lxf_trial_of_app. }
  assert (bytes_at h3 (Some (S (length h))) = S_) as HS.
  { unfold bytes_at, h3. rewrite lookup_app_r by lia.
    by replace (S (length h) - length h)%nat with 1%nat by lia. }
  assert (bytes_at h3 (Some (S (S (length h)))) = E_) as HE.
  { unfold bytes_at, h3. rewrite lookup_app_r by lia.
    by replace (S (S (length h)) - length h)%nat with 2%nat by lia. }
  assert (bytes_at h3 (Some (length h)) = [b0; b1; b2; b3]) as HB.
  { unfold bytes_at, h3. rewrite lookup_app_r by lia.
    by rewrite Nat.sub_diag. }
  assert (bytes_at h3 (IP subnet) = [n0; n1; n2; n3]) as HI3.
  { rewrite <- HI. destruct (IP subnet) as [l|]; [|done].
    unfold bytes_at, h3. by rewrite lookup_app_l. }
  assert (∀ t0 t1 t2 t3,
            0 ≤ t0 < 256 → 0 ≤ t1 < 256 → 0 ≤ t2 < 256 → 0 ≤ t3 < 256 →
            Part000.accepted h3 leases' (Some (S (length h)))
              (Some (S (S (length h)))) (IPv4 t0 t1 t2 t3) = true
            ↔ network + 1 < addr4 t0 t1 t2 t3 < broadcast - 1
              ∧ Lxf.leased h leases (IPv4 t0 t1 t2 t3) = false) as Hacc.
  { intros t0 t1 t2 t3 Ht0 Ht1 Ht2 Ht3.
    rewrite Part000_accepted_spec, HS, HE. unfold S_, E_.
    pose proof (wrap8_range (n3 + 1)). pose proof (wrap8_range (b3 - 1)).
    rewrite !bytes_Compare_IPv4 by done.
    rewrite sgn_pos, sgn_neg.
    unfold wrap8 in *. rewrite !Z.mod_small by lia.
    unfold leases'. rewrite Lxf_leased_snoc.
    unfold h3 at 1. rewrite (Lxf_leased_app _ _ _ _ Hleases).
    unfold Lxf.leased at 2. cbn [existsb]. rewrite HI3, HB, orb_false_r.
    unfold network, broadcast, addr4.
    split.
    - intros (Hlo & Hhi & Hl). apply orb_false_iff in Hl as [Hl _].
      unfold addr4 in Hlo, Hhi. split; [lia|done].
    - intros ([Hlo Hhi] & Hl). unfold addr4.
      split; [lia|]. split; [lia|]. rewrite Hl. cbn [orb].
      apply orb_false_iff. split.
      + destruct (IP_Equal _ [n0; _; _; _]) eqn:E; [|done].
        apply IP_Equal_IPv4_short in E. injection E as -> -> -> ->. lia.
      + destruct (IP_Equal _ [b0; _; _; _]) eqn:E; [|done].
        apply IP_Equal_IPv4_short in E. injection E as -> -> -> ->. lia. }
  split.
  - intros v t0 t1 t2 t3 Ht.
    destruct (Lxf_trial_of_IPv4 _ _ _ _ Ht)
      as (u0 & u1 & u2 & u3 & Eu & Hu0 & Hu1 & Hu2 & Hu3).
    apply IPv4_inj in Eu. injection Eu as -> -> -> ->.
    rewrite <- Et in Ht. rewrite (Part000_probe_cons _ _ _ _ _ _ _ _ Ht).
    rewrite <- Hacc by done.
    destruct (Part000.accepted _ _ _ _ _); simpl; split; congruence.
  - intros draws a (v & _ & Ht & Ha)%Part000_probe_Returned.
    destruct (Lxf_trial_of_IPv4 _ _ _ _ Ht)
      as (u0 & u1 & u2 & u3 & -> & Hu0 & Hu1 & Hu2 & Hu3).
    exists u0, u1, u2, u3. split; [done|]. by apply Hacc.
Qed.

(** 10.0.0.0/24 without lease: 10.0.0.2 is the lowest address part_000
    returns. *)
Lemma Part000_FindFreeIP_default_bounds_witness :
  fst (Part000.FindFreeIP subnet01 [] None None heap24 [33554432])
  = Returned (IPv4 10 0 0 2).
Proof.
  refine (proj2 (proj1
    (Part000_FindFreeIP_default_bounds subnet01 [] heap24
       10 0 0 0 255 255 255 0 eq_refl eq_refl _ _ _ _)
    33554432 10 0 0 2 eq_refl) _).
  - lia.
  - lia.
  - reflexivity.
  - constructor.
  - split; [|reflexivity]. vm_compute. split; reflexivity.
Defined.
End DefaultBoundsClaim.

(** ** EnsureBridge *)
Section Bridge.
Import Go Api Eff.
Local Open Scope string_scope.

(** The merge loop is the left-biased union with [put.Config]: the order
    in which [range] visits the keys does not matter. *)
Lemma merge_fold_union (put cfg : gmap string string) :
  map_fold (λ k v acc, <[k := v]> acc) cfg put = put ∪ cfg.
Proof.
  induction put as [|k v put Hk IH] using map_ind.
  - by rewrite map_fold_empty, (left_id_L ∅ (∪)).
  - rewrite map_fold_insert_L; [|intros; by apply insert_insert_ne|done].
    by rewrite IH, insert_union_l.
Qed.

Lemma merge_Config_Some put cfg :
  Lxf.merge_Config put (Some cfg) = Some (Some (put ∪ cfg)).
Proof. unfold Lxf.merge_Config. by rewrite merge_fold_union. Qed.

Lemma put_Config_lookup address :
  Lxf.put_Config address !! "ipv4.address" = Some address
  ∧ Lxf.put_Config address !! "ipv4.dhcp" = Some "true"
  ∧ Lxf.put_Config address !! "ipv4.nat" = Some "true"
  ∧ Lxf.put_Config address !! "ipv6.address" = Some "none"
  ∧ Lxf.put_Config address !! "raw.dnsmasq" = Some "port=0".
Proof. unfold Lxf.put_Config. repeat split; by simplify_map_eq. Qed.
End Bridge.

Section BridgeClaims.
Import Go Api Eff.
Local Open Scope string_scope.
Local Open Scope list_scope.

Context (ParseCIDR : string → string + list Z * (list Z * list Z)).
Context (IPNet_String : list Z → list Z → string).
Context (ErrorLXDNotFound : string).
Context {σ : Type} `{!ContainerServer σ}.

Local Abbreviation EnsureBridge :=
  (Lxf.EnsureBridge ParseCIDR IPNet_String ErrorLXDNotFound).
Local Abbreviation EnsureBridge' :=
  (Part000.EnsureBridge ParseCIDR IPNet_String ErrorLXDNotFound).
Local Abbreviation bridge_address := (Lxf.bridge_address ParseCIDR IPNet_String).

(** C6.  [EnsureBridge("br0", "", nat, false)] on a server whose
    [GetNetwork] reports not-found sends two requests: the lookup, and one
    [CreateNetwork] of a managed network of type bridge whose configuration
    has ipv4.address = auto, ipv4.dhcp = true, ipv4.nat = true and
    ipv6.address = none.  It returns what the create returned; there is no
    update. *)
Theorem EnsureBridge_creates (nat : bool) s s1 s2 e log :
  let post :=
    {| post_NetworkPut :=
         {| Description := "managed by LXE, default bridge";
            Config := Some (Lxf.put_Config "auto") |};
       post_Managed := true; post_Name := "br0"; post_Type := "bridge" |} in
  GetNetwork "br0" s = (inl ErrorLXDNotFound, s1) →
  CreateNetwork post s1 = (e, s2) →
  EnsureBridge "br0" "" nat false (s, log)
  = (Some e, (s2, log ++ [CallGetNetwork "br0"; CallCreateNetwork post]))
  ∧ Lxf.put_Config "auto" !! "ipv4.address" = Some "auto"
  ∧ Lxf.put_Config "auto" !! "ipv4.dhcp" = Some "true"
  ∧ Lxf.put_Config "auto" !! "ipv4.nat" = Some "true"
  ∧ Lxf.put_Config "auto" !! "ipv6.address" = Some "none".
Proof.
  intros post HG HC.
  destruct (put_Config_lookup "auto") as (? & ? & ? & ? & _).
  split; [|done].
  unfold Lxf.EnsureBridge, Lxf.bridge_address. cbn [decide].
  rewrite decide_True by done.
  unfold mbind, M_bind, logged. rewrite HG.
  rewrite decide_True by done. fold post. rewrite HC.
  by rewrite <- app_assoc.
Qed.

(** One reconciliation of an existing bridge. *)
Lemma EnsureBridge_update_run name cidr (nat : bool) address network ETag cfg
    s s1 s2 e log :
  let put := {| Description := Description (net_NetworkPut network);
                Config := Some (Lxf.put_Config address ∪ cfg) |} in
  bridge_address cidr = Some (inr address) →
  GetNetwork name s = (inr (network, ETag), s1) →
  net_Type network = "bridge" →
  Config (net_NetworkPut network) = Some cfg →
  UpdateNetwork name put ETag s1 = (e, s2) →
  EnsureBridge name cidr nat false (s, log)
  = (Some e, (s2, log ++ [CallGetNetwork name; CallUpdateNetwork name put ETag])).
Proof.
  intros put Ha HG HT Hcfg HU. unfold Lxf.EnsureBridge. rewrite Ha.
  unfold mbind, M_bind, logged. rewrite HG.
  rewrite decide_False by (intros Hne; by apply Hne).
  rewrite Hcfg, merge_Config_Some. unfold Writable. cbn [net_NetworkPut].
  fold put. rewrite HU. by rewrite <- app_assoc.
Qed.

(** C7.  [EnsureBridge] with [createOnly] false on an existing bridge
    whose configuration is [cfg], for a [cidr] that is empty or parses.
    - It sends the lookup and one [UpdateNetwork] under the ETag the lookup
      returned, with the description unchanged and the merged
      configuration, and returns what the update returned.
    - In the merged configuration every key of [put.Config] has the value
      of [put.Config], and every other key is as in [cfg].
    - A second call with the same arguments, on a server that now reports
      the merged configuration, submits the same configuration again. *)
Theorem EnsureBridge_merges name cidr (nat : bool) address network ETag cfg
    s s1 s2 e log :
  let merged := Lxf.put_Config address ∪ cfg in
  let put := {| Description := Description (net_NetworkPut network);
                Config := Some merged |} in
  bridge_address cidr = Some (inr address) →
  GetNetwork name s = (inr (network, ETag), s1) →
  net_Type network = "bridge" →
  Config (net_NetworkPut network) = Some cfg →
  UpdateNetwork name put ETag s1 = (e, s2) →
  EnsureBridge name cidr nat false (s, log)
  = (Some e, (s2, log ++ [CallGetNetwork name; CallUpdateNetwork name put ETag]))
  ∧ (∀ k v, Lxf.put_Config address !! k = Some v → merged !! k = Some v)
  ∧ (∀ k, Lxf.put_Config address !! k = None → merged !! k = cfg !! k)
  ∧ (∀ network' ETag' t t1 t2 e' log',
       GetNetwork name t = (inr (network', ETag'), t1) →
       net_Type network' = "bridge" →
       Config (net_NetworkPut network') = Some merged →
       UpdateNetwork name
         {| Description := Description (net_NetworkPut network');
            Config := Some merged |} ETag' t1 = (e', t2) →
       EnsureBridge name cidr nat false (t, log')
       = (Some e',
          (t2, log' ++ [CallGetNetwork name;
                        CallUpdateNetwork name
                          {| Description := Description (net_NetworkPut network');
                             Config := Some merged |} ETag']))).
Proof.
  intros merged put Ha HG HT Hcfg HU.
  split; [by eapply EnsureBridge_update_run|].
  split; [|split].
  - intros k v Hk. unfold merged. by apply lookup_union_Some_l.
  - intros k Hk. unfold merged. by apply lookup_union_r.
  - intros network' ETag' t t1 t2 e' log' HG' HT' Hcfg' HU'.
    assert (Lxf.put_Config address ∪ merged = merged) as Eidem.
    { unfold merged. by rewrite (assoc_L (∪)), (idemp_L (∪)). }
    pose proof (EnsureBridge_update_run name cidr nat address network' ETag'
                  merged t t1 t2 e' log' Ha HG' HT' Hcfg') as Hrun.
    cbv zeta in Hrun. rewrite Eidem in Hrun. by apply Hrun.
Qed.

(** C8.  [EnsureBridge] with [createOnly] true on an existing network of
    type bridge, for a [cidr] that is empty or parses: the only request is
    the lookup, the result is nil, and the server is in the state the
    lookup left. *)
Theorem EnsureBridge_createOnly name cidr (nat : bool) address network ETag
    s s1 log :
  bridge_address cidr = Some (inr address) →
  GetNetwork name s = (inr (network, ETag), s1) →
  net_Type network = "bridge" →
  EnsureBridge name cidr nat true (s, log)
  = (Some None, (s1, log ++ [CallGetNetwork name])).
Proof.
  intros Ha HG HT. unfold Lxf.EnsureBridge. rewrite Ha.
  unfold mbind, M_bind, logged. rewrite HG.
  by rewrite decide_False by (intros Hne; by apply Hne).
Qed.
End BridgeClaims.

Section BridgeNat.
Import Go Api Eff.
Local Open Scope string_scope.
Local Open Scope list_scope.

Context (ParseCIDR : string → string + list Z * (list Z * list Z)).
Context (IPNet_String : list Z → list Z → string).
Context (ErrorLXDNotFound : string).
Context {σ : Type} `{!ContainerServer σ}.

(** A request that writes a configuration writes ipv4.nat = true. *)
Local Abbreviation nat_true :=
  (λ c : call, ∀ cfg, written_Config c = Some cfg →
                      cfg ≫= (.!! "ipv4.nat") = Some "true").

Lemma put_Config_nonempty address : Lxf.put_Config address ≠ ∅.
Proof.
  intros E. destruct (put_Config_lookup address) as (_ & _ & Hnat & _).
  by rewrite E in Hnat.
Qed.

Lemma merge_Config_nat address config merged :
  Lxf.merge_Config (Lxf.put_Config address) config = Some merged →
  merged ≫= (.!! "ipv4.nat") = Some "true".
Proof.
  destruct config as [cfg|].
  - rewrite merge_Config_Some. intros [= <-]. simpl.
    apply lookup_union_Some_l. apply put_Config_lookup.
  - unfold Lxf.merge_Config.
    by rewrite decide_False by apply put_Config_nonempty.
Qed.

Local Ltac log_nat :=
  repeat first
    [ apply Forall_nil_2
    | apply Forall_cons_2; [intros cfg; simpl; intros [= <-]; simpl|] ];
  try done.

Lemma Lxf_EnsureBridge_log_nat name cidr (nat createOnly : bool) s :
  Forall nat_true
    (snd (snd (Lxf.EnsureBridge ParseCIDR IPNet_String ErrorLXDNotFound
                 name cidr nat createOnly (s, [])))).
Proof.
  unfold Lxf.EnsureBridge.
  destruct (Lxf.bridge_address _ _ _) as [[err|address]|]; [log_nat| |log_nat].
  unfold mbind, M_bind, logged.
  destruct (GetNetwork name s) as [[err|[network ETag]] s1].
  - destruct (decide (err = ErrorLXDNotFound)); [|log_nat].
    destruct (CreateNetwork _ s1) as [res s2]. log_nat.
  - destruct (decide (net_Type network ≠ "bridge")); [log_nat|].
    destruct createOnly; [log_nat|].
    destruct (Lxf.merge_Config _ _) as [merged|] eqn:Em; [|log_nat].
    unfold Writable. cbn [net_NetworkPut].
    destruct (UpdateNetwork _ _ _ s1) as [res s2]. log_nat.
    all: by eapply merge_Config_nat.
Qed.

Lemma Part000_EnsureBridge_log_nat name cidr (nat createOnly : bool) s :
  Forall nat_true
    (snd (snd (Part000.EnsureBridge ParseCIDR IPNet_String ErrorLXDNotFound
                 name cidr nat createOnly (s, [])))).
Proof.
  unfold Part000.EnsureBridge.
  destruct (Lxf.bridge_address _ _ _) as [[err|address]|]; [log_nat| |log_nat].
  unfold mbind, M_bind, logged.
  destruct (GetNetwork name s) as [[err|[network ETag]] s1].
  - destruct (decide (err = ErrorLXDNotFound)); [|log_nat].
    destruct (CreateNetwork _ s1) as [res s2]. log_nat.
  - destruct (decide (net_Type network ≠ "bridge")); [log_nat|].
    destruct createOnly; [log_nat|].
    destruct (Lxf.merge_Config _ _) as [merged|] eqn:Em; [|log_nat].
    unfold Writable. cbn [net_NetworkPut].
    destruct (UpdateNetwork _ _ _ s1) as [res s2]. log_nat.
    all: by eapply merge_Config_nat.
Qed.

(** C10.  In networking.go and in part_000, [EnsureBridge] with [nat] true
    and with [nat] false are the same computation, and every
    [CreateNetwork] and [UpdateNetwork] it sends, for either value of
    [nat], carries a configuration with ipv4.nat = true. *)
Theorem EnsureBridge_ignores_nat name cidr (createOnly : bool) :
  Lxf.EnsureBridge ParseCIDR IPNet_String ErrorLXDNotFound
    name cidr true createOnly
  = Lxf.EnsureBridge ParseCIDR IPNet_String ErrorLXDNotFound
      name cidr false createOnly
  ∧ Part000.EnsureBridge ParseCIDR IPNet_String ErrorLXDNotFound
      name cidr true createOnly
    = Part000.EnsureBridge ParseCIDR IPNet_String ErrorLXDNotFound
        name cidr false createOnly
  ∧ ∀ (nat : bool) (s : σ),
      Forall nat_true
        (snd (snd (Lxf.EnsureBridge ParseCIDR IPNet_String ErrorLXDNotFound
                     name cidr nat createOnly (s, []))))
      ∧ Forall nat_true
          (snd (snd (Part000.EnsureBridge ParseCIDR IPNet_String
                       ErrorLXDNotFound name cidr nat createOnly (s, [])))).
Proof.
  split; [reflexivity|]. split; [reflexivity|].
  intros nat s. split.
  - apply Lxf_EnsureBridge_log_nat.
  - apply Part000_EnsureBridge_log_nat.
Qed.
End BridgeNat.

(** ** DetachCNI *)
Section Detach.
Import Go Api Eff.
Local Open Scope Z_scope.

Context (ErrorLXDNotFound : string).
Context {σ : Type} `{!CNIRuntime σ}.

(** C9.  [DetachCNI(c)] once the sandbox of [c] is resolved; the state
    lookup comes second, and the interface is removed for the namespace,
    name and container ID with
    - process ID 0 when the state lookup fails with not-found,
    - the process ID of the state when the lookup succeeds,
    the result being that of the removal; any other failure of the state
    lookup is returned as it is, and nothing is removed. *)
Theorem DetachCNI_state_lookup c sandbox s0 s1 log :
  Container_Sandbox c s0 = (inr sandbox, s1) →
  let detach := DetachCNIInterface (Namespace (Metadata sandbox))
                  (Name (Metadata sandbox)) (ID c) in
  let call_detach := CallDetachCNIInterface (Namespace (Metadata sandbox))
                       (Name (Metadata sandbox)) (ID c) in
  (∀ s2 s3 e,
     Container_State c s1 = (inl ErrorLXDNotFound, s2) →
     detach 0 s2 = (e, s3) →
     Lxf.DetachCNI ErrorLXDNotFound c (s0, log)
     = (Some e, (s3, log ++ [CallSandbox c; CallState c; call_detach 0])))
  ∧ (∀ err s2,
       Container_State c s1 = (inl err, s2) →
       err ≠ ErrorLXDNotFound →
       Lxf.DetachCNI ErrorLXDNotFound c (s0, log)
       = (Some (Some err), (s2, log ++ [CallSandbox c; CallState c])))
  ∧ (∀ st s2 s3 e,
       Container_State c s1 = (inr st, s2) →
       detach (Pid st) s2 = (e, s3) →
       Lxf.DetachCNI ErrorLXDNotFound c (s0, log)
       = (Some e,
          (s3, log ++ [CallSandbox c; CallState c; call_detach (Pid st)]))).
Proof.
  intros HS detach call_detach.
  unfold Lxf.DetachCNI, mbind, M_bind, logged. rewrite HS.
  split; [|split].
  - intros s2 s3 e HSt HD. rewrite HSt.
    rewrite decide_False by (intros Hne; by apply Hne).
    fold (detach 0). rewrite HD. rewrite <- !app_assoc.
    by destruct e.
  - intros err s2 HSt Hne. rewrite HSt.
    rewrite decide_True by done. by rewrite <- app_assoc.
  - intros st s2 s3 e HSt HD. rewrite HSt.
    fold (detach (Pid st)). rewrite HD. rewrite <- !app_assoc.
    by destruct e.
Qed.
End Detach.

(** ** The claims on concrete collaborators *)
Section Witnesses.
Import Go Api Eff Fixtures.
Local Open Scope string_scope.
Local Open Scope list_scope.

(** On a server without networks, "br0" is created. *)
Lemma EnsureBridge_creates_witness :
  snd (snd (Lxf.EnsureBridge no_ParseCIDR no_String "not found"
              "br0" "" true false ((∅ : gmap string (Network * string)), [])))
  = [ CallGetNetwork "br0";
      CallCreateNetwork
        {| post_NetworkPut :=
             {| Description := "managed by LXE, default bridge";
                Config := Some (Lxf.put_Config "auto") |};
           post_Managed := true; post_Name := "br0"; post_Type := "bridge" |} ].
Proof.
  destruct (CreateNetwork
              {| post_NetworkPut :=
                   {| Description := "managed by LXE, default bridge";
                      Config := Some (Lxf.put_Config "auto") |};
                 post_Managed := true; post_Name := "br0";
                 post_Type := "bridge" |}
              (∅ : gmap string (Network * string))) as [e s2] eqn:HC.
  assert (GetNetwork "br0" (∅ : gmap string (Network * string))
          = (inl "not found", ∅)) as HG by reflexivity.
  rewrite (proj1 (@EnsureBridge_creates no_ParseCIDR no_String "not found"
                    _ mem_server true _ _ s2 e [] HG HC)).
  reflexivity.
Defined.

(** On a server with the bridge "br0", whose configuration has
    ipv4.nat = false and a key user.owner, the update carries the ETag of
    the lookup. *)
Lemma EnsureBridge_merges_witness :
  ∃ put,
    snd (snd (Lxf.EnsureBridge no_ParseCIDR no_String "not found"
                "br0" "" true false (server_br0, [])))
    = [ CallGetNetwork "br0"; CallUpdateNetwork "br0" put "etag-7" ]
    ∧ Config put ≫= (.!! "ipv4.nat") = Some "true"
    ∧ Config put ≫= (.!! "user.owner") = Some "ops".
Proof.
  destruct (UpdateNetwork "br0"
              {| Description := "";
                 Config := Some (Lxf.put_Config "auto"
                                 ∪ {[ "ipv4.nat" := "false";
                                      "user.owner" := "ops" ]}) |}
              "etag-7" server_br0) as [e s2] eqn:HU.
  assert (Lxf.bridge_address no_ParseCIDR no_String "" = Some (inr "auto"))
    as Ha by reflexivity.
  assert (GetNetwork "br0" server_br0 = (inr (br0, "etag-7"), server_br0))
    as HG by reflexivity.
  assert (net_Type br0 = "bridge") as HT by reflexivity.
  assert (Config (net_NetworkPut br0)
          = Some {[ "ipv4.nat" := "false"; "user.owner" := "ops" ]})
    as Hcfg by reflexivity.
  eexists. split; [|split].
  - rewrite (proj1 (@EnsureBridge_merges no_ParseCIDR no_String "not found"
                      _ mem_server "br0" "" true "auto" br0 "etag-7" _
                      server_br0 server_br0 s2 e [] Ha HG HT Hcfg HU)).
    reflexivity.
  - reflexivity.
  - reflexivity.
Defined.

(** With [createOnly], the bridge "br0" is looked up and left alone. *)
Lemma EnsureBridge_createOnly_witness :
  Lxf.EnsureBridge no_ParseCIDR no_String "not found"
    "br0" "" true true (server_br0, [])
  = (Some None, (server_br0, [CallGetNetwork "br0"])).
Proof.
  apply (@EnsureBridge_createOnly no_ParseCIDR no_String "not found"
           _ mem_server "br0" "" true "auto" br0 "etag-7");
    reflexivity.
Defined.

(** The container "gone" has a sandbox but no state: its interface is
    removed with process ID 0. *)
Lemma DetachCNI_state_lookup_witness :
  Lxf.DetachCNI "not found" {| ID := "gone" |} (([] : list string), [])
  = (Some None,
     (["gone"],
      [ CallSandbox {| ID := "gone" |}; CallState {| ID := "gone" |};
        CallDetachCNIInterface "default" "nginx" "gone" 0 ])).
Proof.
  apply (proj1 (@DetachCNI_state_lookup "not found" _ cni_runtime
                  {| ID := "gone" |}
                  {| Metadata := {| Namespace := "default"; Name := "nginx" |} |}
                  [] [] [] ltac:(reflexivity)) []);
    reflexivity.
Defined.
End Witnesses.

(** * Further properties *)

(** ** EnsureBridge: failures, creation, the requests sent *)
Section BridgeMore.
Import Go Api Eff.
Local Open Scope string_scope.
Local Open Scope list_scope.

Context (ParseCIDR : string → string + list Z * (list Z * list Z)).
Context (IPNet_String : list Z → list Z → string).
Context (ErrorLXDNotFound : string).
Context {σ : Type} `{!ContainerServer σ}.

Local Abbreviation EnsureBridge :=
  (Lxf.EnsureBridge ParseCIDR IPNet_String ErrorLXDNotFound).
Local Abbreviation EnsureBridge' :=
  (Part000.EnsureBridge ParseCIDR IPNet_String ErrorLXDNotFound).
Local Abbreviation bridge_address := (Lxf.bridge_address ParseCIDR IPNet_String).

(** X1.  A network that exists under the name but is no bridge: both
    revisions return the mismatch error naming the network and its type
    (they differ in the first letter), whatever [createOnly] is; the lookup
    is the only request and the server is in the state the lookup left. *)
Theorem EnsureBridge_type_mismatch name cidr (nat createOnly : bool) address
    network ETag s s1 log :
  bridge_address cidr = Some (inr address) →
  GetNetwork name s = (inr (network, ETag), s1) →
  net_Type network ≠ "bridge" →
  EnsureBridge name cidr nat createOnly (s, log)
  = (Some (Some ("Expected " +:+ name +:+ " to be a bridge, but is "
                 +:+ net_Type network)),
     (s1, log ++ [CallGetNetwork name]))
  ∧ EnsureBridge' name cidr nat createOnly (s, log)
    = (Some (Some ("expected " +:+ name +:+ " to be a bridge, but is "
                   +:+ net_Type network)),
       (s1, log ++ [CallGetNetwork name])).
Proof.
  intros Ha HG HT.
  unfold Lxf.EnsureBridge, Part000.EnsureBridge. rewrite Ha.
  unfold mbind, M_bind, logged. rewrite HG.
  by rewrite !decide_True by done.
Qed.

(** X2.  A lookup that fails with anything but not-found: both revisions
    return that error as it is and send nothing after the lookup. *)
Theorem EnsureBridge_lookup_error name cidr (nat createOnly : bool) address
    err s s1 log :
  bridge_address cidr = Some (inr address) →
  GetNetwork name s = (inl err, s1) →
  err ≠ ErrorLXDNotFound →
  EnsureBridge name cidr nat createOnly (s, log)
  = (Some (Some err), (s1, log ++ [CallGetNetwork name]))
  ∧ EnsureBridge' name cidr nat createOnly (s, log)
    = (Some (Some err), (s1, log ++ [CallGetNetwork name])).
Proof.
  intros Ha HG Hne.
  unfold Lxf.EnsureBridge, Part000.EnsureBridge. rewrite Ha.
  unfold mbind, M_bind, logged. rewrite HG.
  by rewrite !decide_False by done.
Qed.

(** X3.  A [cidr] that is not empty and does not parse: both revisions
    return the error of [net.ParseCIDR] before any request; the server is not
    contacted. *)
Theorem EnsureBridge_invalid_cidr name cidr (nat createOnly : bool) err w :
  cidr ≠ "" →
  ParseCIDR cidr = inl err →
  EnsureBridge name cidr nat createOnly w = (Some (Some err), w)
  ∧ EnsureBridge' name cidr nat createOnly w = (Some (Some err), w).
Proof.
  intros Hne HP.
  unfold Lxf.EnsureBridge, Part000.EnsureBridge, Lxf.bridge_address.
  rewrite decide_False by done. by rewrite HP.
Qed.

(** X4.  A name the server does not know: both revisions create a managed
    network of type bridge under that name, whatever [createOnly] and [nat]
    are, with ipv4.address the address computed from [cidr], and return what
    the create returned. *)
Theorem EnsureBridge_creates_any name cidr (nat createOnly : bool) address
    s s1 s2 e log :
  let post :=
    {| post_NetworkPut :=
         {| Description := "managed by LXE, default bridge";
            Config := Some (Lxf.put_Config address) |};
       post_Managed := true; post_Name := name; post_Type := "bridge" |} in
  bridge_address cidr = Some (inr address) →
  GetNetwork name s = (inl ErrorLXDNotFound, s1) →
  CreateNetwork post s1 = (e, s2) →
  EnsureBridge name cidr nat createOnly (s, log)
  = (Some e, (s2, log ++ [CallGetNetwork name; CallCreateNetwork post]))
  ∧ EnsureBridge' name cidr nat createOnly (s, log)
    = (Some e, (s2, log ++ [CallGetNetwork name; CallCreateNetwork post]))
  ∧ Lxf.put_Config address !! "ipv4.address" = Some address.
Proof.
  intros post Ha HG HC.
  split; [|split; [|apply put_Config_lookup]].
  - unfold Lxf.EnsureBridge. rewrite Ha.
    unfold mbind, M_bind, logged. rewrite HG.
    rewrite decide_True by done. fold post. rewrite HC.
    by rewrite <- app_assoc.
  - unfold Part000.EnsureBridge. rewrite Ha.
    unfold mbind, M_bind, logged. rewrite HG.
    rewrite decide_True by done. fold post. rewrite HC.
    by rewrite <- app_assoc.
Qed.

(** X6.  An existing bridge whose configuration map is nil, [createOnly]
    false: the merge loop assigns into the nil map; both revisions panic
    after the lookup, and no update is sent. *)
Theorem EnsureBridge_nil_Config_panics name cidr (nat : bool) address
    network ETag s s1 log :
  bridge_address cidr = Some (inr address) →
  GetNetwork name s = (inr (network, ETag), s1) →
  net_Type network = "bridge" →
  Config (net_NetworkPut network) = None →
  EnsureBridge name cidr nat false (s, log)
  = (None, (s1, log ++ [CallGetNetwork name]))
  ∧ EnsureBridge' name cidr nat false (s, log)
    = (None, (s1, log ++ [CallGetNetwork name])).
Proof.
  intros Ha HG HT Hcfg.
  unfold Lxf.EnsureBridge, Part000.EnsureBridge. rewrite Ha.
  unfold mbind, M_bind, logged. rewrite HG.
  rewrite !decide_False by (intros Hne; by apply Hne).
  rewrite Hcfg. unfold Lxf.merge_Config.
  by rewrite !decide_False by apply put_Config_nonempty.
Qed.
End BridgeMore.

Section BridgeShape.
Import Go Api Eff.
Local Open Scope string_scope.
Local Open Scope list_scope.

Context (ParseCIDR : string → string + list Z * (list Z * list Z)).
Context (IPNet_String : list Z → list Z → string).
Context (ErrorLXDNotFound : string).
Context {σ : Type} `{!ContainerServer σ}.

Local Abbreviation EnsureBridge :=
  (Lxf.EnsureBridge ParseCIDR IPNet_String ErrorLXDNotFound).
Local Abbreviation EnsureBridge' :=
  (Part000.EnsureBridge ParseCIDR IPNet_String ErrorLXDNotFound).

(** X7.  The two revisions of [EnsureBridge] send the same requests and
    leave the server in the same state on every input, and return the same
    result unless the network exists and is no bridge (where the texts of the
    error differ). *)
Theorem EnsureBridge_revisions_agree name cidr (nat createOnly : bool) w :
  snd (EnsureBridge' name cidr nat createOnly w)
  = snd (EnsureBridge name cidr nat createOnly w)
  ∧ (fst (EnsureBridge' name cidr nat createOnly w)
     = fst (EnsureBridge name cidr nat createOnly w)
     ∨ ∃ network ETag s1,
         GetNetwork name (fst w) = (inr (network, ETag), s1)
         ∧ net_Type network ≠ "bridge").
Proof.
  destruct w as [s log].
  unfold Lxf.EnsureBridge, Part000.EnsureBridge.
  destruct (Lxf.bridge_address _ _ _) as [[err|address]|]; [by auto..| |by auto].
  unfold mbind, M_bind, logged. cbn [fst].
  destruct (GetNetwork name s) as [[err|[network ETag]] s1] eqn:HG; [by auto|].
  destruct (decide (net_Type network ≠ "bridge")) as [Hne|Heq].
  - split; [done|]. right. by exists network, ETag, s1.
  - by auto.
Qed.

(** X5.  Whatever the arguments and the server, [EnsureBridge] of
    networking.go sends nothing, or the lookup alone, or the lookup and one
    [CreateNetwork] of a managed bridge of that name, or the lookup and one
    [UpdateNetwork] of that name; the update only with [createOnly] false.
    It never creates and updates in one call, and never writes before it
    has looked the name up. *)
Theorem EnsureBridge_requests name cidr (nat createOnly : bool) (s : σ) :
  let log := snd (snd (EnsureBridge name cidr nat createOnly (s, []))) in
  log = []
  ∨ log = [CallGetNetwork name]
  ∨ (∃ post, log = [CallGetNetwork name; CallCreateNetwork post]
             ∧ post_Name post = name ∧ post_Type post = "bridge"
             ∧ post_Managed post = true)
  ∨ (∃ put ETag, log = [CallGetNetwork name; CallUpdateNetwork name put ETag]
                 ∧ createOnly = false).
Proof.
  unfold Lxf.EnsureBridge.
  destruct (Lxf.bridge_address _ _ _) as [[err|address]|]; [by left..| |by left].
  unfold mbind, M_bind, logged.
  destruct (GetNetwork name s) as [[err|[network ETag]] s1].
  - destruct (decide (err = ErrorLXDNotFound)); [|right; by left].
    destruct (CreateNetwork _ s1) as [res s2].
    right; right; left. by eexists.
  - destruct (decide (net_Type network ≠ "bridge")); [right; by left|].
    destruct createOnly; [right; by left|].
    destruct (Lxf.merge_Config _ _) as [merged|]; [|right; by left].
    destruct (UpdateNetwork _ _ _ s1) as [res s2].
    right; right; right. by eexists _, _.
Qed.
End BridgeShape.

(** ** AttachCNI and DetachCNI *)
Section AttachDetach.
Import Go Api Eff.
Local Open Scope string_scope.
Local Open Scope list_scope.

Context {σ : Type} `{!CNIAttachRuntime σ}.

(** X8.  [AttachCNI] stops at the first failure and returns it: a failed
    sandbox lookup is followed by no call; a failed state lookup, not-found
    included, by no attachment; a failed attachment by no [apply]. *)
Theorem AttachCNI_failures c s0 log :
  (∀ err s1,
     Attach_Sandbox c s0 = (inl err, s1) →
     Lxf.AttachCNI c (s0, log)
     = (Some (Some err), (s1, log ++ [CallAttachSandbox c])))
  ∧ (∀ sandbox s1 err s2,
       Attach_Sandbox c s0 = (inr sandbox, s1) →
       Attach_State c s1 = (inl err, s2) →
       Lxf.AttachCNI c (s0, log)
       = (Some (Some err),
          (s2, log ++ [CallAttachSandbox c; CallAttachState c])))
  ∧ (∀ sandbox s1 st s2 err s3,
       Attach_Sandbox c s0 = (inr sandbox, s1) →
       Attach_State c s1 = (inr st, s2) →
       AttachCNIInterface (Namespace (ns_Metadata sandbox))
         (Name (ns_Metadata sandbox)) (ID c) (Pid st) s2 = (inl err, s3) →
       Lxf.AttachCNI c (s0, log)
       = (Some (Some err),
          (s3, log ++ [CallAttachSandbox c; CallAttachState c;
                       CallAttachCNIInterface (Namespace (ns_Metadata sandbox))
                         (Name (ns_Metadata sandbox)) (ID c) (Pid st)]))).
Proof.
  unfold Lxf.AttachCNI, mbind, M_bind, logged.
  split; [|split].
  - intros err s1 HS. by rewrite HS.
  - intros sandbox s1 err s2 HS HSt. rewrite HS, HSt.
    by rewrite <- app_assoc.
  - intros sandbox s1 st s2 err s3 HS HSt HA. rewrite HS, HSt, HA.
    by rewrite <- !app_assoc.
Qed.

(** X9.  When the sandbox, the state and the attachment succeed and the
    sandbox has mode data, [AttachCNI] persists the sandbox with the result
    of the attachment under the key result and every other key as it was,
    the attachment having been made for the process ID of the state; it
    returns what [apply] returned. *)
Theorem AttachCNI_persists_result c sandbox data st result s0 s1 s2 s3 s4 e log :
  let saved := {| ns_Metadata := ns_Metadata sandbox;
                  ModeData := Some (<["result" := result]> data) |} in
  Attach_Sandbox c s0 = (inr sandbox, s1) →
  ModeData sandbox = Some data →
  Attach_State c s1 = (inr st, s2) →
  AttachCNIInterface (Namespace (ns_Metadata sandbox))
    (Name (ns_Metadata sandbox)) (ID c) (Pid st) s2 = (inr result, s3) →
  Sandbox_apply saved s3 = (e, s4) →
  Lxf.AttachCNI c (s0, log)
  = (Some e,
     (s4, log ++ [CallAttachSandbox c; CallAttachState c;
                  CallAttachCNIInterface (Namespace (ns_Metadata sandbox))
                    (Name (ns_Metadata sandbox)) (ID c) (Pid st);
                  CallApply saved]))
  ∧ (<["result" := result]> data) !! "result" = Some result
  ∧ ∀ k, k ≠ "result" → (<["result" := result]> data) !! k = data !! k.
Proof.
  intros saved HS HD HSt HA HP.
  split; [|split].
  - unfold Lxf.AttachCNI, mbind, M_bind, logged.
    rewrite HS, HSt, HA, HD. fold saved. rewrite HP.
    rewrite <- !app_assoc. by destruct e.
  - apply lookup_insert_eq.
  - intros k Hk. by apply lookup_insert_ne.
Qed.

(** X10.  A sandbox whose mode data is the nil map: the interface has been
    attached when the assignment of the result panics; nothing is
    persisted. *)
Theorem AttachCNI_nil_ModeData_panics c sandbox st result s0 s1 s2 s3 log :
  Attach_Sandbox c s0 = (inr sandbox, s1) →
  ModeData sandbox = None →
  Attach_State c s1 = (inr st, s2) →
  AttachCNIInterface (Namespace (ns_Metadata sandbox))
    (Name (ns_Metadata sandbox)) (ID c) (Pid st) s2 = (inr result, s3) →
  Lxf.AttachCNI c (s0, log)
  = (None,
     (s3, log ++ [CallAttachSandbox c; CallAttachState c;
                  CallAttachCNIInterface (Namespace (ns_Metadata sandbox))
                    (Name (ns_Metadata sandbox)) (ID c) (Pid st)])).
Proof.
  intros HS HD HSt HA.
  unfold Lxf.AttachCNI, mbind, M_bind, logged.
  rewrite HS, HSt, HA, HD. by rewrite <- !app_assoc.
Qed.
End AttachDetach.

Section DetachMore.
Import Go Api Eff.
Local Open Scope list_scope.

Context (ErrorLXDNotFound : string).
Context {σ : Type} `{!CNIRuntime σ}.

(** X11.  [DetachCNI] of a container whose sandbox cannot be resolved
    returns that error; the state is not looked up and no interface is
    removed.  In every case the calls are the sandbox lookup, then at most
    the state lookup, then at most one removal. *)
Theorem DetachCNI_calls c s0 :
  (∀ err s1 log,
     Container_Sandbox c s0 = (inl err, s1) →
     Lxf.DetachCNI ErrorLXDNotFound c (s0, log)
     = (Some (Some err), (s1, log ++ [CallSandbox c])))
  ∧ (let log := snd (snd (Lxf.DetachCNI ErrorLXDNotFound c (s0, []))) in
     log = [CallSandbox c]
     ∨ log = [CallSandbox c; CallState c]
     ∨ ∃ ns nm pid,
         log = [CallSandbox c; CallState c;
                CallDetachCNIInterface ns nm (ID c) pid]).
Proof.
  unfold Lxf.DetachCNI, mbind, M_bind, logged. split.
  - intros err s1 log HS. by rewrite HS.
  - destruct (Container_Sandbox c s0) as [[err|sandbox] s1]; [by left|].
    destruct (Container_State c s1) as [[err|st] s2].
    + destruct (decide (err ≠ ErrorLXDNotFound)); [right; by left|].
      destruct (DetachCNIInterface _ _ _ _ s2) as [[e|] s3];
        right; right; by eexists _, _, _.
    + destruct (DetachCNIInterface _ _ _ _ s2) as [[e|] s3];
        right; right; by eexists _, _, _.
Qed.
End DetachMore.

(** ** Candidates and the subnet *)
Section HostBits.
Import Go.
Local Open Scope Z_scope.

Lemma testbit_255 (i : Z) : 0 ≤ i → Z.testbit 255 i = (i <? 8).
Proof.
  intros Hi. change 255 with (Z.ones 8).
  by rewrite Z.testbit_ones_nonneg by lia.
Qed.

Lemma byte_testbit_high (x i : Z) : 0 ≤ x < 256 → 8 ≤ i → Z.testbit x i = false.
Proof.
  intros Hx Hi. destruct (Z.eq_dec x 0) as [->|Hne]; [apply Z.testbit_0_l|].
  apply Z.bits_above_log2; [lia|].
  assert (Z.log2 x < 8); [|lia]. apply Z.log2_lt_pow2; lia.
Qed.

Local Ltac bitwise :=
  apply Z.bits_inj'; intros i Hi;
  repeat first
    [ rewrite Z.land_spec | rewrite Z.lor_spec | rewrite Z.lxor_spec
    | rewrite Z.testbit_0_l | rewrite testbit_255 by done ];
  destruct (Z.ltb_spec i 8);
  rewrite ?(byte_testbit_high _ i) by (done || lia).

Lemma land_not8 (m : Z) : 0 ≤ m < 256 → Z.land (not8 m) m = 0.
Proof. intros Hm. unfold not8. bitwise; by destruct (Z.testbit m i). Qed.

(** A byte is its part under the mask plus its part outside. *)
Lemma byte_split (t m : Z) :
  0 ≤ t < 256 → 0 ≤ m < 256 →
  Z.lor (Z.land t m) (Z.land t (not8 m)) = t.
Proof.
  intros Ht Hm. unfold not8.
  bitwise; by destruct (Z.testbit t i), (Z.testbit m i).
Qed.

Lemma add_disjoint (a b : Z) : Z.land a b = 0 → a + b = Z.lor a b.
Proof.
  intros H. rewrite Z.add_nocarry_lxor by done. by apply Z.lxor_lor.
Qed.

Lemma byte_land_r (v m : Z) : 0 ≤ m < 256 → 0 ≤ Z.land v m < 256.
Proof.
  intros [Hm Em]%byte_shiftr. apply byte_shiftr.
  split; [apply Z.land_nonneg; by right|].
  by rewrite Z.shiftr_land, Em, Z.land_0_r.
Qed.

(** One byte of a candidate, for a subnet whose address has no bit outside
    the mask: no carry, and the byte masked is the byte of the address. *)
Lemma trial_byte_masked (n m v : Z) :
  0 ≤ n < 256 → 0 ≤ m < 256 → Z.land n (not8 m) = 0 →
  wrap8 (n + Z.land v (not8 m)) = Z.lor n (Z.land v (not8 m))
  ∧ Z.land (wrap8 (n + Z.land v (not8 m))) m = n.
Proof.
  intros Hn Hm Hc.
  pose proof (byte_not8 m Hm) as Hnm.
  pose proof (byte_land_r v (not8 m) Hnm) as Hh.
  assert (Z.land n (Z.land v (not8 m)) = 0) as Hd.
  { rewrite (Z.land_comm v), Z.land_assoc, Hc. apply Z.land_0_l. }
  assert (Z.land n m = n) as Hnn.
  { rewrite <- (byte_split n m) at 2 by done. by rewrite Hc, Z.lor_0_r. }
  assert (wrap8 (n + Z.land v (not8 m)) = Z.lor n (Z.land v (not8 m))) as E.
  { rewrite add_disjoint by done. unfold wrap8. apply Z.mod_small.
    by apply byte_lor. }
  split; [done|]. rewrite E, Z.land_lor_distr_l, Hnn.
  rewrite <- Z.land_assoc, land_not8 by done.
  by rewrite Z.land_0_r, Z.lor_0_r.
Qed.

(** A byte of the subnet is the candidate byte of itself. *)
Lemma trial_byte_onto (n m t : Z) :
  0 ≤ t < 256 → 0 ≤ m < 256 → Z.land t m = n →
  wrap8 (n + Z.land t (not8 m)) = t.
Proof.
  intros Ht Hm <-.
  rewrite add_disjoint.
  - rewrite byte_split by done. unfold wrap8. apply Z.mod_small. lia.
  - rewrite (Z.land_comm t (not8 m)), Z.land_assoc.
    rewrite <- (Z.land_assoc t m), (Z.land_comm m), land_not8 by done.
    by rewrite Z.land_0_r, Z.land_0_l.
Qed.

(** The draw whose little-endian bytes are t0, t1, t2, t3. *)
Lemma PutUint32_bytes (t0 t1 t2 t3 : Z) :
  0 ≤ t0 < 256 → 0 ≤ t1 < 256 → 0 ≤ t2 < 256 → 0 ≤ t3 < 256 →
  PutUint32 (t0 + 256 * t1 + 65536 * t2 + 16777216 * t3) = [t0; t1; t2; t3].
Proof.
  intros. unfold PutUint32. change 255 with (Z.ones 8).
  rewrite !Z.land_ones, !Z.shiftr_div_pow2 by lia.
  change (2 ^ 8) with 256. change (2 ^ 16) with 65536.
  change (2 ^ 24) with 16777216.
  repeat f_equal; Z.div_mod_to_equations; lia.
Qed.
End HostBits.

Section Soundness.
Import Go.
Local Open Scope Z_scope.

(** Every candidate of a subnet whose address has no bit outside the mask
    is a 16-byte IPv4 address of that subnet. *)
Lemma Lxf_trial_of_canonical h subnet n0 n1 n2 n3 m0 m1 m2 m3 v :
  bytes_at h (IP subnet) = [n0; n1; n2; n3] →
  bytes_at h (Mask subnet) = [m0; m1; m2; m3] →
  (0 ≤ n0 < 256 ∧ 0 ≤ n1 < 256 ∧ 0 ≤ n2 < 256 ∧ 0 ≤ n3 < 256) →
  (0 ≤ m0 < 256 ∧ 0 ≤ m1 < 256 ∧ 0 ≤ m2 < 256 ∧ 0 ≤ m3 < 256) →
  (Z.land n0 (not8 m0) = 0 ∧ Z.land n1 (not8 m1) = 0
   ∧ Z.land n2 (not8 m2) = 0 ∧ Z.land n3 (not8 m3) = 0) →
  ∃ t0 t1 t2 t3,
    Lxf.trial_of h subnet v = Some (IPv4 t0 t1 t2 t3)
    ∧ (0 ≤ t0 < 256 ∧ 0 ≤ t1 < 256 ∧ 0 ≤ t2 < 256 ∧ 0 ≤ t3 < 256)
    ∧ (Z.land t0 m0, Z.land t1 m1, Z.land t2 m2, Z.land t3 m3)
      = (n0, n1, n2, n3).
Proof.
  intros HI HM (Hn0 & Hn1 & Hn2 & Hn3) (Hm0 & Hm1 & Hm2 & Hm3)
    (Hc0 & Hc1 & Hc2 & Hc3).
  unfold Lxf.trial_of, Lxf.trial_byte, index. rewrite HI, HM.
  cbn [PutUint32 lookup list_lookup mbind option_bind].
  eexists _, _, _, _. split; [reflexivity|].
  split; [auto using wrap8_range|].
  rewrite (proj2 (trial_byte_masked n0 m0 _ Hn0 Hm0 Hc0)).
  rewrite (proj2 (trial_byte_masked n1 m1 _ Hn1 Hm1 Hc1)).
  rewrite (proj2 (trial_byte_masked n2 m2 _ Hn2 Hm2 Hc2)).
  by rewrite (proj2 (trial_byte_masked n3 m3 _ Hn3 Hm3 Hc3)).
Qed.

(** What a successful prologue of part_000 is made of: the store grows
    by the broadcast address and the defaults, and given bounds are kept. *)
Lemma Part000_prologue_Some subnet leases start end_ h leases' start' end' h' :
  Part000.prologue subnet leases start end_ h = Some (leases', start', end', h') →
  ∃ bc k,
    mapM (Lxf.broadcast_byte h subnet) [0; 1; 2; 3]%nat = Some bc
    ∧ leases' = leases ++ [IP subnet; Some (length h)]
    ∧ h' = h ++ bc :: k
    ∧ (is_Some start → start' = start)
    ∧ (is_Some end_ → end' = end_).
Proof.
  unfold Part000.prologue. intros H.
  destruct (mapM _ _) as [bc|] eqn:Ebc; [|done].
  cbn [mbind option_bind alloc] in H.
  assert (∀ h1 p q r h2, Part000.default_start h1 p q = Some (r, h2) →
                         (∃ k, h2 = h1 ++ k) ∧ (is_Some q → r = q)) as Hs.
  { intros h1 p q r h2. unfold Part000.default_start.
    destruct q; [intros [= <- <-]; split; [exists []; by rewrite app_nil_r|done]|].
    destruct (index h1 p 0); cbn [mbind option_bind]; [|done].
    destruct (index h1 p 1); cbn [mbind option_bind]; [|done].
    destruct (index h1 p 2); cbn [mbind option_bind]; [|done].
    destruct (index h1 p 3); cbn [mbind option_bind]; [|done].
    intros [= <- <-]. split; [eauto|]. by intros [? ?]. }
  assert (∀ h1 p q r h2, Part000.default_end h1 p q = Some (r, h2) →
                         (∃ k, h2 = h1 ++ k) ∧ (is_Some q → r = q)) as He.
  { intros h1 p q r h2. unfold Part000.default_end.
    destruct q; [intros [= <- <-]; split; [exists []; by rewrite app_nil_r|done]|].
    destruct (index h1 p 0); cbn [mbind option_bind]; [|done].
    destruct (index h1 p 1); cbn [mbind option_bind]; [|done].
    destruct (index h1 p 2); cbn [mbind option_bind]; [|done].
    destruct (index h1 p 3); cbn [mbind option_bind]; [|done].
    intros [= <- <-]. split; [eauto|]. by intros [? ?]. }
  destruct (Part000.default_start _ _ _) as [[s2 h2]|] eqn:Es; [|done].
  cbn [mbind option_bind] in H.
  destruct (Part000.default_end _ _ _) as [[e3 h3]|] eqn:Ee; [|done].
  cbn [mbind option_bind] in H. injection H as <- <- <- <-.
  apply Hs in Es as [[k1 ->] Hs1]. apply He in Ee as [[k2 ->] He1].
  exists bc, (k1 ++ k2). repeat split; [|done..].
  rewrite <- !app_assoc. done.
Qed.

(** The reserved addresses seen by the loop, when the broadcast entry has
    not been rewritten: the caller's leases, the subnet's address and its
    broadcast address. *)
Lemma Lxf_leased_reserved h bc k subnet leases t :
  Forall (valid h) leases → valid h (IP subnet) →
  Lxf.leased (h ++ bc :: k) (leases ++ [IP subnet; Some (length h)]) t
  = Lxf.leased h leases t
    || (IP_Equal t (bytes_at h (IP subnet)) || IP_Equal t bc).
Proof.
  intros Hl HI. rewrite Lxf_leased_snoc, (Lxf_leased_app _ _ _ _ Hl).
  f_equal. unfold Lxf.leased. cbn [existsb]. rewrite orb_false_r.
  f_equal.
  - destruct (IP subnet) as [l|]; [|done]. unfold bytes_at.
    by rewrite lookup_app_l.
  - unfold bytes_at. rewrite lookup_app_r by lia.
    by rewrite Nat.sub_diag.
Qed.
End Soundness.

Section SoundnessClaims.
Import Go Fixtures.
Local Open Scope Z_scope.

Lemma Lxf_leased_false h leases t :
  Lxf.leased h leases t = false
  ↔ Forall (λ lease, IP_Equal t (bytes_at h lease) = false) leases.
Proof.
  unfold Lxf.leased. induction leases as [|p leases IH]; simpl.
  - split; [constructor|done].
  - rewrite orb_false_iff, IH, Forall_cons. tauto.
Qed.

(** With [start] given, the prologue of networking.go appends one array to
    the store: the broadcast address, or with [end] nil the broadcast
    address with its last byte decremented, which is then [end] and the
    lease entry of the broadcast address. *)
Lemma Lxf_prologue_start subnet leases s end_ h leases' start' end' h' :
  Lxf.prologue subnet leases (Some s) end_ h = Some (leases', start', end', h') →
  ∃ b0 b1 b2 b3 x,
    mapM (Lxf.broadcast_byte h subnet) [0; 1; 2; 3]%nat = Some [b0; b1; b2; b3]
    ∧ leases' = leases ++ [IP subnet; Some (length h)]
    ∧ start' = Some s
    ∧ h' = h ++ [x]
    ∧ match end_ with
      | Some e => end' = Some e ∧ x = [b0; b1; b2; b3]
      | None => end' = Some (length h) ∧ x = [b0; b1; b2; wrap8 (b3 - 1)]
      end.
Proof.
  intros (bc & h2 & Ebc & -> & Es & Ee)%Lxf_prologue_Some.
  destruct (Lxf_broadcast_lengths _ _ _ Ebc) as (_ & _ & Lbc).
  destruct bc as [|b0 [|b1 [|b2 [|b3 [|]]]]]; simpl in Lbc; try lia.
  unfold Lxf.default_start in Es. injection Es as <- <-.
  unfold Lxf.default_end in Ee. destruct end_ as [e|].
  - injection Ee as <- <-. by eexists _, _, _, _, _.
  - unfold index in Ee. rewrite bytes_at_alloc_new in Ee.
    cbn [lookup list_lookup mbind option_bind] in Ee.
    destruct (store _ _ _ _) as [h3|] eqn:Est; [|done].
    cbn [mbind option_bind] in Ee. injection Ee as <- <-.
    apply store_Some in Est as [_ ->]. rewrite bytes_at_alloc_new.
    rewrite insert_app_r_alt by lia. rewrite Nat.sub_diag.
    by eexists _, _, _, _, _.
Qed.

(** X14.  On a subnet whose 4-byte address has no bit outside its 4-byte
    mask, every address returned by [FindFreeIP] of part_000, whatever the
    leases and bounds, and by [FindFreeIP] of networking.go when [start] is
    given, is a 16-byte IPv4 address of the subnet: each of its bytes,
    masked, is the byte of the subnet's address. *)
Theorem FindFreeIP_returns_subnet_address
    subnet leases start end_ s h n0 n1 n2 n3 m0 m1 m2 m3 draws a :
  bytes_at h (IP subnet) = [n0; n1; n2; n3] →
  bytes_at h (Mask subnet) = [m0; m1; m2; m3] →
  (0 ≤ n0 < 256 ∧ 0 ≤ n1 < 256 ∧ 0 ≤ n2 < 256 ∧ 0 ≤ n3 < 256) →
  (0 ≤ m0 < 256 ∧ 0 ≤ m1 < 256 ∧ 0 ≤ m2 < 256 ∧ 0 ≤ m3 < 256) →
  (Z.land n0 (not8 m0) = 0 ∧ Z.land n1 (not8 m1) = 0
   ∧ Z.land n2 (not8 m2) = 0 ∧ Z.land n3 (not8 m3) = 0) →
  fst (Part000.FindFreeIP subnet leases start end_ h draws) = Returned a
  ∨ fst (Lxf.FindFreeIP subnet leases (Some s) end_ h draws) = Returned a →
  ∃ t0 t1 t2 t3,
    a = IPv4 t0 t1 t2 t3
    ∧ (Z.land t0 m0, Z.land t1 m1, Z.land t2 m2, Z.land t3 m3)
      = (n0, n1, n2, n3).
Proof.
  intros HI HM Hn Hm Hc Hret.
  assert (valid h (IP subnet)) as VI.
  { apply valid_of_length. rewrite HI. simpl. lia. }
  assert (valid h (Mask subnet)) as VM.
  { apply valid_of_length. rewrite HM. simpl. lia. }
  assert (∃ k v, Lxf.trial_of (h ++ k) subnet v = Some a) as (k & v & Ht).
  { destruct Hret as [Hret|Hret].
    - unfold Part000.FindFreeIP in Hret.
      destruct (Part000.prologue _ _ _ _ _) as [[[[l' s'] e'] h']|] eqn:Hpro;
        [|done].
      apply Part000_prologue_Some in Hpro as (bc & k & _ & _ & -> & _).
      apply Part000_probe_Returned in Hret as (v & _ & Ht & _). eauto.
    - unfold Lxf.FindFreeIP in Hret.
      destruct (Lxf.prologue _ _ _ _ _) as [[[[l' s'] e'] h']|] eqn:Hpro;
        [|done].
      apply Lxf_prologue_start in Hpro
        as (b0 & b1 & b2 & b3 & x & _ & _ & _ & -> & _).
      apply Lxf_probe_Returned in Hret as (v & _ & Ht & _). eauto. }
  rewrite Lxf_trial_of_app in Ht by done.
  destruct (Lxf_trial_of_canonical h subnet _ _ _ _ _ _ _ _ v HI HM Hn Hm Hc)
    as (t0 & t1 & t2 & t3 & Ht' & _ & Hmask).
  rewrite Ht in Ht'. injection Ht' as ->. by exists t0, t1, t2, t3.
Qed.

(** X15.  [FindFreeIP] of part_000, whatever the bounds, and [FindFreeIP]
    of networking.go when both bounds are given, never return an address
    that [Equal]s one of the caller's leases, the subnet's own address or
    its broadcast address. *)
Theorem FindFreeIP_never_returns_reserved
    subnet leases start end_ s e h bc draws a :
  mapM (Lxf.broadcast_byte h subnet) [0; 1; 2; 3]%nat = Some bc →
  Forall (valid h) leases →
  fst (Part000.FindFreeIP subnet leases start end_ h draws) = Returned a
  ∨ fst (Lxf.FindFreeIP subnet leases (Some s) (Some e) h draws) = Returned a →
  Forall (λ lease, IP_Equal a (bytes_at h lease) = false) leases
  ∧ IP_Equal a (bytes_at h (IP subnet)) = false
  ∧ IP_Equal a bc = false.
Proof.
  intros Ebc Hl Hret.
  destruct (Lxf_broadcast_valid _ _ _ Ebc) as [VI _].
  assert (∃ k, Lxf.leased (h ++ bc :: k)
                 (leases ++ [IP subnet; Some (length h)]) a = false)
    as [k Hres].
  { destruct Hret as [Hret|Hret].
    - unfold Part000.FindFreeIP in Hret.
      destruct (Part000.prologue _ _ _ _ _) as [[[[l' s'] e'] h']|] eqn:Hpro;
        [|done].
      apply Part000_prologue_Some in Hpro as (bc' & k & Ebc' & -> & -> & _).
      rewrite Ebc in Ebc'. injection Ebc' as <-.
      apply Part000_probe_Returned in Hret as (v & _ & _ & Ha).
      apply Part000_accepted_spec in Ha as (_ & _ & Ha). eauto.
    - unfold Lxf.FindFreeIP in Hret.
      rewrite (Lxf_prologue_explicit _ leases s e _ _ Ebc) in Hret.
      apply Lxf_probe_Returned in Hret as (v & _ & _ & Ha).
      apply Lxf_accepted_spec in Ha as (_ & _ & Ha). by exists []. }
  rewrite Lxf_leased_reserved in Hres by done.
  apply orb_false_iff in Hres as [H1 H2].
  apply orb_false_iff in H2 as [H2 H3].
  by apply Lxf_leased_false in H1.
Qed.
End SoundnessClaims.

Section Liveness.
Import Go Fixtures.
Local Open Scope Z_scope.

(** An address of the subnet is the candidate of the draw made of its
    bytes, lowest byte first. *)
Lemma Lxf_trial_of_onto h subnet n0 n1 n2 n3 m0 m1 m2 m3 t0 t1 t2 t3 :
  bytes_at h (IP subnet) = [n0; n1; n2; n3] →
  bytes_at h (Mask subnet) = [m0; m1; m2; m3] →
  (0 ≤ m0 < 256 ∧ 0 ≤ m1 < 256 ∧ 0 ≤ m2 < 256 ∧ 0 ≤ m3 < 256) →
  (0 ≤ t0 < 256 ∧ 0 ≤ t1 < 256 ∧ 0 ≤ t2 < 256 ∧ 0 ≤ t3 < 256) →
  (Z.land t0 m0, Z.land t1 m1, Z.land t2 m2, Z.land t3 m3) = (n0, n1, n2, n3) →
  Lxf.trial_of h subnet (t0 + 256 * t1 + 65536 * t2 + 16777216 * t3)
  = Some (IPv4 t0 t1 t2 t3).
Proof.
  intros HI HM (Hm0 & Hm1 & Hm2 & Hm3) (Ht0 & Ht1 & Ht2 & Ht3) [= E0 E1 E2 E3].
  unfold Lxf.trial_of. rewrite PutUint32_bytes by done.
  unfold Lxf.trial_byte, index. rewrite HI, HM.
  cbn [lookup list_lookup mbind option_bind].
  by rewrite !trial_byte_onto by done.
Qed.

(** The two checks of part_000 on its default bounds, as numbers. *)
Lemma Part000_default_accepted
    subnet leases h n0 n1 n2 n3 m0 m1 m2 m3 t0 t1 t2 t3 :
  let b0 := Z.lor n0 (not8 m0) in
  let b1 := Z.lor n1 (not8 m1) in
  let b2 := Z.lor n2 (not8 m2) in
  let b3 := Z.lor n3 (not8 m3) in
  bytes_at h (IP subnet) = [n0; n1; n2; n3] →
  (0 ≤ n0 < 256 ∧ 0 ≤ n1 < 256 ∧ 0 ≤ n2 < 256 ∧ 0 ≤ n3 < 255) →
  (0 ≤ m0 < 256 ∧ 0 ≤ m1 < 256 ∧ 0 ≤ m2 < 256 ∧ 0 ≤ m3 < 256) →
  0 < b3 →
  Forall (valid h) leases →
  (0 ≤ t0 < 256 ∧ 0 ≤ t1 < 256 ∧ 0 ≤ t2 < 256 ∧ 0 ≤ t3 < 256) →
  Part000.accepted
    (h ++ [ [b0; b1; b2; b3]; IPv4 n0 n1 n2 (wrap8 (n3 + 1));
            IPv4 b0 b1 b2 (wrap8 (b3 - 1)) ])
    (leases ++ [IP subnet; Some (length h)])
    (Some (S (length h))) (Some (S (S (length h)))) (IPv4 t0 t1 t2 t3) = true
  ↔ addr4 n0 n1 n2 n3 + 1 < addr4 t0 t1 t2 t3 < addr4 b0 b1 b2 b3 - 1
    ∧ Lxf.leased h leases (IPv4 t0 t1 t2 t3) = false.
Proof.
  intros b0 b1 b2 b3 HI (Hn0 & Hn1 & Hn2 & Hn3) (Hm0 & Hm1 & Hm2 & Hm3)
    Hb3 Hleases (Ht0 & Ht1 & Ht2 & Ht3).
  assert (0 ≤ b0 < 256 ∧ 0 ≤ b1 < 256 ∧ 0 ≤ b2 < 256 ∧ 0 ≤ b3 < 256)
    as (Hb0 & Hb1 & Hb2 & Hb3').
  { unfold b0, b1, b2, b3.
    repeat split; try apply byte_lor; try apply byte_not8; lia. }
  assert (valid h (IP subnet)) as VI.
  { apply valid_of_length. rewrite HI. simpl. lia. }
  rewrite Part000_accepted_spec, Lxf_leased_reserved by done.
  assert (∀ x y z, bytes_at (h ++ [x; y; z]) (Some (S (length h))) = y) as ->.
  { intros. unfold bytes_at. rewrite lookup_app_r by lia.
    by replace (S (length h) - length h)%nat with 1%nat by lia. }
  assert (∀ x y z, bytes_at (h ++ [x; y; z]) (Some (S (S (length h)))) = z) as ->.
  { intros. unfold bytes_at. rewrite lookup_app_r by lia.
    by replace (S (S (length h)) - length h)%nat with 2%nat by lia. }
  pose proof (wrap8_range (n3 + 1)). pose proof (wrap8_range (b3 - 1)).
  rewrite !bytes_Compare_IPv4 by done. rewrite sgn_pos, sgn_neg, HI.
  unfold wrap8 in *. rewrite !Z.mod_small by lia. unfold addr4.
  split.
  - intros (Hlo & Hhi & Hl). apply orb_false_iff in Hl as [Hl _].
    split; [lia|done].
  - intros ([Hlo Hhi] & Hl). split; [lia|]. split; [lia|].
    rewrite Hl. cbn [orb]. apply orb_false_iff. split.
    + destruct (IP_Equal _ [n0; _; _; _]) eqn:E; [|done].
      apply IP_Equal_IPv4_short in E. injection E as -> -> -> ->. lia.
    + destruct (IP_Equal _ [b0; _; _; _]) eqn:E; [|done].
      apply IP_Equal_IPv4_short in E. injection E as -> -> -> ->. lia.
Qed.

(** X16.  part_000 without bounds, on a subnet with a 4-byte address and
    mask (last address byte below 255, last broadcast byte above 0): every
    address t of the subnet with network + 1 < t < broadcast - 1 that equals
    none of the caller's leases is returned as soon as the random source
    delivers its four bytes, lowest byte first. *)
Theorem Part000_FindFreeIP_returns_free_address
    subnet leases h n0 n1 n2 n3 m0 m1 m2 m3 t0 t1 t2 t3 rest :
  bytes_at h (IP subnet) = [n0; n1; n2; n3] →
  bytes_at h (Mask subnet) = [m0; m1; m2; m3] →
  (0 ≤ n0 < 256 ∧ 0 ≤ n1 < 256 ∧ 0 ≤ n2 < 256 ∧ 0 ≤ n3 < 255) →
  (0 ≤ m0 < 256 ∧ 0 ≤ m1 < 256 ∧ 0 ≤ m2 < 256 ∧ 0 ≤ m3 < 256) →
  0 < Z.lor n3 (not8 m3) →
  Forall (valid h) leases →
  (0 ≤ t0 < 256 ∧ 0 ≤ t1 < 256 ∧ 0 ≤ t2 < 256 ∧ 0 ≤ t3 < 256) →
  (Z.land t0 m0, Z.land t1 m1, Z.land t2 m2, Z.land t3 m3) = (n0, n1, n2, n3) →
  addr4 n0 n1 n2 n3 + 1 < addr4 t0 t1 t2 t3
  < addr4 (Z.lor n0 (not8 m0)) (Z.lor n1 (not8 m1))
          (Z.lor n2 (not8 m2)) (Z.lor n3 (not8 m3)) - 1 →
  Lxf.leased h leases (IPv4 t0 t1 t2 t3) = false →
  fst (Part000.FindFreeIP subnet leases None None h
         ((t0 + 256 * t1 + 65536 * t2 + 16777216 * t3) :: rest))
  = Returned (IPv4 t0 t1 t2 t3).
Proof.
  intros HI HM Hn Hm Hb3 Hleases Ht Hsub Hrange Hfree.
  unfold Part000.FindFreeIP.
  rewrite (Part000_prologue_nil _ leases _ _ _ _ _ _ _ _ _ HI HM). cbn [fst].
  assert (valid h (IP subnet)) as VI.
  { apply valid_of_length. rewrite HI. simpl. lia. }
  assert (valid h (Mask subnet)) as VM.
  { apply valid_of_length. rewrite HM. simpl. lia. }
  erewrite Part000_probe_cons.
  2:{ rewrite Lxf_trial_of_app by done. by eapply Lxf_trial_of_onto. }
  by rewrite (proj2 (Part000_default_accepted subnet leases h _ _ _ _ _ _ _ _
                       _ _ _ _ HI Hn Hm Hb3 Hleases Ht) (conj Hrange Hfree)).
Qed.

(** 10.0.0.0/24 with the lease 10.0.0.5 and the bridge address 10.0.0.1:
    10.0.0.7 is returned for the draw 0x0700000a. *)
Lemma Part000_FindFreeIP_returns_free_address_witness :
  fst (Part000.FindFreeIP subnet01 leases10 None None heap10 [117440522])
  = Returned (IPv4 10 0 0 7).
Proof.
  apply (Part000_FindFreeIP_returns_free_address subnet01 leases10 heap10
           10 0 0 0 255 255 255 0 10 0 0 7 []);
    try reflexivity; try lia.
  - repeat constructor.
  - vm_compute. split; reflexivity.
Defined.
End Liveness.

(** ** networking.go with one bound missing *)
Section OneBound.
Import Go Fixtures.
Local Open Scope Z_scope.

(** X17.  networking.go with [start] given and [end] nil, on a subnet with
    a 4-byte address and mask whose broadcast address, last byte
    decremented, is not 0.0.0.0.  [end] is then a 4-byte slice, below which
    every 16-byte candidate compares: there is no upper bound.  The lease
    entry of the broadcast address is that same slice: the broadcast address
    minus one is reserved in place of the broadcast address.  A candidate is
    returned exactly when it is not below [start] and equals none of the
    caller's leases, the subnet's address and the broadcast address minus
    one. *)
Theorem Lxf_FindFreeIP_nil_end
    subnet leases s h n0 n1 n2 n3 m0 m1 m2 m3 v t :
  let b0 := Z.lor n0 (not8 m0) in
  let b1 := Z.lor n1 (not8 m1) in
  let b2 := Z.lor n2 (not8 m2) in
  let b3 := Z.lor n3 (not8 m3) in
  bytes_at h (IP subnet) = [n0; n1; n2; n3] →
  bytes_at h (Mask subnet) = [m0; m1; m2; m3] →
  (0 ≤ n0 < 256 ∧ 0 ≤ n1 < 256 ∧ 0 ≤ n2 < 256 ∧ 0 ≤ n3 < 256) →
  (0 ≤ m0 < 256 ∧ 0 ≤ m1 < 256 ∧ 0 ≤ m2 < 256 ∧ 0 ≤ m3 < 256) →
  (b0, b1, b2, wrap8 (b3 - 1)) ≠ (0, 0, 0, 0) →
  (s < length h)%nat →
  Forall (valid h) leases →
  Lxf.trial_of h subnet v = Some t →
  fst (Lxf.FindFreeIP subnet leases (Some s) None h [v]) = Returned t
  ↔ 0 ≤ bytes_Compare t (bytes_at h (Some s))
    ∧ Lxf.leased h leases t = false
    ∧ IP_Equal t [n0; n1; n2; n3] = false
    ∧ IP_Equal t [b0; b1; b2; wrap8 (b3 - 1)] = false.
Proof.
  intros b0 b1 b2 b3 HI HM (Hn0 & Hn1 & Hn2 & Hn3) (Hm0 & Hm1 & Hm2 & Hm3)
    Hne Hs Hleases Ht.
  assert (0 ≤ b0 < 256 ∧ 0 ≤ b1 < 256 ∧ 0 ≤ b2 < 256)
    as (Hb0 & Hb1 & Hb2).
  { unfold b0, b1, b2.
    repeat split; try apply byte_lor; try apply byte_not8; lia. }
  assert (valid h (IP subnet)) as VI.
  { apply valid_of_length. rewrite HI. simpl. lia. }
  assert (valid h (Mask subnet)) as VM.
  { apply valid_of_length. rewrite HM. simpl. lia. }
  assert (mapM (Lxf.broadcast_byte h subnet) [0; 1; 2; 3]%nat
          = Some [b0; b1; b2; b3]) as Ebc.
  { unfold Lxf.broadcast_byte, index. by rewrite HI, HM. }
  unfold Lxf.FindFreeIP.
  destruct (Lxf.prologue subnet leases (Some s) None h)
    as [[[[l' s'] e'] h']|] eqn:Hpro.
  2:{ exfalso. revert Hpro. unfold Lxf.prologue. rewrite Ebc.
      cbn [mbind option_bind alloc Lxf.default_start].
      unfold Lxf.default_end, index, store. rewrite bytes_at_alloc_new.
      cbn [lookup list_lookup mbind option_bind length].
      by rewrite decide_True by lia. }
  apply Lxf_prologue_start in Hpro
    as (c0 & c1 & c2 & c3 & x & Ebc' & -> & -> & -> & -> & ->).
  rewrite Ebc in Ebc'. injection Ebc' as <- <- <- <-. cbn [fst].
  rewrite <- (Lxf_trial_of_app h [[b0; b1; b2; wrap8 (b3 - 1)]]) in Ht by done.
  rewrite (Lxf_probe_cons _ _ _ _ _ _ _ _ Ht).
  destruct (Lxf_trial_of_IPv4 _ _ _ _ Ht) as (t0 & t1 & t2 & t3 & -> & _).
  assert (Lxf.accepted (h ++ [[b0; b1; b2; wrap8 (b3 - 1)]])
            (leases ++ [IP subnet; Some (length h)]) (Some s)
            (Some (length h)) (IPv4 t0 t1 t2 t3) = true
          ↔ 0 ≤ bytes_Compare (IPv4 t0 t1 t2 t3) (bytes_at h (Some s))
            ∧ Lxf.leased h leases (IPv4 t0 t1 t2 t3) = false
            ∧ IP_Equal (IPv4 t0 t1 t2 t3) [n0; n1; n2; n3] = false
            ∧ IP_Equal (IPv4 t0 t1 t2 t3) [b0; b1; b2; wrap8 (b3 - 1)] = false)
    as Hacc.
  { rewrite Lxf_accepted_spec, Lxf_leased_reserved by done.
    rewrite bytes_at_alloc by done. rewrite bytes_at_alloc_new, HI.
    pose proof (wrap8_range (b3 - 1)).
    rewrite bytes_Compare_IPv4_short by (done || lia).
    rewrite !orb_false_iff. split; [tauto|].
    intros (? & ? & ? & ?). split; [done|]. split; [lia|done]. }
  rewrite <- Hacc.
  destruct (Lxf.accepted _ _ _ _ _); simpl; split; congruence.
Qed.

(** 10.0.0.0/24 with [start] 10.0.0.10 and no [end]: the broadcast address
    10.0.0.255 is returned when it is drawn. *)
Lemma Lxf_FindFreeIP_nil_end_witness :
  fst (Lxf.FindFreeIP subnet01 [] (Some 2%nat) None heap_bounds [4278190080])
  = Returned (IPv4 10 0 0 255).
Proof.
  apply (Lxf_FindFreeIP_nil_end subnet01 [] 2%nat heap_bounds
           10 0 0 0 255 255 255 0 4278190080 (IPv4 10 0 0 255));
    try reflexivity; try (simpl; lia); done.
Defined.

(** X18.  networking.go with [start] nil, on a subnet with a 4-byte address
    a.b.c.d other than 0.0.0.255: whatever the leases, [end] and the draws,
    the call is still in its loop, and the address of the caller's subnet
    has become a.b.c.(d+1). *)
Theorem Lxf_FindFreeIP_nil_start_never_returns
    subnet leases end_ h a b c d draws :
  bytes_at h (IP subnet) = [a; b; c; d] →
  (4 ≤ length (bytes_at h (Mask subnet)))%nat →
  0 ≤ a → 0 ≤ b → 0 ≤ c →
  (a, b, c, wrap8 (d + 1)) ≠ (0, 0, 0, 0) →
  fst (Lxf.FindFreeIP subnet leases None end_ h draws) = Pending
  ∧ bytes_at (snd (Lxf.FindFreeIP subnet leases None end_ h draws)) (IP subnet)
    = [a; b; c; wrap8 (d + 1)].
Proof.
  intros HI HM Ha Hb Hc Hne.
  destruct (Lxf_FindFreeIP_nil_start_stuck subnet leases end_ h a b c d draws
              HI HM Ha Hb Hc Hne) as (h' & -> & E).
  done.
Qed.

(** 10.0.0.0/24 with [start] nil and the upper bound 10.0.0.20: still in
    the loop after two draws from the subnet. *)
Lemma Lxf_FindFreeIP_nil_start_never_returns_witness :
  fst (Lxf.FindFreeIP subnet01 [] None (Some 3%nat) heap_bounds
         [167772160; 83886080]) = Pending.
Proof.
  apply (Lxf_FindFreeIP_nil_start_never_returns subnet01 [] (Some 3%nat)
           heap_bounds 10 0 0 0); try reflexivity; try lia; try done.
  all: simpl; lia.
Defined.
End OneBound.

(** ** FindFreeIPBridgeLXD *)
Section BridgeLeases.
Import Go Api Eff.
Local Open Scope string_scope.
Local Open Scope list_scope.

Context (ParseCIDR : string → string + list Z * (list Z * list Z)).
Context (ParseIP : string → option (list Z)).
Context {σ : Type} `{!ContainerServer σ}.

Local Abbreviation FindFreeIPBridgeLXD :=
  (Lxf.FindFreeIPBridgeLXD ParseCIDR ParseIP).
Local Abbreviation FindFreeIPBridgeLXD' :=
  (Part000.FindFreeIPBridgeLXD ParseCIDR ParseIP).

(** The loop over the raw leases, as both revisions have it. *)
Local Abbreviation parse_leases :=
  (foldl (λ '(leases, h) rawIP,
            let '(ip, h) := Lxf.alloc_IP h (ParseIP (Address rawIP)) in
            (leases ++ [ip], h))).

(** X12.  The failures of [FindFreeIPBridgeLXD], in both revisions: a failed
    lookup of the bridge is returned and no lease is asked for; a bridge with
    a non-empty ipv4.dhcp.ranges is refused with the not-implemented error
    naming the bridge, and no lease is asked for; a failed lease request is
    returned; an ipv4.address that does not parse gives the error of
    [net.ParseCIDR] after both requests. *)
Theorem FindFreeIPBridgeLXD_failures bridge draws s log :
  (∀ err s1,
     GetNetwork bridge s = (inl err, s1) →
     FindFreeIPBridgeLXD bridge draws (s, log)
     = (Some (inl err), (s1, log ++ [CallGetNetwork bridge]))
     ∧ FindFreeIPBridgeLXD' bridge draws (s, log)
       = (Some (inl err), (s1, log ++ [CallGetNetwork bridge])))
  ∧ (∀ network ETag s1,
       GetNetwork bridge s = (inr (network, ETag), s1) →
       Lxf.config_get (Config (net_NetworkPut network)) "ipv4.dhcp.ranges" ≠ "" →
       FindFreeIPBridgeLXD bridge draws (s, log)
       = (Some (inl ("Not yet implemented to find an IP with explicitly set ip ranges `ipv4.dhcp.ranges` in bridge " +:+ bridge)),
          (s1, log ++ [CallGetNetwork bridge]))
       ∧ FindFreeIPBridgeLXD' bridge draws (s, log)
         = (Some (inl ("not yet implemented to find an IP with explicitly set ip ranges `ipv4.dhcp.ranges` in bridge " +:+ bridge)),
            (s1, log ++ [CallGetNetwork bridge])))
  ∧ (∀ network ETag s1 err s2,
       GetNetwork bridge s = (inr (network, ETag), s1) →
       Lxf.config_get (Config (net_NetworkPut network)) "ipv4.dhcp.ranges" = "" →
       GetNetworkLeases bridge s1 = (inl err, s2) →
       FindFreeIPBridgeLXD bridge draws (s, log)
       = (Some (inl err),
          (s2, log ++ [CallGetNetwork bridge; CallGetNetworkLeases bridge]))
       ∧ FindFreeIPBridgeLXD' bridge draws (s, log)
         = (Some (inl err),
            (s2, log ++ [CallGetNetwork bridge; CallGetNetworkLeases bridge])))
  ∧ (∀ network ETag s1 rawLeases err s2,
       GetNetwork bridge s = (inr (network, ETag), s1) →
       Lxf.config_get (Config (net_NetworkPut network)) "ipv4.dhcp.ranges" = "" →
       GetNetworkLeases bridge s1 = (inr rawLeases, s2) →
       ParseCIDR (Lxf.config_get (Config (net_NetworkPut network)) "ipv4.address")
       = inl err →
       FindFreeIPBridgeLXD bridge draws (s, log)
       = (Some (inl err),
          (s2, log ++ [CallGetNetwork bridge; CallGetNetworkLeases bridge]))
       ∧ FindFreeIPBridgeLXD' bridge draws (s, log)
         = (Some (inl err),
            (s2, log ++ [CallGetNetwork bridge; CallGetNetworkLeases bridge]))).
Proof.
  unfold Lxf.FindFreeIPBridgeLXD, Part000.FindFreeIPBridgeLXD.
  unfold mbind, M_bind, logged.
  split; [|split; [|split]].
  - intros err s1 HG. by rewrite HG.
  - intros network ETag s1 HG Hr. rewrite HG.
    by rewrite !decide_True by done.
  - intros network ETag s1 err s2 HG Hr HL. rewrite HG.
    rewrite !decide_False by (intros Hne; by apply Hne).
    rewrite HL. by rewrite <- !app_assoc.
  - intros network ETag s1 rawLeases err s2 HG Hr HL HP. rewrite HG.
    rewrite !decide_False by (intros Hne; by apply Hne).
    rewrite HL.
    destruct (parse_leases _ rawLeases) as [ls hl].
    rewrite HP. by rewrite <- !app_assoc.
Qed.

(** X13.  [FindFreeIPBridgeLXD] only reads: whatever the server, the bridge
    and the draws, both revisions send the lookup of the bridge, followed or
    not by one lease request for it, and nothing else. *)
Theorem FindFreeIPBridgeLXD_requests bridge draws (s : σ) :
  (snd (snd (FindFreeIPBridgeLXD bridge draws (s, []))) = [CallGetNetwork bridge]
   ∨ snd (snd (FindFreeIPBridgeLXD bridge draws (s, [])))
     = [CallGetNetwork bridge; CallGetNetworkLeases bridge])
  ∧ (snd (snd (FindFreeIPBridgeLXD' bridge draws (s, []))) = [CallGetNetwork bridge]
     ∨ snd (snd (FindFreeIPBridgeLXD' bridge draws (s, [])))
       = [CallGetNetwork bridge; CallGetNetworkLeases bridge]).
Proof.
  unfold Lxf.FindFreeIPBridgeLXD, Part000.FindFreeIPBridgeLXD.
  unfold mbind, M_bind, logged.
  destruct (GetNetwork bridge s) as [[err|[network ETag]] s1]; [by auto|].
  destruct (decide (Lxf.config_get _ _ ≠ "")); [by auto|].
  destruct (GetNetworkLeases bridge s1) as [[err|rawLeases] s2]; [by auto|].
  destruct (parse_leases _ rawLeases) as [ls hl].
  destruct (ParseCIDR _) as [err|[bridgeIP [ip mask]]]; [by auto|].
  cbn [alloc].
  split.
  - destruct (fst (Lxf.FindFreeIP _ _ _ _ _ _)); by auto.
  - destruct (fst (Part000.FindFreeIP _ _ _ _ _ _)); by auto.
Qed.
End BridgeLeases.

Section BridgeLeasesSound.
Import Go Api Eff.
Local Open Scope string_scope.
Local Open Scope list_scope.

Context (ParseCIDR : string → string + list Z * (list Z * list Z)).
Context (ParseIP : string → option (list Z)).
Context {σ : Type} `{!ContainerServer σ}.

Local Abbreviation parse_leases :=
  (foldl (λ '(leases, h) rawIP,
            let '(ip, h) := Lxf.alloc_IP h (ParseIP (Address rawIP)) in
            (leases ++ [ip], h))).

Lemma valid_app h k p : valid h p → valid (h ++ k) p.
Proof. destruct p as [l|]; [|done]. simpl. rewrite length_app. lia. Qed.

Lemma bytes_at_app h k p : valid h p → bytes_at (h ++ k) p = bytes_at h p.
Proof.
  destruct p as [l|]; [|done]. intros Hl. unfold bytes_at.
  by rewrite lookup_app_l.
Qed.

Lemma bytes_at_app_head h x k : bytes_at (h ++ x :: k) (Some (length h)) = x.
Proof.
  unfold bytes_at. rewrite lookup_app_r by lia. by rewrite Nat.sub_diag.
Qed.

(** The leases parsed so far stay slices of the store, and every raw lease
    that parses has its bytes among them. *)
Lemma parse_leases_spec raw acc_l acc_h leases h :
  Forall (valid acc_h) acc_l →
  parse_leases (acc_l, acc_h) raw = (leases, h) →
  (∃ more, leases = acc_l ++ more)
  ∧ (∃ k, h = acc_h ++ k)
  ∧ Forall (valid h) leases
  ∧ ∀ r bs, r ∈ raw → ParseIP (Address r) = Some bs →
            ∃ p, p ∈ leases ∧ bytes_at h p = bs.
Proof.
  revert acc_l acc_h. induction raw as [|r0 raw IH]; intros acc_l acc_h Hv.
  - simpl. intros [= <- <-]. split; [exists []; by rewrite app_nil_r|].
    split; [exists []; by rewrite app_nil_r|]. split; [done|].
    intros r bs Hr. by apply elem_of_nil in Hr.
  - cbn [foldl]. destruct (ParseIP (Address r0)) as [bs0|] eqn:E0.
    + cbn [Lxf.alloc_IP alloc]. intros Hfold.
      apply IH in Hfold as ([more ->] & [k ->] & Hvalid & Hall).
      2:{ apply Forall_app. split.
          - eapply Forall_impl; [exact Hv|]. intros p. apply valid_app.
          - repeat constructor. simpl. rewrite length_app. simpl. lia. }
      split; [exists ([Some (length acc_h)] ++ more); by rewrite app_assoc|].
      split; [exists ([bs0] ++ k); by rewrite app_assoc|].
      split; [done|].
      intros r bs [->|Hr]%elem_of_cons Hbs; [|by eapply Hall].
      rewrite E0 in Hbs. injection Hbs as <-.
      exists (Some (length acc_h)). split.
      * apply elem_of_app. left. apply elem_of_app. right. by left.
      * rewrite bytes_at_app by (simpl; rewrite length_app; simpl; lia).
        apply bytes_at_alloc_new.
    + cbn [Lxf.alloc_IP]. intros Hfold.
      apply IH in Hfold as ([more ->] & [k ->] & Hvalid & Hall).
      2:{ apply Forall_app. split; [done|]. by repeat constructor. }
      split; [exists ([None] ++ more); by rewrite app_assoc|].
      split; [by exists k|]. split; [done|].
      intros r bs [->|Hr]%elem_of_cons Hbs; [|by eapply Hall].
      by rewrite E0 in Hbs.
Qed.

(** X20.  [FindFreeIPBridgeLXD] of part_000 on a bridge without
    ipv4.dhcp.ranges whose ipv4.address parses: an address it returns
    [Equal]s neither the bridge's own address, nor any lease whose text
    parses, nor the network address, nor the broadcast address of the
    bridge's subnet; the server has only been read. *)
Theorem Part000_FindFreeIPBridgeLXD_sound
    bridge network ETag rawLeases bridgeIP ip mask s s1 s2 log draws a w' :
  GetNetwork bridge s = (inr (network, ETag), s1) →
  Lxf.config_get (Config (net_NetworkPut network)) "ipv4.dhcp.ranges" = "" →
  GetNetworkLeases bridge s1 = (inr rawLeases, s2) →
  ParseCIDR (Lxf.config_get (Config (net_NetworkPut network)) "ipv4.address")
  = inr (bridgeIP, (ip, mask)) →
  Part000.FindFreeIPBridgeLXD ParseCIDR ParseIP bridge draws (s, log)
  = (Some (inr (Returned a)), w') →
  IP_Equal a bridgeIP = false
  ∧ (∀ r bs, r ∈ rawLeases → ParseIP (Address r) = Some bs →
             IP_Equal a bs = false)
  ∧ IP_Equal a ip = false
  ∧ (∃ bc, mapM (λ i, n ← ip !! i; m ← mask !! i; Some (Z.lor n (not8 m)))
             [0; 1; 2; 3]%nat = Some bc
           ∧ IP_Equal a bc = false)
  ∧ w' = (s2, log ++ [CallGetNetwork bridge; CallGetNetworkLeases bridge]).
Proof.
  intros HG Hr HL HP. unfold Part000.FindFreeIPBridgeLXD.
  unfold mbind, M_bind, logged. rewrite HG.
  rewrite decide_False by (intros Hne; by apply Hne). rewrite HL.
  destruct (parse_leases _ rawLeases) as [ls hl] eqn:Efold.
  apply parse_leases_spec in Efold as (_ & _ & Hvalid & Hall); [|done].
  rewrite HP. cbn [alloc].
  set (H0 := ((hl ++ [bridgeIP]) ++ [ip]) ++ [mask]).
  set (subnet := {| IP := Some (length (hl ++ [bridgeIP]));
                    Mask := Some (length ((hl ++ [bridgeIP]) ++ [ip])) |}).
  set (leases := ls ++ [Some (length hl)]).
  destruct (fst (Part000.FindFreeIP subnet leases None None H0 draws))
    as [a'| |] eqn:Hret; [|done..].
  unfold mret, M_ret. intros [= -> <-].
  assert (bytes_at H0 (Some (length hl)) = bridgeIP) as EB.
  { unfold H0. rewrite <- !app_assoc. apply bytes_at_app_head. }
  assert (bytes_at H0 (IP subnet) = ip) as EI.
  { unfold H0, subnet. cbn [IP]. rewrite bytes_at_alloc.
    - apply bytes_at_alloc_new.
    - rewrite !length_app. simpl. lia. }
  assert (bytes_at H0 (Mask subnet) = mask) as EM.
  { unfold H0, subnet. cbn [Mask]. apply bytes_at_alloc_new. }
  assert (Forall (valid H0) leases) as Hvalid0.
  { apply Forall_app. split.
    - eapply Forall_impl; [exact Hvalid|]. intros p Hp. unfold H0.
      rewrite <- !app_assoc. by apply valid_app.
    - repeat constructor. unfold H0. simpl. rewrite !length_app. simpl. lia. }
  assert (valid H0 (IP subnet)) as VI.
  { unfold H0, subnet. simpl. rewrite !length_app. simpl. lia. }
  unfold Part000.FindFreeIP in Hret.
  destruct (Part000.prologue _ _ _ _ _) as [[[[l' s'] e'] h']|] eqn:Hpro;
    [|done].
  apply Part000_prologue_Some in Hpro as (bc & k & Ebc & -> & -> & _).
  apply Part000_probe_Returned in Hret as (v & _ & _ & Ha).
  apply Part000_accepted_spec in Ha as (_ & _ & Ha).
  rewrite Lxf_leased_reserved in Ha by done.
  apply orb_false_iff in Ha as [H1 H2].
  apply orb_false_iff in H2 as [H2 H3].
  unfold leases in H1. rewrite Lxf_leased_snoc in H1.
  apply orb_false_iff in H1 as [H1 H4].
  unfold Lxf.leased in H4. cbn [existsb] in H4.
  rewrite orb_false_r, EB in H4. rewrite EI in H2.
  split; [done|]. split; [|split; [done|split]].
  - intros r bs Hin Hbs.
    destruct (Hall r bs Hin Hbs) as (p & Hp & <-).
    apply Lxf_leased_false in H1.
    rewrite Forall_forall in H1. specialize (H1 p Hp).
    rewrite <- H1. f_equal. unfold H0. rewrite <- !app_assoc.
    symmetry. apply bytes_at_app.
    rewrite Forall_forall in Hvalid. by apply Hvalid.
  - exists bc. split; [|done]. rewrite <- Ebc.
    unfold Lxf.broadcast_byte, index. by rewrite EI, EM.
  - by rewrite <- app_assoc.
Qed.
End BridgeLeasesSound.

Section BridgeLeasesStuck.
Import Go Api Eff.
Local Open Scope string_scope.
Local Open Scope list_scope.

Context (ParseCIDR : string → string + list Z * (list Z * list Z)).
Context (ParseIP : string → option (list Z)).
Context {σ : Type} `{!ContainerServer σ}.

(** X21.  [FindFreeIPBridgeLXD] of networking.go on a bridge whose
    ipv4.address parses to a subnet with a 4-byte address a.b.c.d other than
    0.0.0.255 and a mask of at least four bytes: whatever the leases and the
    draws, no address is returned; the call fails or is still in the loop of
    [FindFreeIP]. *)
Theorem Lxf_FindFreeIPBridgeLXD_never_returns
    bridge network ETag bridgeIP a b c d mask s s1 log draws x :
  GetNetwork bridge s = (inr (network, ETag), s1) →
  ParseCIDR (Lxf.config_get (Config (net_NetworkPut network)) "ipv4.address")
  = inr (bridgeIP, ([a; b; c; d], mask)) →
  (4 ≤ length mask)%nat →
  (0 ≤ a)%Z → (0 ≤ b)%Z → (0 ≤ c)%Z →
  (a, b, c, wrap8 (d + 1)) ≠ (0, 0, 0, 0)%Z →
  fst (Lxf.FindFreeIPBridgeLXD ParseCIDR ParseIP bridge draws (s, log))
  ≠ Some (inr (Returned x)).
Proof.
  intros HG HP Hmask Ha Hb Hc Hne. unfold Lxf.FindFreeIPBridgeLXD.
  unfold mbind, M_bind, logged. rewrite HG.
  destruct (decide (Lxf.config_get _ _ ≠ "")); [done|].
  destruct (GetNetworkLeases bridge s1) as [[err|rawLeases] s2]; [done|].
  destruct (foldl _ _ rawLeases) as [ls hl].
  rewrite HP. cbn [alloc].
  set (H0 := ((hl ++ [bridgeIP]) ++ [[a; b; c; d]]) ++ [mask]).
  set (subnet := {| IP := Some (length (hl ++ [bridgeIP]));
                    Mask := Some (length ((hl ++ [bridgeIP]) ++ [[a; b; c; d]])) |}).
  destruct (Lxf_FindFreeIP_nil_start_stuck subnet (ls ++ [Some (length hl)])
              None H0 a b c d draws) as (h' & -> & _); try done.
  - unfold H0, subnet. cbn [IP]. rewrite bytes_at_alloc.
    + apply bytes_at_alloc_new.
    + rewrite !length_app. simpl. lia.
  - unfold H0, subnet. cbn [Mask]. by rewrite bytes_at_alloc_new.
Qed.
End BridgeLeasesStuck.

(** ** What FindFreeIP leaves of its arguments *)
Section FrameMore.
Import Go Fixtures.
Local Open Scope Z_scope.

(** [append] on the elements, and on the array behind them. *)
Lemma append_elements {A} (arr : list A) len xs :
  fst (append arr len xs) = take len arr ++ xs.
Proof. unfold append. by case_decide. Qed.

Lemma append_full {A} (arr : list A) len xs :
  (length arr < len + length xs)%nat → snd (append arr len xs) = arr.
Proof. intros Hc. unfold append. case_decide; [lia|done]. Qed.

Lemma append_length {A} (arr : list A) len xs :
  length (snd (append arr len xs)) = length arr.
Proof.
  unfold append. case_decide; [|done]. cbn [snd].
  rewrite !length_app, length_take, length_drop. lia.
Qed.

Lemma append_lookup_kept {A} (arr : list A) len xs i :
  (i < len ∨ len + length xs ≤ i)%nat →
  snd (append arr len xs) !! i = arr !! i.
Proof.
  intros Hi. unfold append. case_decide as Hc; [|done]. cbn [snd].
  destruct Hi as [Hi|Hi].
  - rewrite lookup_app_l by (rewrite length_take; lia).
    by rewrite lookup_take_lt.
  - rewrite !app_assoc, lookup_app_r
      by (rewrite length_app, length_take; lia).
    rewrite lookup_drop, length_app, length_take. f_equal. lia.
Qed.

Lemma append_lookup_written {A} (arr : list A) len xs i :
  (len + length xs ≤ length arr)%nat →
  (i < length xs)%nat →
  snd (append arr len xs) !! (len + i)%nat = xs !! i.
Proof.
  intros Hc Hi. unfold append. rewrite decide_True by done. cbn [snd].
  rewrite lookup_app_r by (rewrite length_take; lia).
  rewrite length_take, lookup_app_l by lia. f_equal. lia.
Qed.

(** Outcome and store of the call on a slice are those of the call on its
    elements; the array behind the slice is appended to once the loop of
    the broadcast address is through. *)
Lemma Lxf_FindFreeIP_slice_elements subnet arr len start end_ h draws :
  fst (Lxf.FindFreeIP_slice subnet arr len start end_ h draws)
  = Lxf.FindFreeIP subnet (take len arr) start end_ h draws.
Proof.
  unfold Lxf.FindFreeIP_slice, Lxf.FindFreeIP, Lxf.prologue_slice,
    Lxf.prologue.
  destruct (mapM _ _) as [bc|]; [|done]. cbn [mbind option_bind alloc].
  destruct (append _ _ _) as [leases arr'] eqn:Ea.
  apply (f_equal fst) in Ea. rewrite append_elements in Ea. cbn [fst] in Ea.
  subst leases.
  destruct (Lxf.default_start _ _ _) as [[s2 h2]|]; [|done].
  cbn [mbind option_bind].
  by destruct (Lxf.default_end _ _ _) as [[e3 h3]|].
Qed.

Lemma Part000_FindFreeIP_slice_elements subnet arr len start end_ h draws :
  fst (Part000.FindFreeIP_slice subnet arr len start end_ h draws)
  = Part000.FindFreeIP subnet (take len arr) start end_ h draws.
Proof.
  unfold Part000.FindFreeIP_slice, Part000.FindFreeIP,
    Part000.prologue_slice, Part000.prologue.
  destruct (mapM _ _) as [bc|]; [|done]. cbn [mbind option_bind alloc].
  destruct (append _ _ _) as [leases arr'] eqn:Ea.
  apply (f_equal fst) in Ea. rewrite append_elements in Ea. cbn [fst] in Ea.
  subst leases.
  destruct (Part000.default_start _ _ _) as [[s2 h2]|]; [|done].
  cbn [mbind option_bind].
  by destruct (Part000.default_end _ _ _) as [[e3 h3]|].
Qed.

Lemma Lxf_FindFreeIP_slice_array subnet arr len start end_ h draws :
  snd (Lxf.FindFreeIP_slice subnet arr len start end_ h draws)
  = match mapM (Lxf.broadcast_byte h subnet) [0; 1; 2; 3]%nat with
    | Some _ => snd (append arr len [IP subnet; Some (length h)])
    | None => arr
    end
  ∧ (fst (fst (Lxf.FindFreeIP_slice subnet arr len start end_ h draws))
     ≠ Panicked →
     is_Some (mapM (Lxf.broadcast_byte h subnet) [0; 1; 2; 3]%nat)).
Proof.
  unfold Lxf.FindFreeIP_slice, Lxf.prologue_slice.
  destruct (mapM _ _) as [bc|]; [|done]. cbn [alloc].
  destruct (append _ _ _) as [leases arr'].
  split; [|by eauto].
  by destruct (_ ≫= _) as [[[[? ?] ?] ?]|].
Qed.

Lemma Part000_FindFreeIP_slice_array subnet arr len start end_ h draws :
  snd (Part000.FindFreeIP_slice subnet arr len start end_ h draws)
  = match mapM (Lxf.broadcast_byte h subnet) [0; 1; 2; 3]%nat with
    | Some _ => snd (append arr len [IP subnet; Some (length h)])
    | None => arr
    end
  ∧ (fst (fst (Part000.FindFreeIP_slice subnet arr len start end_ h draws))
     ≠ Panicked →
     is_Some (mapM (Lxf.broadcast_byte h subnet) [0; 1; 2; 3]%nat)).
Proof.
  unfold Part000.FindFreeIP_slice, Part000.prologue_slice.
  destruct (mapM _ _) as [bc|]; [|done]. cbn [alloc].
  destruct (append _ _ _) as [leases arr'].
  split; [|by eauto].
  by destruct (_ ≫= _) as [[[[? ?] ?] ?]|].
Qed.

(** X19.  [leases] is a slice of [len] elements over an array [arr] of
    capacity [length arr].
    - [FindFreeIP] of part_000, whatever its arguments, and [FindFreeIP] of
      networking.go when [start] is given, write no byte array the caller
      had: the subnet's address and mask, the addresses of the leases and
      the bounds stay as they were.
    - In both revisions, whatever the arguments, the array behind [leases]
      keeps its length and its elements below [len] and from [len + 2] on;
      without capacity for two more elements it is not written at all.
    - With that capacity, and unless the call panics, the elements [len]
      and [len + 1] of the caller's array are overwritten, with [subnet.IP]
      and with the slice of the broadcast address. *)
Theorem FindFreeIP_frame subnet arr len start end_ s h draws :
  (len ≤ length arr)%nat →
  let p := Part000.FindFreeIP_slice subnet arr len start end_ h draws in
  let x := Lxf.FindFreeIP_slice subnet arr len (Some s) end_ h draws in
  let y := Lxf.FindFreeIP_slice subnet arr len start end_ h draws in
  (∀ l, (l < length h)%nat →
        snd (fst p) !! l = h !! l ∧ snd (fst x) !! l = h !! l)
  ∧ ∀ r, r = p ∨ r = y →
      length (snd r) = length arr
      ∧ take len (snd r) = take len arr
      ∧ (∀ i, (i < len ∨ len + 2 ≤ i)%nat → snd r !! i = arr !! i)
      ∧ ((length arr < len + 2)%nat → snd r = arr)
      ∧ ((len + 2 ≤ length arr)%nat →
         fst (fst r) ≠ Panicked →
         snd r !! len = Some (IP subnet)
         ∧ snd r !! S len = Some (Some (length h))).
Proof.
  intros Hlen p x y. split.
  - intros l Hl. unfold p, x.
    rewrite Part000_FindFreeIP_slice_elements, Lxf_FindFreeIP_slice_elements.
    split.
    + by apply Part000_FindFreeIP_frame.
    + by apply Lxf_FindFreeIP_frame_start.
  - intros r Hr.
    assert (snd r
            = match mapM (Lxf.broadcast_byte h subnet) [0; 1; 2; 3]%nat with
              | Some _ => snd (append arr len [IP subnet; Some (length h)])
              | None => arr
              end
            ∧ (fst (fst r) ≠ Panicked →
               is_Some (mapM (Lxf.broadcast_byte h subnet) [0; 1; 2; 3]%nat)))
      as [Earr Hok].
    { destruct Hr as [-> | ->].
      - apply Part000_FindFreeIP_slice_array.
      - apply Lxf_FindFreeIP_slice_array. }
    assert (∀ i, (i < len ∨ len + 2 ≤ i)%nat → snd r !! i = arr !! i) as Hkept.
    { intros i Hi. rewrite Earr. destruct (mapM _ _); [|done].
      by apply append_lookup_kept. }
    split; [|split; [|split; [|split]]].
    + rewrite Earr. destruct (mapM _ _); [|done]. apply append_length.
    + apply list_eq. intros i. destruct (decide (i < len)%nat) as [Hi|Hi].
      * rewrite !lookup_take_lt by done. apply Hkept. by left.
      * by rewrite !lookup_take_ge by lia.
    + exact Hkept.
    + intros Hc. rewrite Earr. destruct (mapM _ _); [|done].
      by apply append_full.
    + intros Hc [bc Ebc]%Hok. rewrite Earr, Ebc. split.
      * by rewrite <- (Nat.add_0_r len) at 1; rewrite append_lookup_written
          by (simpl; lia).
      * replace (S len) with (len + 1)%nat by lia.
        by rewrite append_lookup_written by (simpl; lia).
Qed.

(** 10.0.0.0/24 with two leases in an array of capacity four: the call of
    part_000 returns 10.0.0.7 and leaves the slice of [subnet.IP] in the
    third element of the caller's array. *)
Lemma FindFreeIP_frame_witness :
  snd (Part000.FindFreeIP_slice subnet01 (leases10 ++ [None; None]) 2
         None None heap10 [117440522]) !! 2%nat
  = Some (Some 0%nat).
Proof.
  refine (proj1 (proj2 (proj2 (proj2 (proj2
    (proj2 (FindFreeIP_frame subnet01 (leases10 ++ [None; None]) 2%nat
              None None 0%nat heap10 [117440522] _) _ (or_introl eq_refl)))))
    _ _)).
  - simpl. lia.
  - simpl. lia.
  - vm_compute. discriminate.
Defined.
End FrameMore.

(** ** The further properties on concrete collaborators *)
Section MoreWitnesses.
Import Go Api Eff Fixtures.
Local Open Scope string_scope.
Local Open Scope list_scope.

(** "eth0" is a physical interface: the mismatch is reported, nothing is
    written. *)
Lemma EnsureBridge_type_mismatch_witness :
  Lxf.EnsureBridge no_ParseCIDR no_String "not found"
    "eth0" "" true false (server_mixed, [])
  = (Some (Some "Expected eth0 to be a bridge, but is physical"),
     (server_mixed, [CallGetNetwork "eth0"])).
Proof.
  apply (proj1 (@EnsureBridge_type_mismatch no_ParseCIDR no_String "not found"
                  _ mem_server "eth0" "" true false "auto" _ "etag-3"
                  server_mixed server_mixed [] ltac:(reflexivity)
                  ltac:(reflexivity) ltac:(done))).
Defined.

(** A server that cannot be reached: its error is the result. *)
Lemma EnsureBridge_lookup_error_witness :
  @Lxf.EnsureBridge no_ParseCIDR no_String "not found" unit down_server
    "br0" "" true false (tt, [])
  = (Some (Some "connection refused"), (tt, [CallGetNetwork "br0"])).
Proof.
  apply (proj1 (@EnsureBridge_lookup_error no_ParseCIDR no_String "not found"
                  unit down_server "br0" "" true false "auto"
                  "connection refused" tt tt [] ltac:(reflexivity)
                  ltac:(reflexivity) ltac:(done))).
Defined.

(** A [cidr] that does not parse: no request. *)
Lemma EnsureBridge_invalid_cidr_witness :
  Lxf.EnsureBridge no_ParseCIDR no_String "not found"
    "br0" "10.0.0.0" true false (server_br0, [])
  = (Some (Some "invalid CIDR address"), (server_br0, [])).
Proof.
  apply (proj1 (@EnsureBridge_invalid_cidr no_ParseCIDR no_String "not found"
                  _ mem_server "br0" "10.0.0.0" true false
                  "invalid CIDR address" (server_br0, [])
                  ltac:(done) ltac:(reflexivity))).
Defined.

(** "br1" does not exist: it is created with the address 10.0.0.1/24 even
    though [createOnly] is set. *)
Lemma EnsureBridge_creates_any_witness :
  snd (snd (Lxf.EnsureBridge table_ParseCIDR table_String "not found"
              "br1" "10.0.0.1/24" false true (server_br0, [])))
  = [ CallGetNetwork "br1";
      CallCreateNetwork
        {| post_NetworkPut :=
             {| Description := "managed by LXE, default bridge";
                Config := Some (Lxf.put_Config "10.0.0.1/24") |};
           post_Managed := true; post_Name := "br1"; post_Type := "bridge" |} ].
Proof.
  destruct (CreateNetwork
              {| post_NetworkPut :=
                   {| Description := "managed by LXE, default bridge";
                      Config := Some (Lxf.put_Config "10.0.0.1/24") |};
                 post_Managed := true; post_Name := "br1";
                 post_Type := "bridge" |} server_br0) as [e s2] eqn:HC.
  assert (Lxf.bridge_address table_ParseCIDR table_String "10.0.0.1/24"
          = Some (inr "10.0.0.1/24")) as Ha by reflexivity.
  assert (GetNetwork "br1" server_br0 = (inl "not found", server_br0))
    as HG by reflexivity.
  rewrite (proj1 (@EnsureBridge_creates_any table_ParseCIDR table_String
                    "not found" _ mem_server "br1" "10.0.0.1/24" false true
                    "10.0.0.1/24" server_br0 server_br0 s2 e [] Ha HG HC)).
  reflexivity.
Defined.

(** "nilbr" is a bridge whose configuration map is nil: the call panics
    after the lookup. *)
Lemma EnsureBridge_nil_Config_panics_witness :
  Lxf.EnsureBridge no_ParseCIDR no_String "not found"
    "nilbr" "" true false (server_mixed, [])
  = (None, (server_mixed, [CallGetNetwork "nilbr"])).
Proof.
  apply (proj1 (@EnsureBridge_nil_Config_panics no_ParseCIDR no_String
                  "not found" _ mem_server "nilbr" "" true "auto" _ "etag-4"
                  server_mixed server_mixed [] ltac:(reflexivity)
                  ltac:(reflexivity) ltac:(reflexivity) ltac:(reflexivity))).
Defined.

(** The container "web" gets its interface; the sandbox is persisted with
    the result beside the key it had. *)
Lemma AttachCNI_persists_result_witness :
  Lxf.AttachCNI {| ID := "web" |} (([] : list NetworkSandbox), [])
  = (Some None,
     ([ {| ns_Metadata := {| Namespace := "default"; Name := "nginx" |};
           ModeData := Some (<["result" := "cni-result"]>
                               {[ "mode" := "cni" ]}) |} ],
      [ CallAttachSandbox {| ID := "web" |};
        CallAttachState {| ID := "web" |};
        CallAttachCNIInterface "default" "nginx" "web" 4242;
        CallApply
          {| ns_Metadata := {| Namespace := "default"; Name := "nginx" |};
             ModeData := Some (<["result" := "cni-result"]>
                                 {[ "mode" := "cni" ]}) |} ])).
Proof.
  apply (proj1 (@AttachCNI_persists_result _ attach_runtime {| ID := "web" |}
                  {| ns_Metadata := {| Namespace := "default"; Name := "nginx" |};
                     ModeData := Some {[ "mode" := "cni" ]} |}
                  {[ "mode" := "cni" ]} {| Pid := 4242 |} "cni-result"
                  [] [] [] [] _ None []
                  ltac:(reflexivity) ltac:(reflexivity) ltac:(reflexivity)
                  ltac:(reflexivity) ltac:(reflexivity))).
Defined.

(** The container "nomap" has a sandbox without mode data: attached, then
    the panic. *)
Lemma AttachCNI_nil_ModeData_panics_witness :
  Lxf.AttachCNI {| ID := "nomap" |} (([] : list NetworkSandbox), [])
  = (None,
     ([], [ CallAttachSandbox {| ID := "nomap" |};
            CallAttachState {| ID := "nomap" |};
            CallAttachCNIInterface "default" "nginx" "nomap" 4242 ])).
Proof.
  apply (@AttachCNI_nil_ModeData_panics _ attach_runtime {| ID := "nomap" |}
           {| ns_Metadata := {| Namespace := "default"; Name := "nginx" |};
              ModeData := None |}
           {| Pid := 4242 |} "cni-result" [] [] [] [] []
           ltac:(reflexivity) ltac:(reflexivity) ltac:(reflexivity)
           ltac:(reflexivity)).
Defined.
End MoreWitnesses.

Section AllocatorWitnesses.
Import Go Api Eff Fixtures.
Local Open Scope Z_scope.

(** 10.0.0.0/24, leases 10.0.0.5 and 10.0.0.1: the address part_000 returns
    for the draw 0x0700000a lies in the subnet. *)
Lemma FindFreeIP_returns_subnet_address_witness :
  ∃ t0 t1 t2 t3,
    IPv4 10 0 0 7 = IPv4 t0 t1 t2 t3
    ∧ (Z.land t0 255, Z.land t1 255, Z.land t2 255, Z.land t3 0)
      = (10, 0, 0, 0).
Proof.
  apply (FindFreeIP_returns_subnet_address subnet01 leases10 None None 0%nat
           heap10 10 0 0 0 255 255 255 0 [117440522] (IPv4 10 0 0 7));
    try reflexivity; try lia; try done.
  by left.
Defined.

(** The same call: the address equals no lease, nor the network address,
    nor the broadcast address. *)
Lemma FindFreeIP_never_returns_reserved_witness :
  Forall (λ lease, IP_Equal (IPv4 10 0 0 7) (bytes_at heap10 lease) = false)
    leases10
  ∧ IP_Equal (IPv4 10 0 0 7) (bytes_at heap10 (IP subnet01)) = false
  ∧ IP_Equal (IPv4 10 0 0 7) [10; 0; 0; 255] = false.
Proof.
  apply (FindFreeIP_never_returns_reserved subnet01 leases10 None None
           0%nat 0%nat heap10 [10; 0; 0; 255] [117440522] (IPv4 10 0 0 7)).
  - reflexivity.
  - repeat constructor.
  - by left.
Defined.

(** The bridge of [lease_server], 10.0.0.1/24 with the lease 10.0.0.5 and a
    lease without address: part_000 returns 10.0.0.7, which is none of the
    reserved addresses. *)
Lemma Part000_FindFreeIPBridgeLXD_sound_witness :
  IP_Equal (IPv4 10 0 0 7) (IPv4 10 0 0 1) = false
  ∧ (∀ r bs, r ∈ [ {| Address := "10.0.0.5" |}; {| Address := "pending" |} ] →
             table_ParseIP (Address r) = Some bs →
             IP_Equal (IPv4 10 0 0 7) bs = false)
  ∧ IP_Equal (IPv4 10 0 0 7) [10; 0; 0; 0] = false
  ∧ (∃ bc, mapM (λ i, n ← [10; 0; 0; 0] !! i;
                     m ← [255; 255; 255; 0] !! i;
                     Some (Z.lor n (not8 m))) [0; 1; 2; 3]%nat = Some bc
           ∧ IP_Equal (IPv4 10 0 0 7) bc = false)
  ∧ (tt, [CallGetNetwork "lxdbr0"; CallGetNetworkLeases "lxdbr0"])
    = (tt, [] ++ [CallGetNetwork "lxdbr0"; CallGetNetworkLeases "lxdbr0"]).
Proof.
  eapply (@Part000_FindFreeIPBridgeLXD_sound table_ParseCIDR table_ParseIP
            unit lease_server "lxdbr0" _ "etag-1" _ _ _ _ tt tt tt []
            [117440522]); reflexivity.
Defined.

(** The same bridge through networking.go: no address after three draws. *)
Lemma Lxf_FindFreeIPBridgeLXD_never_returns_witness :
  fst (@Lxf.FindFreeIPBridgeLXD table_ParseCIDR unit lease_server
         table_ParseIP "lxdbr0" [117440522; 0; 4294967295] (tt, []))
  ≠ Some (inr (Returned (IPv4 10 0 0 7))).
Proof.
  eapply (@Lxf_FindFreeIPBridgeLXD_never_returns table_ParseCIDR
            table_ParseIP unit lease_server "lxdbr0" _ "etag-1"
            (IPv4 10 0 0 1) 10 0 0 0 [255; 255; 255; 0] tt tt []);
    try reflexivity; try lia; try done.
Defined.
End AllocatorWitnesses.

(** ** Short subnets and nil leases *)
Section Edges.
Import Go.
Local Open Scope Z_scope.

(** X22.  A subnet whose address or mask has fewer than four bytes, a nil
    one included: both revisions of [FindFreeIP] panic on the index while
    they compute the broadcast address, before anything is written or
    drawn. *)
Theorem FindFreeIP_short_subnet_panics subnet leases start end_ h draws :
  (length (bytes_at h (IP subnet)) < 4
   ∨ length (bytes_at h (Mask subnet)) < 4)%nat →
  Lxf.FindFreeIP subnet leases start end_ h draws = (Panicked, h)
  ∧ Part000.FindFreeIP subnet leases start end_ h draws = (Panicked, h).
Proof.
  intros Hshort.
  assert (mapM (Lxf.broadcast_byte h subnet) [0; 1; 2; 3]%nat = None) as E.
  { destruct (mapM _ _) as [bc|] eqn:Ebc; [|done].
    apply Lxf_broadcast_lengths in Ebc as (? & ? & _). lia. }
  unfold Lxf.FindFreeIP, Part000.FindFreeIP, Lxf.prologue, Part000.prologue.
  by rewrite E.
Qed.

Lemma FindFreeIP_short_subnet_panics_witness :
  Lxf.FindFreeIP {| IP := None; Mask := Some 1%nat |} [] None None
    Fixtures.heap24 [0]
  = (Panicked, Fixtures.heap24).
Proof.
  apply (proj1 (FindFreeIP_short_subnet_panics
                  {| IP := None; Mask := Some 1%nat |} [] None None
                  Fixtures.heap24 [0] ltac:(left; simpl; lia))).
Defined.

Lemma IP_Equal_IPv4_nil a b c d : IP_Equal (IPv4 a b c d) [] = false.
Proof. reflexivity. Qed.

Lemma Lxf_leased_filter h leases extra a b c d :
  Lxf.leased h (filter is_Some leases ++ extra) (IPv4 a b c d)
  = Lxf.leased h (leases ++ extra) (IPv4 a b c d).
Proof.
  rewrite !Lxf_leased_snoc. f_equal. unfold Lxf.leased.
  induction leases as [|p leases IH]; [done|].
  destruct p as [l|].
  - rewrite filter_cons_True by done. cbn [existsb]. by rewrite IH.
  - rewrite filter_cons_False by (by intros [? ?]). cbn [existsb].
    change (bytes_at h None) with (@nil Z). by rewrite IP_Equal_IPv4_nil.
Qed.

Lemma Lxf_probe_ext h subnet l1 l2 start end_ draws :
  (∀ a b c d, Lxf.leased h l1 (IPv4 a b c d) = Lxf.leased h l2 (IPv4 a b c d)) →
  Lxf.probe h subnet l1 start end_ draws = Lxf.probe h subnet l2 start end_ draws.
Proof.
  intros Hext. induction draws as [|v draws IH]; [done|]. simpl.
  destruct (Lxf.trial_of h subnet v) as [t|] eqn:Ht; [|done].
  destruct (Lxf_trial_of_IPv4 _ _ _ _ Ht) as (a & b & c & d & -> & _).
  by rewrite Hext, IH.
Qed.

Lemma Part000_probe_ext h subnet l1 l2 start end_ draws :
  (∀ a b c d, Lxf.leased h l1 (IPv4 a b c d) = Lxf.leased h l2 (IPv4 a b c d)) →
  Part000.probe h subnet l1 start end_ draws
  = Part000.probe h subnet l2 start end_ draws.
Proof.
  intros Hext. induction draws as [|v draws IH]; [done|]. simpl.
  destruct (Lxf.trial_of h subnet v) as [t|] eqn:Ht; [|done].
  destruct (Lxf_trial_of_IPv4 _ _ _ _ Ht) as (a & b & c & d & -> & _).
  by rewrite Hext, IH.
Qed.

(** X23.  A nil lease, as [FindFreeIPBridgeLXD] appends for a lease whose
    text is no address, reserves nothing: with the nil entries removed from
    the leases, both revisions of [FindFreeIP] do the same, draw for draw,
    and leave the same store. *)
Theorem FindFreeIP_ignores_nil_leases subnet leases start end_ h draws :
  Lxf.FindFreeIP subnet (filter is_Some leases) start end_ h draws
  = Lxf.FindFreeIP subnet leases start end_ h draws
  ∧ Part000.FindFreeIP subnet (filter is_Some leases) start end_ h draws
    = Part000.FindFreeIP subnet leases start end_ h draws.
Proof.
  unfold Lxf.FindFreeIP, Part000.FindFreeIP, Lxf.prologue, Part000.prologue.
  destruct (mapM _ _) as [bc|]; [|done]. cbn [mbind option_bind alloc].
  split.
  - destruct (Lxf.default_start _ _ _) as [[s2 h2]|]; [|done].
    cbn [mbind option_bind].
    destruct (Lxf.default_end _ _ _) as [[e3 h3]|]; [|done].
    cbn [mbind option_bind]. f_equal.
    apply Lxf_probe_ext. intros. apply Lxf_leased_filter.
  - destruct (Part000.default_start _ _ _) as [[s2 h2]|]; [|done].
    cbn [mbind option_bind].
    destruct (Part000.default_end _ _ _) as [[e3 h3]|]; [|done].
    cbn [mbind option_bind]. f_equal.
    apply Part000_probe_ext. intros. apply Lxf_leased_filter.
Qed.
End Edges.
